(** * Texas Hold'em simulator: hand ranking (rules.py) and betting (game.py)

    A shallow embedding of [PokerRank] and of the betting operations of
    [PokerSimulator], with the properties of the specification stated on it,
    followed by further properties of the classifiers, of the chips, of the
    dealing, of the choice of the winners and of the showdown.

    Conventions.
    - A card is the Python tuple [(suit, rank)]; suits and ranks are the
      non-negative Python ints that [np.bincount] accepts, hence [nat].
    - A Python exception is [Raise e]; a classifier's [(True, hand)] is
      [Ok (Some hand)] and its [(False, None)] is [Ok None].
    - A Python number is an int or a float.  [PokerSimulator] embeds the
      simulator on chip amounts that are ints ([Z], exact and unbounded as
      Python's: the buy-in and the blinds of the constructor's defaults and
      every amount that [fold], [check] and [all_in] compute from them);
      its theorems about amounts are theorems about such chips.  [Binary64]
      embeds [verify_bet] on chip amounts that are floats, with the
      comparison and the rounding of binary64.
    - Dictionaries keyed by player are [gmap nat _]; the decision [None] of
      [decision_holder] is [None]. *)

From Stdlib Require Import Floats.PrimFloat Floats.FloatOps Floats.SpecFloat.
From stdpp Require Import gmap list strings sorting.

Open Scope Z_scope.
Open Scope nat_scope.

(** ** Python exceptions as an error monad *)

Inductive exn := IndexError | KeyError | ValueError.

Inductive result (A : Type) : Type :=
| Ok (a : A)
| Raise (e : exn).
Arguments Ok {A} a.
Arguments Raise {A} e.

#[global] Instance result_ret : MRet result := λ A a, Ok a.
#[global] Instance result_bind : MBind result := λ A B f m,
  match m with Ok a => f a | Raise e => Raise e end.

#[global] Instance result_fmap : FMap result := λ A B f m,
  match m with Ok a => Ok (f a) | Raise e => Raise e end.

Definition from_option {A} (e : exn) (o : option A) : result A :=
  match o with Some a => Ok a | None => Raise e end.

Fixpoint result_mapM {A B} (f : A → result B) (l : list A) : result (list B) :=
  match l with
  | [] => Ok []
  | x :: l' => y ← f x; ys ← result_mapM f l'; Ok (y :: ys)
  end.

(** ** The numpy operations the source relies on *)

Module Numpy.

Definition count (v : nat) (l : list nat) : nat :=
  length (filter (λ x, x = v) l).

(** [np.bincount(l)]: occurrences of every value from 0 to [max l].  The
    source never evaluates it on an empty list (see [argmax]). *)
Definition bincount (l : list nat) : list nat :=
  match l with
  | [] => []
  | _ => (λ v, count v l) <$> seq 0 (S (max_list l))
  end.

(** [np.argmax(a)]: index of the first maximum.  On an empty array numpy
    raises; every call of the source sits in the condition of a
    comprehension over a list that is empty exactly when the array is, so
    that the call is never evaluated then. *)
Definition argmax (a : list nat) : nat :=
  match list_find (λ v, v = max_list a) a with
  | Some (i, _) => i
  | None => 0
  end.

(** [np.unique(l)]: the distinct values in increasing order. *)
Definition unique (l : list nat) : list nat :=
  filter (λ v, v ∈ l) (seq 0 (S (max_list l))).

(** The second component of [np.unique(l, return_counts=True)]. *)
Definition unique_counts (l : list nat) : list nat :=
  (λ v, count v l) <$> unique l.

(** [arr[np.where(counts == k)]] for [arr, counts = np.unique(l, ...)]. *)
Definition where_count (k : nat) (l : list nat) : list nat :=
  filter (λ v, count v l = k) (unique l).

(** [np.diff(a)] on integers. *)
Fixpoint diff (a : list nat) : list Z :=
  match a with
  | x :: ((y :: _) as a') => (Z.of_nat y - Z.of_nat x)%Z :: diff a'
  | _ => []
  end.

(** [np.all(np.diff(a) == 1)] *)
Definition all_diff_one (a : list nat) : bool :=
  bool_decide (Forall (λ d, d = 1%Z) (diff a)).

(** The slice [a[i:j]] for [0 <= i <= j]. *)
Definition slice {A} (i j : nat) (a : list A) : list A :=
  take (j - i) (drop i a).

(** [l.sort()] on ints. *)
Fixpoint insert_asc (x : nat) (l : list nat) : list nat :=
  match l with
  | [] => [x]
  | y :: l' => if decide (x ≤ y) then x :: l else y :: insert_asc x l'
  end.

Definition sort_asc (l : list nat) : list nat := foldr insert_asc [] l.

End Numpy.

(** ** mapper.py *)

Definition card : Type := nat * nat.
Definition suit (c : card) : nat := c.1.
Definition rank (c : card) : nat := c.2.

Module Mapper.

Definition suits : list string := ["♣"; "♦"; "♥"; "♠"]%string.
Definition ranks : list string :=
  ["2"; "3"; "4"; "5"; "6"; "7"; "8"; "9"; "10"; "J"; "Q"; "K"; "A"]%string.

(** [self.ranks[card[1]] + self.suits[card[0]]] *)
Definition card_string (c : card) : result string :=
  r ← from_option IndexError (ranks !! rank c);
  s ← from_option IndexError (suits !! suit c);
  Ok (r +:+ s)%string.

End Mapper.

(** ** rules.py: class PokerRank *)

Inductive hand_category :=
| HighCard | OnePair | TwoPair | ThreeOfAKind | Straight
| Flush | FullHouse | FourOfAKind | StraightFlush | RoyalFlush.

#[global] Instance hand_category_eq_dec : EqDecision hand_category.
Proof. solve_decision. Defined.

(** Position in the order weakest to strongest; the scalar rank of a hand of
    category [k] is [13 * category_index k] plus a rank of 0 to 12. *)
Definition category_index (k : hand_category) : nat :=
  match k with
  | HighCard => 0 | OnePair => 1 | TwoPair => 2 | ThreeOfAKind => 3
  | Straight => 4 | Flush => 5 | FullHouse => 6 | FourOfAKind => 7
  | StraightFlush => 8 | RoyalFlush => 9
  end.

Module PokerRank.

Import Numpy.

(** [cards.sort(key=lambda card: card[1], reverse=True)]: Python's sort is
    stable, also with [reverse=True]. *)
Fixpoint insert_desc (c : card) (l : list card) : list card :=
  match l with
  | [] => [c]
  | d :: l' =>
      if decide (rank d ≤ rank c) then c :: l else d :: insert_desc c l'
  end.

Definition sort_desc (l : list card) : list card := foldr insert_desc [] l.

(** [ranks.sort(); return ranks[-1]] *)
Definition get_rank_of_highest_card (cards : list card) : result nat :=
  from_option IndexError (last (sort_asc (rank <$> cards))).

(** Builds the strings of all cards first, then sorts and takes the head. *)
Definition get_highest_card (cards : list card) : result card :=
  _ ← result_mapM Mapper.card_string cards;
  from_option IndexError (head (sort_desc cards)).

Definition is_flush (cards : list card) : option (list card) :=
  if decide (length cards < 5) then None
  else
    let suits := suit <$> cards in
    if decide (Exists (λ n, 5 ≤ n) (bincount suits)) then
      let flush_cards :=
        filter (λ c, suit c = argmax (bincount suits)) cards in
      Some (take 5 (sort_desc flush_cards))
    else None.

(** The inner function [unique_ranks] of [is_straight]. *)
Fixpoint first_of_each_rank (seen : list nat) (cards : list card) : list card :=
  match cards with
  | [] => []
  | c :: cs =>
      if decide (rank c ∈ seen) then first_of_each_rank seen cs
      else c :: first_of_each_rank (seen ++ [rank c]) cs
  end.

Definition unique_ranks (cards : list card) : list card :=
  take 5 (sort_desc (first_of_each_rank [] cards)).

(** One [if] of [is_straight], on the slice [w] of the distinct ranks. *)
Definition straight_window (w : list nat) (cards : list card)
  : option (list card) :=
  if all_diff_one w && bool_decide (length w = 5) then
    Some (unique_ranks (filter (λ c, rank c ∈ w) cards))
  else None.

Definition is_straight (cards : list card) : option (list card) :=
  let ranks := unique (sort_asc (rank <$> cards)) in
  if decide (length ranks < 5) then None
  else
    let cards := filter (λ c, rank c ∈ ranks) cards in
    match straight_window (slice 2 7 ranks) cards with
    | Some h => Some h
    | None =>
        match straight_window (slice 1 6 ranks) cards with
        | Some h => Some h
        | None => straight_window (slice 0 5 ranks) cards
        end
    end.

Definition is_royal_flush (hand : list card) : result (option (list card)) :=
  match is_flush hand with
  | Some flush_cards =>
      match is_straight flush_cards with
      | Some straight_cards =>
          top ← get_rank_of_highest_card hand;
          if decide (top = 12) then Ok (Some straight_cards) else Ok None
      | None => Ok None
      end
  | None => Ok None
  end.

Definition is_straight_flush (hand : list card) : option (list card) :=
  match is_flush hand with
  | Some flush_cards => is_straight flush_cards
  | None => None
  end.

Definition is_4_of_a_kind (cards : list card) : result (option (list card)) :=
  let ranks := rank <$> cards in
  if decide (4 ∈ unique_counts ranks) then
    let four_of_a_kind_cards :=
      filter (λ c, rank c = argmax (bincount ranks)) cards in
    let cards := filter (λ c, c ∉ four_of_a_kind_cards) cards in
    highest_card ← get_highest_card cards;
    Ok (Some (four_of_a_kind_cards ++ [highest_card]))
  else Ok None.

Definition is_full_house (cards : list card) : option (list card) :=
  let ranks := rank <$> cards in
  let counts := unique_counts ranks in
  if decide (3 ∈ counts ∧ 2 ∈ counts) then
    let three_of_a_kind_cards :=
      filter (λ c, rank c = argmax (bincount ranks)) cards in
    let cards := filter (λ c, c ∉ three_of_a_kind_cards) cards in
    let ranks := rank <$> cards in
    let two_of_a_kind_cards :=
      filter (λ c, rank c = argmax (bincount ranks)) cards in
    Some (three_of_a_kind_cards ++ two_of_a_kind_cards)
  else None.

Definition is_3_of_a_kind (cards : list card) : result (option (list card)) :=
  let ranks := rank <$> cards in
  if decide (3 ∈ unique_counts ranks) then
    let three_of_a_kind_cards :=
      filter (λ c, rank c = argmax (bincount ranks)) cards in
    let cards := sort_desc (filter (λ c, c ∉ three_of_a_kind_cards) cards) in
    h0 ← get_highest_card (drop 0 cards);
    h1 ← get_highest_card (drop 1 cards);
    Ok (Some (three_of_a_kind_cards ++ [h0; h1]))
  else Ok None.

Definition is_2_pairs (cards : list card) : result (option (list card)) :=
  let ranks := rank <$> cards in
  if decide (length (filter (λ n, n = 2) (unique_counts ranks)) = 2) then
    let pairs := where_count 2 ranks in
    let hand := filter (λ c, rank c ∈ pairs) cards in
    let cards := filter (λ c, c ∉ hand) cards in
    highest_card ← get_highest_card cards;
    Ok (Some (hand ++ [highest_card]))
  else Ok None.

Definition is_1_pair (cards : list card) : result (option (list card)) :=
  let ranks := rank <$> cards in
  if decide (2 ∈ unique_counts ranks) then
    pair ← from_option IndexError (head (where_count 2 ranks));
    let hand := filter (λ c, rank c = pair) cards in
    let cards := sort_desc (filter (λ c, c ∉ hand) cards) in
    if decide (length cards < 3) then Ok (Some hand)
    else
      h0 ← get_highest_card (drop 0 cards);
      h1 ← get_highest_card (drop 1 cards);
      h2 ← get_highest_card (drop 2 cards);
      Ok (Some (hand ++ [h0; h1; h2]))
  else Ok None.

Definition is_high_card (cards : list card) : option (list card) :=
  Some (take 5 (sort_desc cards)).

(** *** The scalar ranks *)

Definition get_rank_of_4_of_a_kind (hand : list card) : result nat :=
  r ← from_option IndexError (head (where_count 4 (rank <$> hand)));
  Ok (91 + r).

Definition get_rank_of_3_of_a_kind (hand : list card) : result nat :=
  r ← from_option IndexError (head (where_count 3 (rank <$> hand)));
  Ok (39 + r).

(** [np.max] of an empty array raises [ValueError]. *)
Definition get_rank_of_2_pairs (hand : list card) : result nat :=
  match where_count 2 (rank <$> hand) with
  | [] => Raise ValueError
  | pairs => Ok (26 + max_list pairs)
  end.

Definition get_rank_of_1_pair (hand : list card) : result nat :=
  r ← from_option IndexError (head (where_count 2 (rank <$> hand)));
  Ok (13 + r).

Definition get_rank_full_house (hand : list card) : result nat :=
  r ← from_option IndexError (head (where_count 3 (rank <$> hand)));
  Ok (78 + r).

Definition get_rank_straight (hand : list card) : result nat :=
  r ← from_option IndexError (last (sort_asc (rank <$> hand)));
  Ok (52 + r).

Definition highest_of_main_suit (hand : list card) : result nat :=
  let suit_ := argmax (bincount (suit <$> hand)) in
  let ranks := rank <$> filter (λ c, suit c = suit_) hand in
  from_option IndexError (last (sort_asc ranks)).

Definition get_rank_flush (hand : list card) : result nat :=
  r ← highest_of_main_suit hand; Ok (65 + r).

Definition get_rank_straight_flush (hand : list card) : result nat :=
  r ← highest_of_main_suit hand; Ok (104 + r).

Definition get_rank_royal_flush (hand : list card) : result nat := Ok 117.

(** *** [rank_hand_of_player] *)

(** What one call leaves behind: the name the classifier has in
    [hand_mapper], the hand stored into [self.player_hands[player]], and
    the returned scalar. *)
Record ranked := Ranked {
  category : hand_category;
  best_hand : list card;
  score : nat
}.

Definition classifier : Type :=
  (list card → result (option (list card)))
  * (list card → result nat) * hand_category.

Definition pure_check (f : list card → option (list card))
  : list card → result (option (list card)) := λ cards, Ok (f cards).

(** The dict [hands], in insertion order, each entry with its name. *)
Definition hands : list classifier :=
  [ (is_royal_flush, get_rank_royal_flush, RoyalFlush);
    (pure_check is_straight_flush, get_rank_straight_flush, StraightFlush);
    (is_4_of_a_kind, get_rank_of_4_of_a_kind, FourOfAKind);
    (pure_check is_full_house, get_rank_full_house, FullHouse);
    (pure_check is_flush, get_rank_flush, Flush);
    (pure_check is_straight, get_rank_straight, Straight);
    (is_3_of_a_kind, get_rank_of_3_of_a_kind, ThreeOfAKind);
    (is_2_pairs, get_rank_of_2_pairs, TwoPair);
    (is_1_pair, get_rank_of_1_pair, OnePair);
    (pure_check is_high_card, get_rank_of_highest_card, HighCard) ].

(** The loop [for fn_check, fn_rank in hands.items()], and the statement
    after it. *)
Fixpoint first_hand (hs : list classifier) (cards : list card)
  : result ranked :=
  match hs with
  | [] => r ← get_rank_of_highest_card cards; Ok (Ranked HighCard cards r)
  | (fn_check, fn_rank, name) :: hs' =>
      found ← fn_check cards;
      match found with
      | Some hand =>
          _ ← result_mapM Mapper.card_string hand;
          r ← fn_rank hand;
          Ok (Ranked name hand r)
      | None => first_hand hs' cards
      end
  end.

(** [cards] is [self.player_hands[player]]: the hole cards followed by the
    table cards. *)
Definition rank_hand_of_player (cards : list card) : result ranked :=
  first_hand hands cards.

(** *** The object: [__init__] and [get_winner] *)

(** [sorted(l, key=key, reverse=True)], stable like [sort_desc]. *)
Fixpoint insert_by_desc {A} (key : A → nat) (x : A) (l : list A) : list A :=
  match l with
  | [] => [x]
  | y :: l' =>
      if decide (key y ≤ key x) then x :: l else y :: insert_by_desc key x l'
  end.

Definition sorted_desc {A} (key : A → nat) (l : list A) : list A :=
  foldr (insert_by_desc key) [] l.

(** The two dicts of a [PokerRank] object, as lists of items in insertion
    order: the hand of every player and the scalar rank of every player. *)
Record poker_rank := PokerRankOf {
  player_hands : list (nat * list card);
  rank_player_hands : list (nat * nat)
}.

(** The loop of [__init__]: every call of [rank_hand_of_player] replaces the
    player's cards by the hand it found and yields the player's scalar. *)
Fixpoint rank_players (hands : list (nat * list card))
  : result (list (nat * list card) * list (nat * nat)) :=
  match hands with
  | [] => Ok ([], [])
  | (player, cards) :: rest =>
      r ← rank_hand_of_player cards;
      done ← rank_players rest;
      Ok ((player, best_hand r) :: done.1, (player, score r) :: done.2)
  end.

(** [PokerRank(player_hands, table_cards)] *)
Definition init (hands : list (nat * list card))
    (table_cards : option (list card)) : result poker_rank :=
  let hands :=
    match table_cards with
    | Some table => (λ ph, (ph.1, ph.2 ++ table)) <$> hands
    | None => hands
    end in
  done ← rank_players hands;
  Ok (PokerRankOf done.1 done.2).

(** The players at the head of the sorted list whose scalar is the highest:
    the loop that ends in [break]. *)
Fixpoint players_with_highest_rank (highest_rank : nat)
    (sorted_players : list (nat * nat)) : list nat :=
  match sorted_players with
  | [] => []
  | (player, r) :: rest =>
      if decide (r = highest_rank)
      then player :: players_with_highest_rank highest_rank rest
      else []
  end.

(** The loop [for i in range(5)] over two sorted hands, [n] rounds from
    index [i]: who is to be removed, if any. *)
Fixpoint compare_from (n i : nat) (hand1 hand2 : list card)
  : result comparison :=
  match n with
  | 0 => Ok Eq
  | S n' =>
      c1 ← from_option IndexError (hand1 !! i);
      c2 ← from_option IndexError (hand2 !! i);
      if decide (rank c2 < rank c1) then Ok Gt
      else if decide (rank c1 < rank c2) then Ok Lt
      else compare_from n' (S i) hand1 hand2
  end.

(** [if player not in players_removed: players_removed.append(player)] *)
Definition mark_removed (player : nat) (players_removed : list nat)
  : list nat :=
  if decide (player ∈ players_removed) then players_removed
  else players_removed ++ [player].

(** The inner loop, for one [player1]. *)
Fixpoint against (item1 : nat * list card) (items : list (nat * list card))
    (players_removed : list nat) : result (list nat) :=
  match items with
  | [] => Ok players_removed
  | item2 :: rest =>
      if decide (item1.1 = item2.1) then against item1 rest players_removed
      else
        c ← compare_from 5 0 item1.2 item2.2;
        against item1 rest
          match c with
          | Gt => mark_removed item2.1 players_removed
          | Lt => mark_removed item1.1 players_removed
          | Eq => players_removed
          end
  end.

(** The outer loop, over the players still to take the part of [player1]. *)
Fixpoint all_against (outer items : list (nat * list card))
    (players_removed : list nat) : result (list nat) :=
  match outer with
  | [] => Ok players_removed
  | item1 :: rest =>
      players_removed ← against item1 items players_removed;
      all_against rest items players_removed
  end.

(** [l.remove(x)]: the first occurrence goes, [ValueError] when there is
    none. *)
Definition list_remove (x : nat) (l : list nat) : result (list nat) :=
  match list_find (λ y, y = x) l with
  | Some (i, _) => Ok (delete i l)
  | None => Raise ValueError
  end.

Fixpoint remove_all (players_removed l : list nat) : result (list nat) :=
  match players_removed with
  | [] => Ok l
  | player :: rest => l ← list_remove player l; remove_all rest l
  end.

(** [d[k]] on a list of items. *)
Fixpoint item_of {V} (d : list (nat * V)) (k : nat) : result V :=
  match d with
  | [] => Raise KeyError
  | (k', v) :: d' => if decide (k' = k) then Ok v else item_of d' k
  end.

Definition get_winner (self : poker_rank) : result (list nat) :=
  let sorted_players := sorted_desc snd (rank_player_hands self) in
  first ← from_option IndexError (head sorted_players);
  let highest_rank := first.2 in
  let tied := players_with_highest_rank highest_rank sorted_players in
  if decide (length tied = 1) then Ok tied
  else
    hands ← result_mapM
              (λ player, hand ← item_of (player_hands self) player;
                         Ok (player, sort_desc hand)) tied;
    players_removed ← all_against hands hands [];
    remove_all players_removed tied.

End PokerRank.

(** ** game.py: the betting operations of class PokerSimulator *)

Module PokerSimulator.

(** The attributes of the simulator that betting reads and writes.  An
    action and a recorded decision are the source's strings ['fold'],
    ['check'], ['raise'], ['all-in']; an open decision is [None]. *)
Record state := State {
  n_players : Z;
  small_blind : Z;
  big_blind : Z;
  last_bet : Z;
  player_money : gmap nat Z;
  decision_holder : gmap nat (option string);
  player_bets : gmap nat Z;
  order_of_play : list nat
}.

Definition set_n_players (v : Z) (st : state) : state :=
  State v (small_blind st) (big_blind st) (last_bet st) (player_money st)
    (decision_holder st) (player_bets st) (order_of_play st).
Definition set_last_bet (v : Z) (st : state) : state :=
  State (n_players st) (small_blind st) (big_blind st) v (player_money st)
    (decision_holder st) (player_bets st) (order_of_play st).
Definition set_player_money (v : gmap nat Z) (st : state) : state :=
  State (n_players st) (small_blind st) (big_blind st) (last_bet st) v
    (decision_holder st) (player_bets st) (order_of_play st).
Definition set_decision_holder (v : gmap nat (option string)) (st : state)
  : state :=
  State (n_players st) (small_blind st) (big_blind st) (last_bet st)
    (player_money st) v (player_bets st) (order_of_play st).
Definition set_player_bets (v : gmap nat Z) (st : state) : state :=
  State (n_players st) (small_blind st) (big_blind st) (last_bet st)
    (player_money st) (decision_holder st) v (order_of_play st).

(** [d[k]] *)
Definition getitem {V} (d : gmap nat V) (k : nat) : result V :=
  from_option KeyError (d !! k).

Definition verify_bet (player : nat) (amount : Z) (st : state)
  : result (bool * state) :=
  money ← getitem (player_money st) player;
  let '(amount, st, valid) :=
    if decide (amount > money)%Z
    then (money, set_player_money (<[player := 0%Z]> (player_money st)) st,
          false)
    else (amount,
          set_player_money (<[player := (money - amount)%Z]> (player_money st))
            st,
          true) in
  bets ← getitem (player_bets st) player;
  let new_bets := (bets + amount)%Z in
  let st := set_player_bets (<[player := new_bets]> (player_bets st)) st in
  let st :=
    set_last_bet
      (if decide (new_bets > last_bet st)%Z then new_bets else last_bet st)
      st in
  Ok (valid, st).

(** [self.order_of_play[player] == self.n_players - k and
     self.player_bets[player] < blind], evaluated left to right. *)
Definition owes_blind (seat : nat) (k blind : Z) (player : nat) (st : state)
  : result bool :=
  if decide (Z.of_nat seat = n_players st - k)%Z then
    bets ← getitem (player_bets st) player;
    Ok (bool_decide (bets < blind)%Z)
  else Ok false.

(** The amount [blind - self.player_bets[player]] forced into the pot. *)
Definition pay_blind (blind : Z) (player : nat) (st : state) : result state :=
  bets ← getitem (player_bets st) player;
  snd <$> verify_bet player (blind - bets)%Z st.

Definition fold (player : nat) (st : state) : result state :=
  seat ← from_option IndexError (order_of_play st !! player);
  small ← owes_blind seat 2 (small_blind st) player st;
  st ← (if small : bool then pay_blind (small_blind st) player st
        else
          big ← owes_blind seat 1 (big_blind st) player st;
          if big : bool then pay_blind (big_blind st) player st else Ok st);
  let st := set_n_players (n_players st - 1)%Z st in
  _ ← getitem (player_money st) player;
  Ok st.

Definition check (player : nat) (st : state) : result state :=
  bets ← getitem (player_bets st) player;
  if decide (bets ≤ last_bet st)%Z then
    let amount := (last_bet st - bets)%Z in
    let st :=
      set_last_bet
        (if decide (bets > last_bet st)%Z then bets else last_bet st) st in
    snd <$> verify_bet player amount st
  else Ok st.

Definition all_in (player : nat) (st : state) : result state :=
  amount ← getitem (player_money st) player;
  let amount :=
    if decide (amount < big_blind st)%Z then big_blind st else amount in
  snd <$> verify_bet player amount st.

(** [amount] is the number that [torch.clamp(bet_dist.sample(),
    min=self.last_bet, max=player_money).item()] returns: torch draws and
    clamps in its own arithmetic (binary32), and nothing is assumed here of
    the result but that it is a whole number like the other amounts.  torch
    validates the arguments of [Normal]: a scale that is not positive is a
    [ValueError]. *)
Definition raise_money (amount : Z) (player : nat) (st : state)
  : result state :=
  money ← getitem (player_money st) player;
  if decide (money < big_blind st)%Z then all_in player st
  else if decide (money ≤ 0)%Z then Raise ValueError
  else snd <$> verify_bet player amount st.

(** [amount] is the amount of [raise_money], read only by a raise. *)
Definition player_action (amount : Z) (player : nat) (action : string)
    (st : state) : result state :=
  st ← (if decide (action = "fold") then fold player st
        else if decide (action = "check") then check player st
        else if decide (action = "raise") then raise_money amount player st
        else if decide (action = "all-in") then all_in player st
        else Raise ValueError);
  Ok (set_decision_holder (<[player := Some action]> (decision_holder st)) st).

(** The body of the loop [for i in range(idx)], over the players
    [order_of_play[0] .. order_of_play[idx-1]]. *)
Fixpoint reopen (earlier : list nat) (dh : gmap nat (option string))
  : result (gmap nat (option string)) :=
  match earlier with
  | [] => Ok dh
  | q :: rest =>
      d ← getitem dh q;
      if decide (d ∈ [Some "fold"; Some "all-in"]) then reopen rest dh
      else reopen rest (<[q := None]> dh)
  end.

Definition get_players_in_round (player : nat) (action : string)
    (st : state) : result state :=
  if decide (action ∈ ["raise"; "all-in"]) then
    idx ← from_option ValueError
            (fst <$> list_find (λ q, q = player) (order_of_play st));
    dh ← reopen (take idx (order_of_play st)) (decision_holder st);
    Ok (set_decision_holder dh st)
  else Ok st.

(** One turn of [player_moves]: the action, then the reopening. *)
Definition take_turn (amount : Z) (player : nat) (action : string)
    (st : state) : result state :=
  st ← player_action amount player action st;
  get_players_in_round player action st.

(** The inner function [players_in] of [poker_round]; its result is only
    tested for membership. *)
Definition players_in (dh : gmap nat (option string)) : list nat :=
  (filter (λ kv, kv.2 ≠ Some "fold") (map_to_list dh)).*1.

(** The dict comprehension of [poker_round] that runs between two streets. *)
Definition next_street (st : state) : state :=
  let players := players_in (decision_holder st) in
  set_decision_holder
    (map_imap (λ player d, Some (if decide (player ∈ players) then None else d))
       (decision_holder st))
    st.

(** [distribute_pot] prints the winners and ends in [pass]. *)
Definition distribute_pot (winner : list nat) (st : state) : state := st.

(** *** The deck *)

(** A card of the deck is a number from 0 to 51. *)
Definition get_suit (number : nat) : nat := number / 13.
Definition get_rank (number : nat) : nat := number mod 13.
Definition get_card (number : nat) : card :=
  (get_suit number, get_rank number).

(** [reshape(n, 2)] of a flat array. *)
Fixpoint pairs_of (l : list nat) : list (list nat) :=
  match l with
  | x :: y :: l' => [x; y] :: pairs_of l'
  | _ => []
  end.

(** The dealing of [instantiate]: [draw] is the array that
    [np.random.choice(deck, 5 + n_players * 2, replace=False)] returns and
    [players] the players with money, in the order of the dict.  The result
    is [cards_on_table] and the items of [player_hands]. *)
Definition deal (draw players : list nat)
  : result (list card * list (nat * list card)) :=
  let cards_on_table : list card := get_card <$> take 5 draw in
  let rest := drop 5 draw in
  if decide (length rest = length players * 2) then
    Ok (cards_on_table,
        zip players
          ((λ cards : list nat, get_card <$> cards) <$> pairs_of rest))
  else Raise ValueError.

(** *** Seats *)

(** [order_copy[-1]] fails on an empty list. *)
Definition rotate (st : state) : result state :=
  let order_copy := order_of_play st in
  final ← from_option IndexError (last order_copy);
  Ok (State (n_players st) (small_blind st) (big_blind st) (last_bet st)
        (player_money st) (decision_holder st) (player_bets st)
        (final :: take (length order_copy - 1) order_copy)).

(** *** A new round *)

(** [self.player_money[player] > 0] *)
Definition has_chips (money : gmap nat Z) (player : nat) : Prop :=
  match money !! player with
  | Some m => (0 < m)%Z
  | None => False
  end.

#[global] Instance has_chips_dec money player :
  Decision (has_chips money player).
Proof. unfold has_chips. destruct (money !! player); apply _. Defined.

(** [instantiate]: [n_rounds] is the attribute of that name and [keys] the
    keys of [player_money], in the order of the dict.
    [np.random.choice(deck, 5 + self.n_players * 2, replace=False)] raises
    [ValueError] when it is asked for more numbers than the 52 of the deck;
    otherwise [draw] is the array it returns.  The result is
    [cards_on_table], [player_hands] and the state; the cards of player 0
    are printed. *)
Definition instantiate (n_rounds : nat) (keys draw : list nat) (st : state)
  : result (list card * gmap nat (list card) * state) :=
  st ← (if decide (0 < n_rounds) then rotate st else Ok st);
  let players := filter (has_chips (player_money st)) keys in
  if decide (52 < 5 + length players * 2) then Raise ValueError
  else
    dealt ← deal draw players;
    let player_hands : gmap nat (list card) := list_to_map dealt.2 in
    _ ← match player_hands !! 0 with
        | Some cards => result_mapM Mapper.card_string cards
        | None => Ok []
        end;
    Ok (dealt.1, player_hands,
        State (Z.of_nat (length players)) (small_blind st) (big_blind st)
          (big_blind st) (player_money st)
          (list_to_map ((λ player, (player, None)) <$> players))
          (list_to_map ((λ player, (player, 0%Z)) <$> players))
          (order_of_play st)).

(** *** Leaving the table *)

(** [del d[k]] *)
Definition delitem {V} (d : gmap nat V) (k : nat) : result (gmap nat V) :=
  match d !! k with
  | Some _ => Ok (delete k d)
  | None => Raise KeyError
  end.

(** [player_hands] is the dict [self.player_hands], which the betting
    operations do not read. *)
Definition remove_player (player : nat)
    (player_hands : gmap nat (list card)) (st : state)
  : result (gmap nat (list card) * state) :=
  let st := set_n_players (n_players st - 1)%Z st in
  player_hands ← delitem player_hands player;
  dh ← delitem (decision_holder st) player;
  let st := set_decision_holder dh st in
  bets ← delitem (player_bets st) player;
  let st := set_player_bets bets st in
  money ← delitem (player_money st) player;
  let st := set_player_money money st in
  order ← PokerRank.list_remove player (order_of_play st);
  Ok (player_hands,
      State (n_players st) (small_blind st) (big_blind st) (last_bet st)
        (player_money st) (decision_holder st) (player_bets st) order).

(** [sum(count) == 1] over [m >= self.big_blind]. *)
Definition is_game_over (st : state) : bool :=
  bool_decide
    (length (filter (λ kv, (big_blind st ≤ kv.2)%Z)
               (map_to_list (player_money st))) = 1).

(** *** One visit of [player_moves] *)

(** What the chain of [if]/[elif] at the head of a visit decides: the
    function returns, the loop goes on to the next player with a state, or
    the player is asked for an action. *)
Inductive visit :=
| Return (round_over : bool)
| Continue (st : state)
| Acts.

(** [players] is the list of keys of [decision_holder] taken when
    [player_moves] starts. *)
Definition visit_player (players : list nat) (player : nat) (st : state)
  : result visit :=
  money ← result_mapM (getitem (player_money st)) players;
  if decide (Forall (λ m, m = 0%Z) money) then Ok (Return true)
  else if decide (map_Forall (λ _ d, d ∈ [Some "fold"; Some "all-in"])
                    (decision_holder st)) then Ok (Return true)
  else if decide (map_Forall (λ _ d, d ≠ None) (decision_holder st))
  then Ok (Return false)
  else
    m ← getitem (player_money st) player;
    if decide (m = 0%Z) then
      Ok (Continue
            (set_decision_holder
               (<[player := Some "all-in"]> (decision_holder st)) st))
    else
      d ← getitem (decision_holder st) player;
      if decide (d ∈ [Some "fold"; Some "all-in"]) then Ok (Continue st)
      else Ok Acts.

(** *** Showdown *)

(** The line that [showdown] prints for a player: the first two cards of the
    hand. *)
Definition print_hole_cards (cards : list card) : result unit :=
  c0 ← from_option IndexError (cards !! 0);
  _ ← Mapper.card_string c0;
  c1 ← from_option IndexError (cards !! 1);
  _ ← Mapper.card_string c1;
  Ok ().

(** [player_hands] and [cards_on_table] are the attributes of the same
    names; the result is the winners handed to [distribute_pot] and the
    state it leaves. *)
Definition showdown (player_hands : gmap nat (list card))
    (cards_on_table : list card) (players : list nat) (st : state)
  : result (list nat * state) :=
  hands ← result_mapM
            (λ player, cards ← getitem player_hands player;
                       Ok (player, cards)) players;
  _ ← result_mapM (λ ph, print_hole_cards ph.2) hands;
  rules ← PokerRank.init hands (Some cards_on_table);
  winner ← PokerRank.get_winner rules;
  Ok (winner, distribute_pot winner st).

End PokerSimulator.

(** ** [verify_bet] on float chips *)

Module Binary64.

(** The attributes that [verify_bet] reads and writes, when the stacks, the
    bets and the amount to call are Python floats. *)
Record chips := Chips {
  last_bet : float;
  player_money : gmap nat float;
  player_bets : gmap nat float
}.

(** [verify_bet] with the comparison, the subtraction and the addition of
    binary64; the [0] that replaces an exceeded stack is the float zero. *)
Definition verify_bet (player : nat) (amount : float) (st : chips)
  : result (bool * chips) :=
  money ← PokerSimulator.getitem (player_money st) player;
  let '(amount, money', valid) :=
    if PrimFloat.ltb money amount
    then (money, <[player := PrimFloat.zero]> (player_money st), false)
    else (amount,
          <[player := PrimFloat.sub money amount]> (player_money st),
          true) in
  bets ← PokerSimulator.getitem (player_bets st) player;
  let new_bets := PrimFloat.add bets amount in
  Ok (valid,
      Chips
        (if PrimFloat.ltb (last_bet st) new_bets then new_bets
         else last_bet st)
        money' (<[player := new_bets]> (player_bets st))).


End Binary64.

(** * The reference check of the specification *)

Module Reference.

Import Numpy.

(** All sub-lists of [k] elements, in the order of the list. *)
Fixpoint combinations {A} (k : nat) (l : list A) : list (list A) :=
  match k, l with
  | 0, _ => [[]]
  | S _, [] => []
  | S k', x :: l' => (cons x <$> combinations k' l') ++ combinations k l'
  end.

(** A suit with at least five cards. *)
Definition flush (h : list card) : bool :=
  bool_decide (Exists (λ s, 5 ≤ count s (suit <$> h)) (suit <$> h)).

(** The high rank of the straight that five cards form: five consecutive
    ranks, or the ace with 2, 3, 4, 5, whose high card is the 5 (rank 3). *)
Definition straight_high (h : list card) : option nat :=
  let ranks := sort_asc (rank <$> h) in
  if all_diff_one ranks && bool_decide (length ranks = 5) then last ranks
  else if bool_decide (ranks = [0; 1; 2; 3; 12]) then Some 3
  else None.

(** Some rank occurs exactly [k] times. *)
Definition of_a_kind (k : nat) (h : list card) : bool :=
  bool_decide (where_count k (rank <$> h) ≠ []).

(** The category of a hand of five cards, strongest test first. *)
Definition category5 (h : list card) : hand_category :=
  match straight_high h with
  | Some top =>
      if flush h then if decide (top = 12) then RoyalFlush else StraightFlush
      else Straight
  | None =>
      if of_a_kind 4 h then FourOfAKind
      else if of_a_kind 3 h && of_a_kind 2 h then FullHouse
      else if flush h then Flush
      else if of_a_kind 3 h then ThreeOfAKind
      else if decide (length (where_count 2 (rank <$> h)) = 2) then TwoPair
      else if of_a_kind 2 h then OnePair
      else HighCard
  end.

Definition stronger (k1 k2 : hand_category) : hand_category :=
  if decide (category_index k1 < category_index k2) then k2 else k1.

(** The best category over all sub-combinations of five cards. *)
Definition best_category (cards : list card) : hand_category :=
  foldr stronger HighCard (category5 <$> combinations 5 cards).

End Reference.

(** * Hands and tables used as examples *)

Section examples.

Import PokerSimulator.

(** Player 0 holds 50 chips and has to call the 100 of player 1. *)
Definition two_seats : state :=
  State 2 10 20 100 {[ 0 := 50%Z; 1 := 900%Z ]}
    {[ 0 := None; 1 := Some "raise" ]}
    {[ 0 := 0%Z; 1 := 100%Z ]} [0; 1].

(** Turn order [P0, P1, P2, P3]: P0 and P1 have called, P2 and P3 have not
    acted yet. *)
Definition four_seats : state :=
  State 4 10 20 20
    {[ 0 := 980%Z; 1 := 980%Z; 2 := 1000%Z; 3 := 1000%Z ]}
    {[ 0 := Some "check"; 1 := Some "check"; 2 := None; 3 := None ]}
    {[ 0 := 20%Z; 1 := 20%Z; 2 := 0%Z; 3 := 0%Z ]}
    [0; 1; 2; 3].

(** Player 0 is all-in, player 1 has called, player 2 has folded. *)
Definition after_flop : state :=
  State 2 10 20 100 {[ 0 := 0%Z; 1 := 900%Z; 2 := 980%Z ]}
    {[ 0 := Some "all-in"; 1 := Some "check"; 2 := Some "fold" ]}
    {[ 0 := 60%Z; 1 := 100%Z; 2 := 20%Z ]} [0; 1; 2].

(** Two players have bet 100 each and player 0 wins the showdown. *)
Definition heads_up : state :=
  State 2 10 20 100 {[ 0 := 900%Z; 1 := 900%Z ]}
    {[ 0 := Some "check"; 1 := Some "raise" ]}
    {[ 0 := 100%Z; 1 := 100%Z ]} [0; 1].

(** Ace of clubs, 2 of diamonds, 3 of hearts, 4 of spades, 5 of clubs. *)
Definition wheel : list card := [(0, 12); (1, 0); (2, 1); (3, 2); (0, 3)].

(** 3, 4, 5, 6, 7 of hearts and the ace of spades. *)
Definition steel_seven : list card :=
  [(2, 1); (2, 2); (2, 3); (2, 4); (2, 5); (3, 12)].

(** Three 2s, three kings and an ace. *)
Definition two_triples : list card :=
  [(0, 0); (1, 0); (2, 0); (0, 11); (1, 11); (2, 11); (0, 12)].

(** Three 5s, two 2s and two kings. *)
Definition triple_two_pairs : list card :=
  [(0, 3); (1, 3); (2, 3); (0, 0); (1, 0); (2, 11); (0, 11)].

(** Two 2s, two 3s, two 4s and a king. *)
Definition three_pairs : list card :=
  [(0, 0); (1, 0); (2, 1); (0, 1); (1, 2); (2, 2); (0, 11)].

(** Player 2 folded for the last chips of the big blind; player 1 is still
    to act. *)
Definition folded_broke : state :=
  State 2 10 20 100 {[ 0 := 900%Z; 1 := 900%Z; 2 := 0%Z ]}
    {[ 0 := Some "raise"; 1 := None; 2 := Some "fold" ]}
    {[ 0 := 100%Z; 1 := 0%Z; 2 := 20%Z ]} [0; 1; 2].

(** Two players with a pair of kings: the first holds an ace beside it. *)
Definition kings_tie : PokerRank.poker_rank :=
  PokerRank.PokerRankOf
    [(1, [(0, 11); (1, 11); (0, 12); (0, 5); (0, 3)]);
     (2, [(2, 11); (3, 11); (0, 10); (0, 9); (0, 7)])]
    [(1, 24); (2, 24)].

(** Twenty-four players with a buy-in of 1000 each. *)
Definition full_table : state :=
  State 24 10 20 20 (list_to_map ((λ player, (player, 1000%Z)) <$> seq 0 24))
    ∅ ∅ (seq 0 24).


End examples.

(** * Properties of the betting operations *)

Section betting.

Import PokerSimulator.

Implicit Types (st : state) (player q : nat) (action : string).

(** Membership in an explicit list, by cases on its elements. *)
Ltac list_mem :=
  rewrite ?elem_of_cons, ?elem_of_nil in *; intuition (subst; congruence).

Lemma getitem_Some {V} (d : gmap nat V) k v :
  d !! k = Some v → getitem d k = Ok v.
Proof. unfold getitem. by intros ->. Qed.

(** What [verify_bet] computes for a player present in both dicts: the
    amount really moved is the request capped by the stack. *)
Lemma verify_bet_eq player amount st m b :
  player_money st !! player = Some m →
  player_bets st !! player = Some b →
  let moved := if decide (amount > m)%Z then m else amount in
  verify_bet player amount st =
    Ok (bool_decide (amount ≤ m)%Z,
        State (n_players st) (small_blind st) (big_blind st)
          (if decide (b + moved > last_bet st)%Z then (b + moved)%Z
           else last_bet st)
          (<[player := (m - moved)%Z]> (player_money st))
          (decision_holder st)
          (<[player := (b + moved)%Z]> (player_bets st))
          (order_of_play st)).
Proof.
  intros Hm Hb. unfold verify_bet.
  rewrite (getitem_Some _ _ _ Hm). cbn.
  destruct (decide (amount > m)%Z) as [Hgt|Hle]; cbn;
    rewrite (getitem_Some _ _ _ Hb); cbn.
  - rewrite bool_decide_eq_false_2 by lia.
    by replace (m - m)%Z with 0%Z by lia.
  - by rewrite bool_decide_eq_true_2 by lia.
Qed.




(** *** Raises and all-ins *)

Definition terminal (d : option string) : Prop :=
  d ∈ [Some "fold"; Some "all-in"].

#[local] Instance terminal_dec d : Decision (terminal d).
Proof. unfold terminal. apply _. Defined.

(** The decision left by the reopening loop for a player it visits. *)
Definition reopened (d : option string) : option string :=
  if decide (terminal d) then d else None.

Lemma reopen_lookup earlier (dh : gmap nat (option string)) :
  (∀ q, q ∈ earlier → is_Some (dh !! q)) →
  ∃ dh', reopen earlier dh = Ok dh'
    ∧ ∀ q, dh' !! q =
        if decide (q ∈ earlier) then reopened <$> dh !! q else dh !! q.
Proof.
  revert dh. induction earlier as [|q0 rest IH]; intros dh Hkeys.
  { exists dh. split; [done|]. intros q.
    by rewrite decide_False by apply not_elem_of_nil. }
  destruct (Hkeys q0) as [d Hd]; [by left|].
  cbn. rewrite (getitem_Some _ _ _ Hd). cbn.
  destruct (decide (d ∈ [Some "fold"; Some "all-in"])) as [Ht|Ht].
  - destruct (IH dh) as (dh' & -> & Hdh').
    { intros q Hq. apply Hkeys. by right. }
    exists dh'. split; [done|]. intros q. rewrite Hdh'.
    destruct (decide (q = q0)) as [->|Hne].
    + rewrite (decide_True (P := q0 ∈ q0 :: rest)) by left.
      case_decide; [done|]. rewrite Hd. cbn. unfold reopened.
      by rewrite decide_True.
    + repeat case_decide; try done; list_mem.
  - destruct (IH (<[q0 := None]> dh)) as (dh' & -> & Hdh').
    { intros q Hq. destruct (decide (q = q0)) as [->|Hne].
      - rewrite lookup_insert_eq. eauto.
      - rewrite lookup_insert_ne by done. apply Hkeys. by right. }
    exists dh'. split; [done|]. intros q. rewrite Hdh'.
    destruct (decide (q = q0)) as [->|Hne].
    + rewrite (decide_True (P := q0 ∈ q0 :: rest)) by left.
      rewrite lookup_insert_eq, Hd. cbn. unfold reopened at 2.
      rewrite (decide_False (P := terminal d)) by done.
      by case_decide.
    + rewrite lookup_insert_ne by done.
      repeat case_decide; try done; list_mem.
Qed.

Lemma all_in_ok player st m b :
  player_money st !! player = Some m →
  player_bets st !! player = Some b →
  ∃ st', all_in player st = Ok st'
    ∧ decision_holder st' = decision_holder st
    ∧ order_of_play st' = order_of_play st.
Proof.
  intros Hm Hb. unfold all_in. rewrite (getitem_Some _ _ _ Hm). cbn.
  erewrite verify_bet_eq by done. cbn. eauto.
Qed.

Lemma raise_money_ok sample player st m b :
  (0 < big_blind st)%Z →
  player_money st !! player = Some m →
  player_bets st !! player = Some b →
  ∃ st', raise_money sample player st = Ok st'
    ∧ decision_holder st' = decision_holder st
    ∧ order_of_play st' = order_of_play st.
Proof.
  intros Hblind Hm Hb. unfold raise_money.
  rewrite (getitem_Some _ _ _ Hm). cbn.
  case_decide; [by eapply all_in_ok|].
  case_decide; [lia|].
  erewrite verify_bet_eq by done. cbn. eauto.
Qed.

(** **** Claim C4.
    A raise or an all-in of [player], who sits at index [idx] of the turn
    order, records the action as the player's decision, sets every player
    before [idx] whose decision is neither ['fold'] nor ['all-in'] back to
    undecided, leaves the folded and all-in players before [idx] alone, and
    does not touch any other player: those after [idx] who have not acted
    stay undecided.  This holds for every raise and all-in, so also for those
    that increase the amount to call.  The big blind is positive, so that a
    raise can draw its amount. *)
Theorem raise_reopens_action sample player action st idx m b :
  (0 < big_blind st)%Z →
  action ∈ ["raise"; "all-in"] →
  order_of_play st !! idx = Some player →
  player ∉ take idx (order_of_play st) →
  player_money st !! player = Some m →
  player_bets st !! player = Some b →
  (∀ q, q ∈ take idx (order_of_play st) → is_Some (decision_holder st !! q)) →
  ∃ st',
    take_turn sample player action st = Ok st'
    ∧ order_of_play st' = order_of_play st
    ∧ decision_holder st' !! player = Some (Some action)
    ∧ (∀ q d, q ∈ take idx (order_of_play st) →
         decision_holder st !! q = Some d → ¬ terminal d →
         decision_holder st' !! q = Some None)
    ∧ (∀ q d, q ∈ take idx (order_of_play st) →
         decision_holder st !! q = Some d → terminal d →
         decision_holder st' !! q = Some d)
    ∧ (∀ q, q ∉ take idx (order_of_play st) → q ≠ player →
         decision_holder st' !! q = decision_holder st !! q).
Proof.
  intros Hblind Hact Hidx Hfirst Hm Hb Hkeys.
  assert (∃ st1, player_action sample player action st = Ok st1
            ∧ decision_holder st1
              = <[player := Some action]> (decision_holder st)
            ∧ order_of_play st1 = order_of_play st) as (st1 & Hpa & Hdh & Hord).
  { unfold player_action.
    assert (action = "raise" ∨ action = "all-in") as [-> | ->] by list_mem.
    - destruct (raise_money_ok sample player st m b) as (st1 & -> & <- & <-);
        [done..|]. cbn. eauto.
    - destruct (all_in_ok player st m b) as (st1 & -> & <- & <-); [done..|].
      cbn. eauto. }
  unfold take_turn. rewrite Hpa. cbn. unfold get_players_in_round.
  rewrite decide_True by done. rewrite Hord.
  assert (list_find (λ q, q = player) (order_of_play st) = Some (idx, player))
    as ->.
  { apply list_find_Some. split_and!; [done..|].
    intros j y Hj Hlt ->. apply Hfirst.
    apply list_elem_of_lookup. exists j. by rewrite lookup_take_lt. }
  cbn.
  destruct (reopen_lookup (take idx (order_of_play st)) (decision_holder st1))
    as (dh' & -> & Hdh').
  { intros q Hq. rewrite Hdh.
    destruct (decide (q = player)) as [->|Hne]; [done|].
    rewrite lookup_insert_ne by done. by apply Hkeys. }
  cbn. eexists. split; [done|]. cbn. split; [done|].
  split_and!.
  - by rewrite Hdh', decide_False, Hdh, lookup_insert_eq.
  - intros q d Hq Hd Hnt. rewrite Hdh', decide_True, Hdh by done.
    rewrite lookup_insert_ne by (intros ->; done).
    rewrite Hd. cbn. unfold reopened. by rewrite decide_False.
  - intros q d Hq Hd Ht. rewrite Hdh', decide_True, Hdh by done.
    rewrite lookup_insert_ne by (intros ->; done).
    rewrite Hd. cbn. unfold reopened. by rewrite decide_True.
  - intros q Hq Hne. rewrite Hdh', decide_False, Hdh by done.
    by rewrite lookup_insert_ne.
Qed.

(** P2 raises: P0 and P1 are undecided again, P3 still is, P2 has raised. *)
Lemma raise_reopens_action_witness :
  ∃ st', take_turn 200 2 "raise" four_seats = Ok st'
    ∧ decision_holder st' !! 0 = Some None
    ∧ decision_holder st' !! 1 = Some None
    ∧ decision_holder st' !! 2 = Some (Some "raise")
    ∧ decision_holder st' !! 3 = Some None.
Proof.
  destruct (raise_reopens_action 200 2 "raise" four_seats 2 1000 0)
    as (st' & Hturn & _ & Hself & Hreset & _ & Hother).
  - reflexivity.
  - list_mem.
  - reflexivity.
  - cbn. list_mem.
  - reflexivity.
  - reflexivity.
  - intros q Hq.
    assert (q = 0 ∨ q = 1) as [-> | ->] by (cbn in Hq; list_mem);
      vm_compute; eauto.
  - exists st'. split_and!; [done| | |done|].
    + apply (Hreset 0 (Some "check")); [cbn; list_mem|done|].
      unfold terminal. list_mem.
    + apply (Hreset 1 (Some "check")); [cbn; list_mem|done|].
      unfold terminal. list_mem.
    + rewrite (Hother 3); [done|cbn; list_mem|done].
Defined.

(** *** Check and call *)

(** A check by a player who already matches the amount to call moves no
    chips and records ['check']. *)
Lemma check_matched_moves_nothing sample player st m b :
  player_money st !! player = Some m →
  player_bets st !! player = Some b →
  (0 ≤ m)%Z → (last_bet st ≤ b)%Z →
  ∃ st', player_action sample player "check" st = Ok st'
    ∧ player_money st' !! player = Some m
    ∧ player_bets st' !! player = Some b
    ∧ last_bet st' = last_bet st
    ∧ decision_holder st' !! player = Some (Some "check").
Proof.
  intros Hm Hb Hpos Hge. unfold player_action, check. cbn.
  rewrite (getitem_Some _ _ _ Hb). cbn.
  destruct (decide (b ≤ last_bet st)%Z) as [Hle|Hgt]; cbn.
  - assert (b = last_bet st) as -> by lia.
    erewrite verify_bet_eq by done. cbn.
    eexists. split; [done|]. cbn. rewrite !lookup_insert_eq.
    rewrite Z.sub_diag, !decide_False by lia.
    rewrite Z.sub_0_r, Z.add_0_r.
    split_and!; try done. repeat case_decide; lia.
  - eexists. split; [done|]. cbn. by rewrite lookup_insert_eq.
Qed.

(** **** Claim C5.
    A check by a player whose stack [m] is smaller than the shortfall
    [last_bet - b] succeeds and contributes the whole stack, and the decision
    it leaves in [decision_holder] is ['check']: the ['all-in'] that [check]
    computes is only printed. *)
Theorem check_short_stack_recorded_as_check sample player st m b :
  player_money st !! player = Some m →
  player_bets st !! player = Some b →
  (b ≤ last_bet st)%Z →
  (m < last_bet st - b)%Z →
  ∃ st', player_action sample player "check" st = Ok st'
    ∧ player_money st' !! player = Some 0%Z
    ∧ player_bets st' !! player = Some (b + m)%Z
    ∧ decision_holder st' !! player = Some (Some "check")
    ∧ decision_holder st' !! player ≠ Some (Some "all-in").
Proof.
  intros Hm Hb Hle Hshort. unfold player_action, check. cbn.
  rewrite (getitem_Some _ _ _ Hb). cbn.
  destruct (decide (b ≤ last_bet st)%Z) as [_|?]; [cbn|lia].
  erewrite verify_bet_eq by done. cbn.
  eexists. split; [done|]. cbn. rewrite !lookup_insert_eq.
  destruct (decide (last_bet st - b > m)%Z) as [_|?]; [|lia].
  rewrite Z.sub_diag. by split_and!.
Qed.

(** Player 0 holds 50 chips and has to call 100. *)
Lemma check_short_stack_recorded_as_check_witness :
  ∃ st', player_action 0 0 "check" two_seats = Ok st'
    ∧ player_money st' !! 0 = Some 0%Z
    ∧ player_bets st' !! 0 = Some (0 + 50)%Z
    ∧ decision_holder st' !! 0 = Some (Some "check")
    ∧ decision_holder st' !! 0 ≠ Some (Some "all-in").
Proof.
  apply (check_short_stack_recorded_as_check 0 0 two_seats 50 0);
    [reflexivity | reflexivity | vm_compute; discriminate | reflexivity].
Defined.

(** *** Between two streets *)

Lemma elem_of_players_in (dh : gmap nat (option string)) player :
  player ∈ players_in dh ↔
  ∃ d, dh !! player = Some d ∧ d ≠ Some "fold".
Proof.
  unfold players_in. rewrite list_elem_of_fmap. split.
  - intros ([q d] & -> & Hin). apply list_elem_of_filter in Hin as [Hd Hin].
    apply elem_of_map_to_list in Hin. eauto.
  - intros (d & Hd & Hne). exists (player, d). split; [done|].
    apply list_elem_of_filter. split; [done|]. by apply elem_of_map_to_list.
Qed.

(** **** Claim C6.
    The reset that [poker_round] runs between two streets keeps ['fold'] and
    sets every other decision to undecided, ['all-in'] included. *)
Theorem next_street_keeps_only_fold st player d :
  decision_holder st !! player = Some d →
  decision_holder (next_street st) !! player =
    Some (if decide (d = Some "fold") then Some "fold" else None).
Proof.
  intros Hd. unfold next_street. cbn. rewrite map_lookup_imap, Hd. cbn.
  f_equal. destruct (decide (d = Some "fold")) as [->|Hne].
  - rewrite decide_False; [done|].
    rewrite elem_of_players_in. intros (d' & Hd' & Hne). congruence.
  - rewrite decide_True; [done|]. apply elem_of_players_in. eauto.
Qed.

Lemma next_street_keeps_only_fold_witness :
  decision_holder (next_street after_flop) !! 0 = Some None
  ∧ decision_holder (next_street after_flop) !! 2 = Some (Some "fold").
Proof.
  split.
  - apply (next_street_keeps_only_fold after_flop 0 (Some "all-in")).
    reflexivity.
  - apply (next_street_keeps_only_fold after_flop 2 (Some "fold")).
    reflexivity.
Defined.

(** *** The pot *)

(** **** Claim C3.
    [distribute_pot] moves no chips: whoever wins, every stack and every bet
    is what it was; the winner of a pot of 200 keeps a stack of 900. *)
Theorem distribute_pot_moves_no_chips :
  (∀ winner st, distribute_pot winner st = st)
  ∧ player_money (distribute_pot [0] heads_up) !! 0 = Some 900%Z
  ∧ player_bets (distribute_pot [0] heads_up) !! 0 = Some 100%Z
  ∧ player_bets (distribute_pot [0] heads_up) !! 1 = Some 100%Z.
Proof. by split_and!. Qed.

End betting.

(** * Properties of the hand ranking *)

Section ranking.

Import Numpy PokerRank.

Implicit Types (cards hand : list card) (c : card).

(** *** Sorting and the numpy operations *)

Lemma insert_asc_perm x (l : list nat) : insert_asc x l ≡ₚ x :: l.
Proof.
  induction l as [|y l IH]; cbn; [done|].
  case_decide; [done|]. rewrite IH. apply Permutation_swap.
Qed.

Lemma sort_asc_perm (l : list nat) : sort_asc l ≡ₚ l.
Proof.
  induction l as [|x l IH]; cbn; [done|].
  by rewrite insert_asc_perm, IH.
Qed.

Lemma elem_of_unique v (l : list nat) : v ∈ unique l → v ∈ l.
Proof. unfold unique. rewrite list_elem_of_filter. tauto. Qed.

Lemma elem_of_slice {A} i j (l : list A) x : x ∈ slice i j l → x ∈ l.
Proof.
  unfold slice. intros Hx. by apply subseteq_take, subseteq_drop in Hx.
Qed.

(** Five values whose successive differences are all 1 are a run. *)
Lemma all_diff_one_run (w : list nat) :
  all_diff_one w = true → length w = 5 →
  ∃ r, w = [r; r + 1; r + 2; r + 3; r + 4].
Proof.
  unfold all_diff_one. intros Hd Hlen. apply bool_decide_eq_true in Hd.
  destruct w as [|a [|b [|c [|d [|e [|]]]]]]; try done.
  cbn in Hd.
  repeat match goal with
         | H : Forall _ (_ :: _) |- _ => apply Forall_cons in H as [? H]
         end.
  exists a. repeat f_equal; lia.
Qed.

(** *** Straights *)

(** The hand holds five consecutive ranks [r, r+1, .., r+4]. *)
Definition has_run cards : Prop :=
  ∃ r, ∀ i, i < 5 → r + i ∈ rank <$> cards.

Lemma straight_window_run w cards hand :
  straight_window w cards = Some hand →
  ∃ r, w = [r; r + 1; r + 2; r + 3; r + 4].
Proof.
  unfold straight_window.
  destruct (all_diff_one w) eqn:Hd; [|done]. cbn.
  case_bool_decide; [|done]. intros _. by apply all_diff_one_run.
Qed.

(** [is_straight] succeeds only on five consecutive ranks: its three windows
    are slices of the sorted distinct ranks, and each is tested for
    differences of exactly 1. *)
Lemma is_straight_run cards hand :
  is_straight cards = Some hand → has_run cards.
Proof.
  unfold is_straight. case_decide; [done|].
  set (ranks := unique (sort_asc (rank <$> cards))).
  set (cards' := filter _ cards).
  intros Hs.
  assert (∃ i j r, slice i j ranks = [r; r + 1; r + 2; r + 3; r + 4])
    as (i & j & r & Hw).
  { destruct (straight_window (slice 2 7 ranks) cards') eqn:H2.
    { apply straight_window_run in H2 as [r Hr]. eauto. }
    destruct (straight_window (slice 1 6 ranks) cards') eqn:H1.
    { apply straight_window_run in H1 as [r Hr]. eauto. }
    apply straight_window_run in Hs as [r Hr]. eauto. }
  exists r. intros k Hk.
  assert (r + k ∈ slice i j ranks) as Hin.
  { rewrite Hw.
    destruct k as [|[|[|[|[|]]]]]; [| | | | |lia];
      rewrite ?Nat.add_0_r; repeat constructor. }
  apply elem_of_slice, elem_of_unique in Hin.
  by rewrite sort_asc_perm in Hin.
Qed.

(** The category that [rank_hand_of_player] reports is the name of a
    classifier of the dict whose test succeeded. *)
Lemma first_hand_found hs cards r :
  first_hand hs cards = Ok r →
  (∃ fn_check fn_rank hand,
      (fn_check, fn_rank, category r) ∈ hs
      ∧ fn_check cards = Ok (Some hand) ∧ best_hand r = hand)
  ∨ category r = HighCard.
Proof.
  induction hs as [|[[fn_check fn_rank] name] hs IH]; cbn.
  { destruct (get_rank_of_highest_card cards); cbn; [|done].
    intros [= <-]. by right. }
  destruct (fn_check cards) as [[hand|]|] eqn:Hchk; cbn; [| |done].
  - destruct (result_mapM _ hand); cbn; [|done].
    destruct (fn_rank hand); cbn; [|done].
    intros [= <-]. left. exists fn_check, fn_rank, hand. cbn.
    split_and!; [left|done..].
  - intros Hr. destruct (IH Hr) as [(f & g & h & Hin & Hf)|Hhigh]; [|by right].
    left. exists f, g, h. split; [by right|done].
Qed.

(** **** Claim C2.
    A hand whose ranks include ace, 2, 3, 4, 5 (ranks 12, 0, 1, 2, 3) and
    that holds no five consecutive ranks fails [is_straight], and
    [rank_hand_of_player] never names it a straight: the ace is only ever the
    highest rank. *)
Theorem ace_low_run_is_no_straight cards :
  (∀ r, r ∈ [12; 0; 1; 2; 3] → r ∈ rank <$> cards) →
  ¬ has_run cards →
  is_straight cards = None
  ∧ ∀ r, rank_hand_of_player cards = Ok r → category r ≠ Straight.
Proof.
  intros _ Hrun.
  assert (is_straight cards = None) as Hnone.
  { destruct (is_straight cards) as [hand|] eqn:Hs; [|done].
    destruct Hrun. by eapply is_straight_run. }
  split; [done|]. intros r Hr Hcat.
  apply first_hand_found in Hr as [(f & g & h & Hin & Hf & _)|Hhigh];
    [|congruence].
  rewrite Hcat in Hin. unfold hands in Hin.
  repeat (apply elem_of_cons in Hin as [Hin|Hin]; [try discriminate Hin|]).
  - injection Hin as -> _. unfold pure_check in Hf. congruence.
  - by apply elem_of_nil in Hin.
Qed.

Lemma wheel_no_run : ¬ has_run wheel.
Proof.
  intros [r Hr].
  assert (∀ i, i < 5 → r + i ∈ [12; 0; 1; 2; 3]) as Hin by exact Hr.
  pose proof (Hin 0) as H0. pose proof (Hin 4) as H4.
  rewrite !elem_of_cons, elem_of_nil in H0, H4.
  pose proof (Hin 1) as H1. rewrite !elem_of_cons, elem_of_nil in H1.
  lia.
Qed.

Lemma ace_low_run_is_no_straight_witness :
  is_straight wheel = None
  ∧ (∀ r, rank_hand_of_player wheel = Ok r → category r ≠ Straight)
  ∧ rank_hand_of_player wheel
    = Ok (Ranked HighCard [(0, 12); (0, 3); (3, 2); (2, 1); (1, 0)] 12).
Proof.
  destruct (ace_low_run_is_no_straight wheel) as [Hs Hcat].
  - intros r Hr. vm_compute.
    rewrite !elem_of_cons, elem_of_nil in Hr.
    destruct Hr as [->|[->|[->|[->|[->|[]]]]]]; repeat constructor.
  - exact wheel_no_run.
  - split_and!; [exact Hs | exact Hcat | reflexivity].
Defined.

(** *** Royal and straight flushes *)

(** [is_royal_flush] is the straight-flush test together with an ace
    anywhere in the whole hand. *)
Lemma is_royal_flush_iff hand h :
  is_royal_flush hand = Ok (Some h) ↔
  is_straight_flush hand = Some h ∧ get_rank_of_highest_card hand = Ok 12.
Proof.
  unfold is_royal_flush, is_straight_flush.
  destruct (is_flush hand) as [flush_cards|]; [|intuition congruence].
  destruct (is_straight flush_cards) as [straight_cards|];
    [|intuition congruence].
  destruct (get_rank_of_highest_card hand) as [top|e]; cbn;
    [|intuition congruence].
  case_decide; intuition congruence.
Qed.

(** **** Claim C7.
    Whenever the straight-flush test succeeds and the whole hand holds an
    ace as its highest rank, the hand is ranked a royal flush with the scalar
    117, whatever the highest card of the straight flush itself is: the ace
    test of [is_royal_flush] reads the whole hand, not the straight's
    cards. *)
Theorem straight_flush_beside_ace_ranked_royal hand h strs :
  is_straight_flush hand = Some h →
  get_rank_of_highest_card hand = Ok 12 →
  result_mapM Mapper.card_string h = Ok strs →
  rank_hand_of_player hand = Ok (Ranked RoyalFlush h 117).
Proof.
  intros Hsf Htop Hstr.
  unfold rank_hand_of_player, hands. cbn [first_hand].
  rewrite (proj2 (is_royal_flush_iff hand h) (conj Hsf Htop)). cbn.
  by rewrite Hstr.
Qed.

(** The 7-high straight flush beside the ace of spades: ranked royal, where
    its own scalar would be 104 + 5 and the reference finds a straight
    flush. *)
Lemma straight_flush_beside_ace_ranked_royal_witness :
  rank_hand_of_player steel_seven
    = Ok (Ranked RoyalFlush [(2, 5); (2, 4); (2, 3); (2, 2); (2, 1)] 117)
  ∧ get_rank_straight_flush [(2, 5); (2, 4); (2, 3); (2, 2); (2, 1)]
    = Ok 109
  ∧ Reference.best_category steel_seven = StraightFlush.
Proof.
  split_and!.
  - apply (straight_flush_beside_ace_ranked_royal steel_seven
             [(2, 5); (2, 4); (2, 3); (2, 2); (2, 1)]
             ["7♥"; "6♥"; "5♥"; "4♥"; "3♥"]%string);
      vm_compute; reflexivity.
  - vm_compute; reflexivity.
  - vm_compute; reflexivity.
Defined.

(** *** Full houses *)

Lemma count_cons v x (l : list nat) :
  count v (x :: l) = (if decide (x = v) then 1 else 0) + count v l.
Proof. unfold count. rewrite filter_cons. by case_decide. Qed.

(** Three different values cannot occur more often than the list is long. *)
Lemma count3_le r1 r2 v (l : list nat) :
  r1 ≠ r2 → r1 ≠ v → r2 ≠ v →
  count r1 l + count r2 l + count v l ≤ length l.
Proof.
  intros H12 H1 H2. induction l as [|x l IH]; [done|].
  rewrite !count_cons. cbn [length]. repeat case_decide; subst; lia.
Qed.

Lemma elem_of_unique_counts k (l : list nat) :
  k ∈ unique_counts l → ∃ v, v ∈ l ∧ count v l = k.
Proof.
  unfold unique_counts. rewrite list_elem_of_fmap.
  intros (v & -> & Hv). apply elem_of_unique in Hv. eauto.
Qed.

(** [is_full_house] needs a rank that occurs exactly twice. *)
Lemma is_full_house_pair cards hand :
  is_full_house cards = Some hand →
  ∃ v, count v (rank <$> cards) = 2.
Proof.
  unfold is_full_house. case_decide as Hc; [|done]. intros _.
  destruct Hc as [_ H2]. apply elem_of_unique_counts in H2 as (v & _ & Hv).
  eauto.
Qed.

(** A hand that [rank_hand_of_player] names a full house passed
    [is_full_house]. *)
Lemma ranked_full_house cards r :
  rank_hand_of_player cards = Ok r → category r = FullHouse →
  is_full_house cards = Some (best_hand r).
Proof.
  intros Hr Hcat.
  apply first_hand_found in Hr as [(f & g & h & Hin & Hf & <-)|Hhigh];
    [|congruence].
  rewrite Hcat in Hin. unfold hands in Hin.
  repeat (apply elem_of_cons in Hin as [Hin|Hin]; [try discriminate Hin|]).
  - injection Hin as -> _. unfold pure_check in Hf. congruence.
  - by apply elem_of_nil in Hin.
Qed.

(** **** Claim C8.
    A hand of at most seven cards with two three-of-a-kinds fails
    [is_full_house], since no rank occurs exactly twice, and
    [rank_hand_of_player] never names it a full house. *)
Theorem two_triples_are_no_full_house cards r1 r2 :
  length cards ≤ 7 →
  r1 ≠ r2 →
  count r1 (rank <$> cards) = 3 →
  count r2 (rank <$> cards) = 3 →
  is_full_house cards = None
  ∧ ∀ r, rank_hand_of_player cards = Ok r → category r ≠ FullHouse.
Proof.
  intros Hlen Hne H1 H2.
  assert (is_full_house cards = None) as Hnone.
  { destruct (is_full_house cards) as [hand|] eqn:Hfh; [|done].
    apply is_full_house_pair in Hfh as [v Hv].
    destruct (decide (r1 = v)) as [->|Hv1]; [lia|].
    destruct (decide (r2 = v)) as [->|Hv2]; [lia|].
    pose proof (count3_le r1 r2 v (rank <$> cards) Hne Hv1 Hv2) as Hle.
    rewrite length_fmap in Hle. lia. }
  split; [done|]. intros r Hr Hcat.
  apply ranked_full_house in Hr; [|done]. congruence.
Qed.

(** Two triples are ranked three of a kind on the lower triple; a triple
    with two pairs is a full house built on the lower pair. *)
Lemma two_triples_are_no_full_house_witness :
  (is_full_house two_triples = None
   ∧ ∀ r, rank_hand_of_player two_triples = Ok r → category r ≠ FullHouse)
  ∧ rank_hand_of_player two_triples
    = Ok (Ranked ThreeOfAKind [(0, 0); (1, 0); (2, 0); (0, 12); (0, 11)] 39)
  ∧ rank_hand_of_player triple_two_pairs
    = Ok (Ranked FullHouse [(0, 3); (1, 3); (2, 3); (0, 0); (1, 0)] 81).
Proof.
  split; [|split].
  - apply (two_triples_are_no_full_house two_triples 0 11);
      [cbn; lia | lia | reflexivity | reflexivity].
  - vm_compute; reflexivity.
  - vm_compute; reflexivity.
Defined.

(** *** Five cards come back *)

(** A card that [Mapper.card_string] prints. *)
Definition valid_card c : Prop := suit c < 4 ∧ rank c < 13.

Lemma card_string_ok c : valid_card c → ∃ s, Mapper.card_string c = Ok s.
Proof.
  intros [Hs Hr]. unfold Mapper.card_string.
  destruct (lookup_lt_is_Some_2 Mapper.ranks (rank c)) as [r ->]; [done|].
  destruct (lookup_lt_is_Some_2 Mapper.suits (suit c)) as [s ->]; [done|].
  cbn. eauto.
Qed.

Lemma card_strings_ok cards :
  Forall valid_card cards →
  ∃ strs, result_mapM Mapper.card_string cards = Ok strs.
Proof.
  induction 1 as [|c cards Hc _ [strs IH]]; cbn; [eauto|].
  destruct (card_string_ok c Hc) as [s ->]. cbn. rewrite IH. cbn. eauto.
Qed.

Lemma insert_desc_perm c (l : list card) : insert_desc c l ≡ₚ c :: l.
Proof.
  induction l as [|d l IH]; cbn; [done|].
  case_decide; [done|]. rewrite IH. apply Permutation_swap.
Qed.

Lemma sort_desc_perm (l : list card) : sort_desc l ≡ₚ l.
Proof.
  induction l as [|x l IH]; cbn; [done|].
  by rewrite insert_desc_perm, IH.
Qed.

Lemma length_sort_desc (l : list card) : length (sort_desc l) = length l.
Proof. by rewrite sort_desc_perm. Qed.

Lemma get_highest_card_ok cards :
  Forall valid_card cards → cards ≠ [] →
  ∃ c, get_highest_card cards = Ok c ∧ c ∈ cards.
Proof.
  intros Hv Hne. unfold get_highest_card.
  destruct (card_strings_ok cards Hv) as [strs ->]. cbn.
  destruct (sort_desc cards) as [|c l] eqn:Hs.
  { apply (f_equal length) in Hs. rewrite length_sort_desc in Hs.
    by destruct cards. }
  cbn. exists c. split; [done|].
  rewrite <- (sort_desc_perm cards), Hs. by left.
Qed.

Lemma get_rank_of_highest_card_ok cards :
  cards ≠ [] → ∃ r, get_rank_of_highest_card cards = Ok r.
Proof.
  intros Hne. unfold get_rank_of_highest_card.
  destruct (last_is_Some (sort_asc (rank <$> cards))) as [_ [r ->]]; [|by eauto].
  intros Hs. apply (f_equal length) in Hs.
  rewrite sort_asc_perm, length_fmap in Hs. by destruct cards.
Qed.

(** *** Counting *)

Lemma count_app v (l1 l2 : list nat) :
  count v (l1 ++ l2) = count v l1 + count v l2.
Proof. unfold count. rewrite filter_app. apply length_app. Qed.

Lemma count_pos v (l : list nat) : 0 < count v l ↔ v ∈ l.
Proof.
  induction l as [|x l IH]; [rewrite elem_of_nil; cbn; lia|].
  rewrite count_cons, elem_of_cons. case_decide; subst; [|rewrite IH].
  - split; [by left|lia].
  - intuition congruence.
Qed.

Lemma count2_le r1 r2 (l : list nat) :
  r1 ≠ r2 → count r1 l + count r2 l ≤ length l.
Proof.
  intros H12. induction l as [|x l IH]; [done|].
  rewrite !count_cons. cbn [length]. repeat case_decide; subst; lia.
Qed.

Lemma length_filter_rank v cards :
  length (filter (λ c, rank c = v) cards) = count v (rank <$> cards).
Proof.
  induction cards as [|c cards IH]; [done|].
  rewrite fmap_cons, count_cons, filter_cons. case_decide; cbn; lia.
Qed.

Lemma length_filter_suit v cards :
  length (filter (λ c, suit c = v) cards) = count v (suit <$> cards).
Proof.
  induction cards as [|c cards IH]; [done|].
  rewrite fmap_cons, count_cons, filter_cons. case_decide; cbn; lia.
Qed.

Lemma elem_of_unique_2 v (l : list nat) : v ∈ l → v ∈ unique l.
Proof.
  intros Hv. unfold unique. apply list_elem_of_filter. split; [done|].
  apply elem_of_seq. pose proof (max_list_elem_of_le v l Hv). lia.
Qed.

Lemma elem_of_unique_counts_2 v (l : list nat) :
  v ∈ l → count v l ∈ unique_counts l.
Proof.
  intros Hv. unfold unique_counts.
  apply list_elem_of_fmap. exists v. split; [done|]. by apply elem_of_unique_2.
Qed.

Lemma elem_of_where_count k v (l : list nat) :
  v ∈ where_count k l ↔ v ∈ l ∧ count v l = k.
Proof.
  unfold where_count. rewrite list_elem_of_filter.
  split; intros [? ?]; split; auto using elem_of_unique, elem_of_unique_2.
Qed.

(** The value that [np.argmax(np.bincount(l))] picks occurs most often. *)
Lemma argmax_bincount_max v (l : list nat) :
  l ≠ [] → count v l ≤ count (argmax (bincount l)) l.
Proof.
  intros Hne.
  assert (bincount l = (λ v, count v l) <$> seq 0 (S (max_list l))) as Hbc
    by by destruct l.
  set (bc := bincount l) in *.
  assert (max_list bc ∈ bc) as Hmax.
  { apply max_list_elem_of. rewrite Hbc. done. }
  destruct (list_find_elem_of (λ x, x = max_list bc) bc _ Hmax eq_refl)
    as [[i x] Hfind].
  unfold argmax. fold bc. rewrite Hfind.
  apply list_find_Some in Hfind as (Hi & -> & _).
  remember (max_list bc) as m eqn:Hm.
  rewrite Hbc, list_lookup_fmap in Hi.
  destruct (seq 0 (S (max_list l)) !! i) as [j|] eqn:Hj; [|done].
  apply lookup_seq in Hj as [-> _]. injection Hi as Hi.
  rewrite Hi, Hm.
  destruct (decide (v ∈ l)) as [Hv|Hv].
  - apply max_list_elem_of_le. rewrite Hbc.
    apply list_elem_of_fmap. exists v. split; [done|].
    apply elem_of_seq. pose proof (max_list_elem_of_le v l Hv). lia.
  - assert (count v l = 0) as ->; [|lia].
    destruct (decide (0 < count v l)) as [Hp|]; [|lia].
    by apply count_pos in Hp.
Qed.

Lemma elem_of_bincount n (l : list nat) :
  n ∈ bincount l → ∃ v, n = count v l.
Proof.
  destruct l as [|x l]; [by intros ?%elem_of_nil|].
  unfold bincount. rewrite list_elem_of_fmap. intros (v & -> & _). eauto.
Qed.

Lemma filter_ext_in {A} (P Q : A → Prop)
    `{∀ x, Decision (P x)} `{∀ x, Decision (Q x)} (l : list A) :
  (∀ x, x ∈ l → (P x ↔ Q x)) → filter P l = filter Q l.
Proof.
  induction l as [|x l IH]; intros HPQ; [done|].
  rewrite !filter_cons.
  rewrite IH by (intros y Hy; apply HPQ; by right).
  pose proof (HPQ x ltac:(by left)).
  repeat case_decide; tauto.
Qed.

Lemma filter_all {A} (P : A → Prop) `{∀ x, Decision (P x)} (l : list A) :
  (∀ x, x ∈ l → P x) → filter P l = l.
Proof.
  induction l as [|x l IH]; intros HP; [done|].
  rewrite filter_cons, decide_True by (apply HP; by left).
  f_equal. apply IH. intros y Hy. apply HP. by right.
Qed.

Lemma length_filter_complement {A} (P : A → Prop) `{∀ x, Decision (P x)}
    (l : list A) :
  length (filter P l) + length (filter (λ x, ¬ P x) l) = length l.
Proof. by rewrite <- length_app, filter_app_complement. Qed.

(** Occurrences of a rank after a selection of the cards by rank. *)
Lemma count_filter_by_rank (Q : nat → Prop) `{∀ r, Decision (Q r)} v cards :
  count v (rank <$> filter (λ c, Q (rank c)) cards)
  = if decide (Q v) then count v (rank <$> cards) else 0.
Proof.
  induction cards as [|c cards IH]; [by case_decide|].
  rewrite filter_cons, fmap_cons, count_cons.
  destruct (decide (Q (rank c))) as [Hq|Hq].
  - rewrite fmap_cons, count_cons, IH. repeat case_decide; subst; done.
  - rewrite IH. repeat case_decide; subst; done.
Qed.

(** The cards left after [card not in chosen], for a choice by rank. *)
Lemma filter_not_chosen (Q : nat → Prop) `{∀ r, Decision (Q r)} cards :
  filter (λ c, c ∉ filter (λ c, Q (rank c)) cards) cards
  = filter (λ c, ¬ Q (rank c)) cards.
Proof.
  apply filter_ext_in. intros c Hc. rewrite list_elem_of_filter. tauto.
Qed.

Lemma filter_subseteq {A} (P : A → Prop) `{∀ x, Decision (P x)} (l : list A) :
  filter P l ⊆ l.
Proof. intros x. rewrite list_elem_of_filter. tauto. Qed.

Lemma Forall_subseteq {A} (P : A → Prop) (l k : list A) :
  k ⊆ l → Forall P l → Forall P k.
Proof. rewrite !Forall_forall. intros Hsub HP x Hx. apply HP, Hsub, Hx. Qed.

Lemma where_count_head k v (l : list nat) :
  v ∈ l → count v l = k → ∃ w, head (where_count k l) = Some w.
Proof.
  intros Hv Hk.
  assert (v ∈ where_count k l) as Hin by by apply elem_of_where_count.
  destruct (where_count k l); [by apply elem_of_nil in Hin|]. cbn. eauto.
Qed.

(** *** Each classifier on five to seven cards *)

(** What a classifier hands over: five of the given cards. *)
Definition five_of cards hand : Prop := length hand = 5 ∧ hand ⊆ cards.

Lemma is_flush_five cards hand :
  is_flush cards = Some hand → five_of cards hand.
Proof.
  unfold is_flush. case_decide as Hlen; [done|].
  case_decide as Hex; [|done]. intros [= <-].
  apply Exists_exists in Hex as (n & Hn & Hn5).
  apply elem_of_bincount in Hn as [s ->].
  assert (suit <$> cards ≠ []) as Hne by (destruct cards; [cbn in Hlen; lia|done]).
  pose proof (argmax_bincount_max s _ Hne) as Hmax.
  set (m := argmax (bincount (suit <$> cards))) in *.
  split.
  - rewrite length_take, length_sort_desc, length_filter_suit. lia.
  - intros c Hc. apply subseteq_take in Hc.
    rewrite sort_desc_perm in Hc. by apply filter_subseteq in Hc.
Qed.

Lemma first_of_each_rank_spec seen (l : list card) :
  NoDup (rank <$> first_of_each_rank seen l)
  ∧ (∀ r, r ∈ rank <$> first_of_each_rank seen l
          ↔ r ∈ rank <$> l ∧ r ∉ seen)
  ∧ first_of_each_rank seen l ⊆ l.
Proof.
  revert seen. induction l as [|c cs IH]; intros seen; cbn.
  { split_and!; [constructor| |done].
    intros r. rewrite elem_of_nil. tauto. }
  case_decide as Hseen.
  - destruct (IH seen) as (Hnd & Hin & Hsub). split_and!; [done| |].
    + intros r. rewrite Hin, elem_of_cons. intuition congruence.
    + intros x Hx. right. by apply Hsub.
  - destruct (IH (seen ++ [rank c])) as (Hnd & Hin & Hsub).
    rewrite fmap_cons. split_and!.
    + apply NoDup_cons. split; [|done].
      rewrite Hin, elem_of_app, list_elem_of_singleton. tauto.
    + intros r. rewrite !elem_of_cons, Hin, elem_of_app,
        list_elem_of_singleton.
      destruct (decide (r = rank c)) as [->|]; intuition congruence.
    + intros x [->|Hx]%elem_of_cons; [by left|]. right. by apply Hsub.
Qed.

Lemma run_NoDup r : NoDup [r; r + 1; r + 2; r + 3; r + 4].
Proof.
  replace [r; r + 1; r + 2; r + 3; r + 4] with (seq r 5);
    [apply NoDup_seq|].
  cbn. repeat f_equal; lia.
Qed.

Lemma straight_window_five w cards hand :
  straight_window w cards = Some hand →
  (∀ r, r ∈ w → r ∈ rank <$> cards) →
  five_of cards hand.
Proof.
  intros Hs Hw. destruct (straight_window_run _ _ _ Hs) as [r0 Hrun].
  unfold straight_window in Hs.
  destruct (all_diff_one w && bool_decide (length w = 5)); [|done].
  injection Hs as <-. unfold unique_ranks.
  set (F := filter (λ c, rank c ∈ w) cards).
  destruct (first_of_each_rank_spec [] F) as (Hnd & Hin & Hsub).
  assert (rank <$> first_of_each_rank [] F ≡ₚ w) as Hperm.
  { apply NoDup_Permutation; [done|rewrite Hrun; apply run_NoDup|].
    intros r. rewrite Hin, list_elem_of_fmap. split.
    - intros [(c & -> & Hc) _]. unfold F in Hc.
      by apply list_elem_of_filter in Hc as [? _].
    - intros Hr. split; [|apply not_elem_of_nil].
      destruct (proj1 (list_elem_of_fmap _ _ _) (Hw _ Hr)) as (c & -> & Hc).
      exists c. split; [done|]. by apply list_elem_of_filter. }
  split.
  - rewrite length_take, length_sort_desc.
    rewrite <- (length_fmap rank), Hperm, Hrun. done.
  - intros c Hc. apply subseteq_take in Hc.
    rewrite sort_desc_perm in Hc. by apply Hsub, filter_subseteq in Hc.
Qed.

Lemma is_straight_five cards hand :
  is_straight cards = Some hand → five_of cards hand.
Proof.
  unfold is_straight. case_decide; [done|].
  set (ranks := unique (sort_asc (rank <$> cards))).
  assert (filter (λ c, rank c ∈ ranks) cards = cards) as ->.
  { apply filter_all. intros c Hc.
    apply elem_of_unique_2. rewrite sort_asc_perm.
    by apply list_elem_of_fmap_2. }
  assert (∀ i j r, r ∈ slice i j ranks → r ∈ rank <$> cards) as Hsl.
  { intros i j r Hr. apply elem_of_slice, elem_of_unique in Hr.
    by rewrite sort_asc_perm in Hr. }
  destruct (straight_window (slice 2 7 ranks) cards) eqn:H2.
  { intros [= <-]. eapply straight_window_five; eauto. }
  destruct (straight_window (slice 1 6 ranks) cards) eqn:H1.
  { intros [= <-]. eapply straight_window_five; eauto. }
  intros H0. eapply straight_window_five; eauto.
Qed.

Lemma is_straight_flush_five cards hand :
  is_straight_flush cards = Some hand → five_of cards hand.
Proof.
  unfold is_straight_flush.
  destruct (is_flush cards) as [flush_cards|] eqn:Hf; [|done].
  intros [Hlen Hsub]%is_straight_five. apply is_flush_five in Hf as [_ Hf].
  split; [done|]. by etrans.
Qed.

Lemma count_absent v (l : list nat) : v ∉ l → count v l = 0.
Proof.
  intros Hv. destruct (decide (0 < count v l)) as [Hp|]; [|lia].
  by apply count_pos in Hp.
Qed.

Lemma get_highest_card_in (l cards : list card) :
  Forall valid_card cards → l ⊆ cards → l ≠ [] →
  ∃ k, get_highest_card l = Ok k ∧ k ∈ l.
Proof.
  intros Hv Hsub Hne. apply get_highest_card_ok; [|done].
  by eapply Forall_subseteq.
Qed.

(** The [i]-th kicker among the cards whose rank is not chosen. *)
Lemma kicker_ok (Q : nat → Prop) `{∀ r, Decision (Q r)} cards i :
  Forall valid_card cards →
  i < length (filter (λ c, ¬ Q (rank c)) cards) →
  ∃ k, get_highest_card
         (drop i (sort_desc (filter (λ c, ¬ Q (rank c)) cards))) = Ok k
    ∧ k ∈ cards ∧ ¬ Q (rank k).
Proof.
  intros Hv Hi.
  set (rest := sort_desc (filter (λ c, ¬ Q (rank c)) cards)).
  assert (rest ⊆ cards ∧ ∀ k, k ∈ rest → ¬ Q (rank k)) as [Hsub HQ].
  { split; intros k Hk; unfold rest in Hk; rewrite sort_desc_perm in Hk;
      apply list_elem_of_filter in Hk; tauto. }
  destruct (get_highest_card_in (drop i rest) cards) as (k & Hk & Hin);
    [done| |..].
  - etrans; [apply subseteq_drop|done].
  - intros Hnil. apply (f_equal length) in Hnil.
    rewrite length_drop in Hnil. unfold rest in Hnil.
    rewrite length_sort_desc in Hnil. cbn in Hnil. lia.
  - exists k. apply subseteq_drop in Hin. auto.
Qed.

Lemma count_rank_chosen m v cards :
  count v (rank <$> filter (λ c, rank c = m) cards)
  = if decide (v = m) then count v (rank <$> cards) else 0.
Proof. exact (count_filter_by_rank (λ r, r = m) v cards). Qed.

Lemma count_rank_rest m v cards :
  count v (rank <$> filter (λ c, rank c ≠ m) cards)
  = if decide (v ≠ m) then count v (rank <$> cards) else 0.
Proof. exact (count_filter_by_rank (λ r, r ≠ m) v cards). Qed.

Lemma rest_after_rank m cards :
  filter (λ c, c ∉ filter (λ c, rank c = m) cards) cards
  = filter (λ c, rank c ≠ m) cards.
Proof. exact (filter_not_chosen (λ r, r = m) cards). Qed.

Lemma length_rest_after_rank m cards :
  length (filter (λ c, rank c ≠ m) cards)
  = length cards - count m (rank <$> cards).
Proof.
  pose proof (length_filter_complement (λ c, rank c = m) cards) as Hc.
  rewrite length_filter_rank in Hc. lia.
Qed.

Lemma kicker_other_rank m cards i :
  Forall valid_card cards →
  i < length (filter (λ c, rank c ≠ m) cards) →
  ∃ k, get_highest_card
         (drop i (sort_desc (filter (λ c, rank c ≠ m) cards))) = Ok k
    ∧ k ∈ cards ∧ rank k ≠ m.
Proof. exact (kicker_ok (λ r, r = m) cards i). Qed.

Lemma length_filter_counts k (l u : list nat) :
  length (filter (λ n, n = k) ((λ v, count v l) <$> u))
  = length (filter (λ v, count v l = k) u).
Proof.
  induction u as [|x u IH]; [done|].
  rewrite fmap_cons, !filter_cons. repeat case_decide; cbn; congruence.
Qed.

Lemma where_count_NoDup k (l : list nat) : NoDup (where_count k l).
Proof. apply NoDup_filter, NoDup_filter, NoDup_seq. Qed.

Lemma count_rank_in (ps : list nat) v cards :
  count v (rank <$> filter (λ c, rank c ∈ ps) cards)
  = if decide (v ∈ ps) then count v (rank <$> cards) else 0.
Proof. exact (count_filter_by_rank (λ r, r ∈ ps) v cards). Qed.

Lemma rest_after_ranks (ps : list nat) cards :
  filter (λ c, c ∉ filter (λ c, rank c ∈ ps) cards) cards
  = filter (λ c, rank c ∉ ps) cards.
Proof. exact (filter_not_chosen (λ r, r ∈ ps) cards). Qed.

Lemma length_filter_two_ranks p1 p2 cards :
  p1 ≠ p2 →
  length (filter (λ c, rank c ∈ [p1; p2]) cards)
  = count p1 (rank <$> cards) + count p2 (rank <$> cards).
Proof.
  intros Hne. induction cards as [|c cards IH]; [done|].
  rewrite filter_cons, fmap_cons, !count_cons.
  destruct (decide (rank c ∈ [p1; p2])) as [Hin|Hin]; cbn [length];
    rewrite IH; rewrite !elem_of_cons, elem_of_nil in Hin;
    repeat case_decide; subst; try lia; tauto.
Qed.

Lemma highest_of_main_suit_ok hand :
  hand ≠ [] → ∃ r, highest_of_main_suit hand = Ok r.
Proof.
  intros Hne. unfold highest_of_main_suit.
  set (m := argmax (bincount (suit <$> hand))).
  destruct (last_is_Some
              (sort_asc (rank <$> filter (λ c, suit c = m) hand)))
    as [_ [r ->]]; [|by eauto].
  intros Hs. apply (f_equal length) in Hs.
  rewrite sort_asc_perm, length_fmap, length_filter_suit in Hs.
  destruct hand as [|c hand]; [done|].
  assert (suit <$> c :: hand ≠ []) as Hnil by done.
  pose proof (argmax_bincount_max (suit c) _ Hnil) as Hmax. fold m in Hmax.
  assert (0 < count (suit c) (suit <$> c :: hand)) as Hpos.
  { apply count_pos. rewrite fmap_cons. by left. }
  change (length []) with 0 in Hs. lia.
Qed.

Section seven_cards.

Variable cards : list card.
Hypothesis Hlen : 5 ≤ length cards ≤ 7.
Hypothesis Hvalid : Forall valid_card cards.

Lemma ranks_length : length (rank <$> cards) = length cards.
Proof. apply length_fmap. Qed.

Lemma ranks_nonempty : (rank <$> cards) ≠ [].
Proof.
  intros Hnil. apply (f_equal length) in Hnil.
  rewrite ranks_length in Hnil. cbn in Hnil. lia.
Qed.

(** The rank that [np.argmax(np.bincount((rank <$> cards)))] picks when some rank
    occurs [n] times and none occurs more often. *)
Lemma argmax_count n v :
  count v (rank <$> cards) = n →
  (∀ w, count w (rank <$> cards) ≤ n) →
  count (argmax (bincount (rank <$> cards))) (rank <$> cards) = n.
Proof.
  intros Hv Hmax.
  pose proof (argmax_bincount_max v (rank <$> cards) ranks_nonempty).
  pose proof (Hmax (argmax (bincount (rank <$> cards)))). lia.
Qed.

(** The hand [chosen + kickers]: the cards of rank [m], which occurs [n]
    times, followed by cards of other (rank <$> cards). *)
Lemma chosen_rank_scored m n (kickers : list card) :
  0 < n → count m (rank <$> cards) = n →
  (∀ k, k ∈ kickers → rank k ≠ m) →
  ∃ w, head (where_count n
               (rank <$> (filter (λ c, rank c = m) cards ++ kickers)))
       = Some w.
Proof.
  intros Hn Hm Hk.
  assert (count m (rank <$> (filter (λ c, rank c = m) cards ++ kickers)) = n)
    as Hcount.
  { rewrite fmap_app, count_app.
    rewrite count_rank_chosen, decide_True by done.
    rewrite (count_absent m (rank <$> kickers)); [lia|].
    intros (k & Hr & Hin)%list_elem_of_fmap. by apply (Hk k). }
  apply (where_count_head n m); [|done].
  apply count_pos. lia.
Qed.

Lemma is_4_of_a_kind_five :
((4 ∉ unique_counts (rank <$> cards)) ∧ is_4_of_a_kind cards = Ok None)
  ∨ ∃ hand, is_4_of_a_kind cards = Ok (Some hand)
      ∧ five_of cards hand
      ∧ ∃ s, get_rank_of_4_of_a_kind hand = Ok s.
Proof.
  unfold is_4_of_a_kind.
  destruct (decide (4 ∈ unique_counts (rank <$> cards))) as [H4|H4]; [right|by left].
  apply elem_of_unique_counts in H4 as (v & _ & Hv).
  set (m := argmax (bincount (rank <$> cards))).
  assert (count m (rank <$> cards) = 4) as Hm.
  { apply (argmax_count 4 v); [done|]. intros w.
    destruct (decide (w = v)) as [->|Hne]; [lia|].
    pose proof (count2_le w v (rank <$> cards) Hne). rewrite ranks_length in *. lia. }
  rewrite rest_after_rank.
  destruct (get_highest_card_in (filter (λ c, rank c ≠ m) cards) cards)
    as (k & -> & Hk); [done|apply filter_subseteq| |].
  { intros Hnil. apply (f_equal length) in Hnil.
    rewrite length_rest_after_rank in Hnil. cbn in Hnil. lia. }
  apply list_elem_of_filter in Hk as [Hkm Hk]. cbn.
  eexists. split; [done|]. split; [split|].
  - rewrite length_app, length_filter_rank. cbn. lia.
  - intros c [Hc|Hc]%elem_of_app; [by apply filter_subseteq in Hc|].
    apply list_elem_of_singleton in Hc as ->. done.
  - unfold get_rank_of_4_of_a_kind.
    destruct (chosen_rank_scored m 4 [k]) as [w ->]; [lia|done| |cbn; eauto].
    by intros ? ->%list_elem_of_singleton.
Qed.

Lemma is_full_house_five hand :
  is_full_house cards = Some hand →
  five_of cards hand ∧ ∃ s, get_rank_full_house hand = Ok s.
Proof.
  unfold is_full_house. case_decide as Hc; [|done]. intros [= <-].
  destruct Hc as [(v3 & _ & H3)%elem_of_unique_counts
                  (v2 & _ & H2)%elem_of_unique_counts].
  assert (v3 ≠ v2) as Hne by (intros ->; lia).
  set (m := argmax (bincount (rank <$> cards))).
  assert (count m (rank <$> cards) = 3) as Hm.
  { apply (argmax_count 3 v3); [done|]. intros w.
    destruct (decide (w = v3)) as [->|Hw3]; [lia|].
    destruct (decide (w = v2)) as [->|Hw2]; [lia|].
    pose proof (count3_le v3 v2 w (rank <$> cards) Hne).
    rewrite ranks_length in *. lia. }
  assert (m ≠ v2) as Hm2 by (intros ->; lia).
  rewrite rest_after_rank.
  set (rest := filter (λ c, rank c ≠ m) cards).
  assert (length rest = length cards - 3) as Hrest.
  { unfold rest. rewrite length_rest_after_rank. lia. }
  assert (count v2 (rank <$> rest) = 2) as Hv2.
  { unfold rest.
    rewrite count_rank_rest. by rewrite decide_True. }
  set (m' := argmax (bincount (rank <$> rest))).
  assert (count m' (rank <$> rest) = 2) as Hm'.
  { assert (rank <$> rest ≠ []) as Hnil.
    { intros Hnil. rewrite Hnil in Hv2. cbn in Hv2. lia. }
    pose proof (argmax_bincount_max v2 _ Hnil) as Hmax. fold m' in Hmax.
    destruct (decide (m' = v2)) as [->|Hne']; [done|].
    pose proof (count2_le m' v2 (rank <$> rest) Hne') as Hle.
    rewrite length_fmap in Hle. lia. }
  assert (rank <$> filter (λ c, rank c = m') rest ≠ [] →
          ∀ k, k ∈ filter (λ c, rank c = m') rest → rank k ≠ m) as Hother.
  { intros _ k [_ Hk]%list_elem_of_filter.
    unfold rest in Hk. by apply list_elem_of_filter in Hk as [? _]. }
  split; [split|].
  - rewrite length_app, !length_filter_rank. lia.
  - intros c [Hc|Hc]%elem_of_app; [by apply filter_subseteq in Hc|].
    by apply filter_subseteq, filter_subseteq in Hc.
  - unfold get_rank_full_house.
    destruct (chosen_rank_scored m 3 (filter (λ c, rank c = m') rest))
      as [w ->]; [lia|done| |cbn; eauto].
    intros k Hk. apply Hother; [|done].
    intros Hnil. apply (f_equal length) in Hnil.
    rewrite length_fmap, length_filter_rank in Hnil. cbn in Hnil. lia.
Qed.

Lemma is_3_of_a_kind_five :
  4 ∉ unique_counts (rank <$> cards) →
  is_3_of_a_kind cards = Ok None
  ∨ ∃ hand, is_3_of_a_kind cards = Ok (Some hand)
      ∧ five_of cards hand
      ∧ ∃ s, get_rank_of_3_of_a_kind hand = Ok s.
Proof.
  intros H4. unfold is_3_of_a_kind.
  destruct (decide (3 ∈ unique_counts (rank <$> cards))) as [H3|H3];
    [right|by left].
  apply elem_of_unique_counts in H3 as (v & _ & Hv).
  set (m := argmax (bincount (rank <$> cards))).
  assert (count m (rank <$> cards) = 3) as Hm.
  { apply (argmax_count 3 v); [done|]. intros w.
    destruct (decide (w = v)) as [->|Hne]; [lia|].
    pose proof (count2_le w v (rank <$> cards) Hne).
    rewrite ranks_length in *.
    destruct (decide (count w (rank <$> cards) = 4)) as [Hw4|]; [|lia].
    destruct H4. rewrite <- Hw4. apply elem_of_unique_counts_2.
    apply count_pos. lia. }
  rewrite rest_after_rank.
  assert (length (filter (λ c, rank c ≠ m) cards) = length cards - 3)
    as Hrest by (rewrite length_rest_after_rank; lia).
  destruct (kicker_other_rank m cards 0) as (h0 & -> & Hin0 & Hr0);
    [done|lia|].
  destruct (kicker_other_rank m cards 1) as (h1 & -> & Hin1 & Hr1);
    [done|lia|].
  cbn. eexists. split; [done|]. split; [split|].
  - rewrite length_app, length_filter_rank. cbn. lia.
  - intros c [Hc|Hc]%elem_of_app; [by apply filter_subseteq in Hc|].
    apply elem_of_cons in Hc as [->|Hc]; [done|].
    by apply list_elem_of_singleton in Hc as ->.
  - unfold get_rank_of_3_of_a_kind.
    destruct (chosen_rank_scored m 3 [h0; h1]) as [w ->];
      [lia|done| |cbn; eauto].
    intros k [->|Hk]%elem_of_cons; [done|].
    by apply list_elem_of_singleton in Hk as ->.
Qed.

Lemma is_2_pairs_five :
  is_2_pairs cards = Ok None
  ∨ ∃ hand, is_2_pairs cards = Ok (Some hand)
      ∧ five_of cards hand
      ∧ ∃ s, get_rank_of_2_pairs hand = Ok s.
Proof.
  unfold is_2_pairs.
  destruct (decide (length (filter (λ n, n = 2)
                              (unique_counts (rank <$> cards))) = 2))
    as [H2|H2]; [right|by left].
  unfold unique_counts in H2. rewrite length_filter_counts in H2.
  fold (where_count 2 (rank <$> cards)) in H2.
  pose proof (where_count_NoDup 2 (rank <$> cards)) as Hnd.
  assert (∀ p, p ∈ where_count 2 (rank <$> cards) →
               count p (rank <$> cards) = 2) as Hcount.
  { intros p Hp. by apply elem_of_where_count in Hp as [_ ?]. }
  destruct (where_count 2 (rank <$> cards)) as [|p1 [|p2 [|]]] eqn:Hps;
    try done.
  assert (p1 ≠ p2) as Hne.
  { apply NoDup_cons in Hnd as [Hnd _]. intros ->. apply Hnd. by left. }
  pose proof (Hcount p1 ltac:(by left)) as Hp1.
  pose proof (Hcount p2 ltac:(right; by left)) as Hp2.
  rewrite rest_after_ranks.
  destruct (get_highest_card_in
              (filter (λ c, rank c ∉ [p1; p2]) cards) cards)
    as (k & -> & Hk); [done|apply filter_subseteq| |].
  { intros Hnil. apply (f_equal length) in Hnil.
    pose proof (length_filter_complement (λ c, rank c ∈ [p1; p2]) cards)
      as Hc.
    rewrite length_filter_two_ranks in Hc by done.
    rewrite Hnil in Hc. cbn in Hc. lia. }
  apply list_elem_of_filter in Hk as [Hkp Hk]. cbn.
  eexists. split; [done|]. split; [split|].
  - rewrite length_app, length_filter_two_ranks by done. cbn. lia.
  - intros c [Hc|Hc]%elem_of_app; [by apply filter_subseteq in Hc|].
    by apply list_elem_of_singleton in Hc as ->.
  - unfold get_rank_of_2_pairs.
    assert (p1 ∈ where_count 2
              (rank <$> (filter (λ c, rank c ∈ [p1; p2]) cards ++ [k])))
      as Hin.
    { assert (count p1
                (rank <$> (filter (λ c, rank c ∈ [p1; p2]) cards ++ [k]))
              = 2) as Hc.
      { rewrite fmap_app, count_app, count_rank_in.
        rewrite decide_True by (by left).
        rewrite (count_absent p1 (rank <$> [k])); [lia|].
        intros Hin. apply list_elem_of_singleton in Hin.
        apply Hkp. rewrite <- Hin. by left. }
      apply elem_of_where_count. split; [|done]. apply count_pos. lia. }
    revert Hin.
    generalize (where_count 2
      (rank <$> (filter (λ c, rank c ∈ [p1; p2]) cards ++ [k]))).
    intros [|x l] Hin; [by apply elem_of_nil in Hin|eauto].
Qed.

Lemma is_1_pair_five :
  is_1_pair cards = Ok None
  ∨ ∃ hand, is_1_pair cards = Ok (Some hand)
      ∧ five_of cards hand
      ∧ ∃ s, get_rank_of_1_pair hand = Ok s.
Proof.
  unfold is_1_pair.
  destruct (decide (2 ∈ unique_counts (rank <$> cards))) as [H2|H2];
    [right|by left].
  apply elem_of_unique_counts in H2 as (v & Hin & Hv).
  destruct (where_count_head 2 v (rank <$> cards) Hin Hv) as [pair Hhead].
  rewrite Hhead. cbn.
  assert (count pair (rank <$> cards) = 2) as Hpair.
  { apply head_Some_elem_of in Hhead.
    by apply elem_of_where_count in Hhead as [_ ?]. }
  rewrite rest_after_rank.
  assert (length (filter (λ c, rank c ≠ pair) cards) = length cards - 2)
    as Hrest by (rewrite length_rest_after_rank; lia).
  rewrite decide_False by (rewrite length_sort_desc; lia).
  destruct (kicker_other_rank pair cards 0) as (h0 & -> & Hin0 & Hr0);
    [done|lia|].
  destruct (kicker_other_rank pair cards 1) as (h1 & -> & Hin1 & Hr1);
    [done|lia|].
  destruct (kicker_other_rank pair cards 2) as (h2 & -> & Hin2 & Hr2);
    [done|lia|].
  cbn. eexists. split; [done|]. split; [split|].
  - rewrite length_app, length_filter_rank. cbn. lia.
  - intros c [Hc|Hc]%elem_of_app; [by apply filter_subseteq in Hc|].
    rewrite !elem_of_cons, elem_of_nil in Hc.
    destruct Hc as [->|[->|[->|[]]]]; done.
  - unfold get_rank_of_1_pair.
    destruct (chosen_rank_scored pair 2 [h0; h1; h2]) as [w ->];
      [lia|done| |cbn; eauto].
    intros k Hk. rewrite !elem_of_cons, elem_of_nil in Hk.
    destruct Hk as [->|[->|[->|[]]]]; done.
Qed.

Lemma is_high_card_five hand :
  is_high_card cards = Some hand →
  five_of cards hand ∧ ∃ s, get_rank_of_highest_card hand = Ok s.
Proof.
  intros [= <-].
  assert (length (take 5 (sort_desc cards)) = 5) as Hfive
    by (rewrite length_take, length_sort_desc; lia).
  split; [split; [done|]|].
  - intros c Hc. apply subseteq_take in Hc.
    by rewrite sort_desc_perm in Hc.
  - apply get_rank_of_highest_card_ok. intros Hnil. by rewrite Hnil in Hfive.
Qed.

Lemma is_royal_flush_five :
  ∃ o, is_royal_flush cards = Ok o ∧ ∀ hand, o = Some hand → five_of cards hand.
Proof.
  unfold is_royal_flush.
  destruct (is_flush cards) as [flush_cards|] eqn:Hf; [|by eexists].
  destruct (is_straight flush_cards) as [straight_cards|] eqn:Hs;
    [|by eexists].
  destruct (get_rank_of_highest_card_ok cards) as [top ->].
  { intros Hnil. rewrite Hnil in Hlen. cbn in Hlen. lia. }
  cbn. case_decide; [|by eexists].
  eexists. split; [done|]. intros hand [= <-].
  apply is_straight_flush_five. unfold is_straight_flush. by rewrite Hf.
Qed.

End seven_cards.

(** *** The loop over the classifiers *)

Lemma first_hand_cons_some fn_check fn_rank name hs cards hand :
  Forall valid_card cards →
  fn_check cards = Ok (Some hand) →
  five_of cards hand →
  (∃ s, fn_rank hand = Ok s) →
  ∃ r, first_hand ((fn_check, fn_rank, name) :: hs) cards = Ok r
    ∧ five_of cards (best_hand r).
Proof.
  intros Hv Hchk Hfive [s Hs]. cbn. rewrite Hchk. cbn.
  destruct (card_strings_ok hand) as [strs ->].
  { eapply Forall_subseteq; [apply Hfive|done]. }
  cbn. rewrite Hs. cbn. eauto.
Qed.

Lemma first_hand_cons_none fn_check fn_rank name hs cards :
  fn_check cards = Ok None →
  first_hand ((fn_check, fn_rank, name) :: hs) cards = first_hand hs cards.
Proof. intros Hchk. cbn. by rewrite Hchk. Qed.

Lemma five_nonempty cards hand : five_of cards hand → hand ≠ [].
Proof. intros [Hlen _] ->. done. Qed.

(** On five to seven cards that the mapper prints, [rank_hand_of_player]
    returns, and the hand it stores consists of exactly five of the given
    cards. *)
Theorem five_cards_returned cards :
  5 ≤ length cards ≤ 7 →
  Forall valid_card cards →
  ∃ r, rank_hand_of_player cards = Ok r
    ∧ length (best_hand r) = 5 ∧ best_hand r ⊆ cards.
Proof.
  intros Hlen Hv.
  change (∃ r, rank_hand_of_player cards = Ok r
            ∧ five_of cards (best_hand r)).
  unfold rank_hand_of_player, hands.
  (* royal flush *)
  destruct (is_royal_flush_five cards Hlen) as ([hand|] & Hroyal & Hfive).
  { edestruct first_hand_cons_some as (r & -> & ?); eauto. }
  rewrite first_hand_cons_none by done.
  (* straight flush *)
  destruct (is_straight_flush cards) as [hand|] eqn:Hsf.
  { pose proof (is_straight_flush_five _ _ Hsf) as Hfive'.
    edestruct first_hand_cons_some as (r & -> & ?);
      [done|unfold pure_check; by rewrite Hsf|done| |eauto].
    unfold get_rank_straight_flush.
    destruct (highest_of_main_suit_ok hand) as [s ->];
      [by eapply five_nonempty|cbn; eauto]. }
  rewrite first_hand_cons_none by (unfold pure_check; by rewrite Hsf).
  (* four of a kind *)
  destruct (is_4_of_a_kind_five cards Hlen Hv)
    as [[H4 Hfour]|(hand & Hfour & Hfive' & Hs)].
  2:{ edestruct first_hand_cons_some as (r & -> & ?); eauto. }
  rewrite first_hand_cons_none by done.
  (* full house *)
  destruct (is_full_house cards) as [hand|] eqn:Hfh.
  { destruct (is_full_house_five cards Hlen hand Hfh) as [Hfive' Hs].
    edestruct first_hand_cons_some as (r & -> & ?);
      [done|unfold pure_check; by rewrite Hfh|done|done|eauto]. }
  rewrite first_hand_cons_none by (unfold pure_check; by rewrite Hfh).
  (* flush *)
  destruct (is_flush cards) as [hand|] eqn:Hfl.
  { pose proof (is_flush_five _ _ Hfl) as Hfive'.
    edestruct first_hand_cons_some as (r & -> & ?);
      [done|unfold pure_check; by rewrite Hfl|done| |eauto].
    unfold get_rank_flush.
    destruct (highest_of_main_suit_ok hand) as [s ->];
      [by eapply five_nonempty|cbn; eauto]. }
  rewrite first_hand_cons_none by (unfold pure_check; by rewrite Hfl).
  (* straight *)
  destruct (is_straight cards) as [hand|] eqn:Hst.
  { pose proof (is_straight_five _ _ Hst) as Hfive'.
    edestruct first_hand_cons_some as (r & -> & ?);
      [done|unfold pure_check; by rewrite Hst|done| |eauto].
    unfold get_rank_straight.
    destruct (get_rank_of_highest_card_ok hand) as [s Hs];
      [by eapply five_nonempty|].
    unfold get_rank_of_highest_card in Hs. rewrite Hs. cbn. eauto. }
  rewrite first_hand_cons_none by (unfold pure_check; by rewrite Hst).
  (* three of a kind *)
  destruct (is_3_of_a_kind_five cards Hlen Hv H4)
    as [Hthree|(hand & Hthree & Hfive' & Hs)].
  2:{ edestruct first_hand_cons_some as (r & -> & ?); eauto. }
  rewrite first_hand_cons_none by done.
  (* two pairs *)
  destruct (is_2_pairs_five cards Hlen Hv)
    as [Htwo|(hand & Htwo & Hfive' & Hs)].
  2:{ edestruct first_hand_cons_some as (r & -> & ?); eauto. }
  rewrite first_hand_cons_none by done.
  (* one pair *)
  destruct (is_1_pair_five cards Hlen Hv)
    as [Hone|(hand & Hone & Hfive' & Hs)].
  2:{ edestruct first_hand_cons_some as (r & -> & ?); eauto. }
  rewrite first_hand_cons_none by done.
  (* high card *)
  destruct (is_high_card_five cards Hlen _ eq_refl) as [Hfive' Hs].
  edestruct first_hand_cons_some as (r & -> & ?);
    [done|reflexivity|done|done|eauto].
Qed.

(** *** Against the reference check *)

(** **** Claim C1.
    On seven distinct cards the evaluator returns five cards (as it does on
    every hand, [five_cards_returned]), but not always the best category of
    the reference check over all five-card sub-combinations: two triples are
    ranked three of a kind where the reference finds a full house, and three
    pairs are ranked one pair where the reference finds two pairs. *)
Theorem category_below_reference :
  NoDup two_triples ∧ NoDup three_pairs
  ∧ (∃ r, rank_hand_of_player two_triples = Ok r
        ∧ length (best_hand r) = 5
        ∧ category r = ThreeOfAKind
        ∧ Reference.best_category two_triples = FullHouse)
  ∧ (∃ r, rank_hand_of_player three_pairs = Ok r
        ∧ length (best_hand r) = 5
        ∧ category r = OnePair
        ∧ Reference.best_category three_pairs = TwoPair).
Proof.
  split_and!.
  - apply (bool_decide_unpack (NoDup two_triples)). vm_compute. exact I.
  - apply (bool_decide_unpack (NoDup three_pairs)). vm_compute. exact I.
  - eexists. split; [vm_compute; reflexivity|]. by vm_compute.
  - eexists. split; [vm_compute; reflexivity|]. by vm_compute.
Qed.

End ranking.

(** * Further properties of the hand ranking *)

Section classifiers.

Import Numpy PokerRank PokerSimulator.

Implicit Types (cards hand : list card) (c : card).

(** Descending by key: every element is followed by elements of a key that
    is not higher. *)
Definition descending {A} (key : A → nat) : relation A :=
  λ x y, key y ≤ key x.

(** The scalar is [base] plus the rank of a card of the hand. *)
Definition rank_above (base : nat) hand (s : nat) : Prop :=
  ∃ r, r ∈ rank <$> hand ∧ s = base + r.

(** The 52 cards. *)
Definition deck : list card := get_card <$> seq 0 52.

#[local] Instance exn_eq_dec : EqDecision exn.
Proof. solve_decision. Defined.
#[local] Instance result_eq_dec {A} `{EqDecision A} : EqDecision (result A).
Proof. solve_decision. Defined.
#[local] Instance ranked_eq_dec : EqDecision ranked.
Proof. solve_decision. Defined.

(** What [rank_hand_of_player] is to return on two cards. *)
Definition hole_cards_rank (c1 c2 : card) : ranked :=
  if decide (rank c1 = rank c2)
  then Ranked OnePair [c1; c2] (13 + rank c1)
  else Ranked HighCard (sort_desc [c1; c2]) (rank c1 `max` rank c2).

(** *** The sorts *)

Lemma insert_by_desc_perm {A} (key : A → nat) x (l : list A) :
  insert_by_desc key x l ≡ₚ x :: l.
Proof.
  induction l as [|y l IH]; cbn; [done|].
  case_decide; [done|]. rewrite IH. apply Permutation_swap.
Qed.

Lemma sorted_desc_perm {A} (key : A → nat) (l : list A) :
  sorted_desc key l ≡ₚ l.
Proof.
  induction l as [|x l IH]; cbn; [done|].
  by rewrite insert_by_desc_perm, IH.
Qed.

Lemma insert_by_desc_sorted {A} (key : A → nat) x (l : list A) :
  StronglySorted (descending key) l →
  StronglySorted (descending key) (insert_by_desc key x l).
Proof.
  induction 1 as [|y l Hl IH Hy]; cbn.
  { repeat constructor. }
  case_decide as Hxy.
  - constructor; [by constructor|]. constructor; [exact Hxy|].
    eapply Forall_impl; [exact Hy|]. unfold descending. intros z. cbn. lia.
  - constructor; [done|].
    rewrite insert_by_desc_perm. constructor; [unfold descending; lia|done].
Qed.

Lemma sorted_desc_sorted {A} (key : A → nat) (l : list A) :
  StronglySorted (descending key) (sorted_desc key l).
Proof.
  induction l as [|x l IH]; cbn; [constructor|].
  by apply insert_by_desc_sorted.
Qed.

(** The sort of the cards is the sort by key [rank]. *)
Lemma sort_desc_by_rank (l : list card) : sort_desc l = sorted_desc rank l.
Proof.
  unfold sort_desc, sorted_desc. induction l as [|c l IH]; cbn; [done|].
  rewrite IH. generalize (foldr (insert_by_desc rank) [] l). intros k.
  induction k as [|d k IHk]; cbn; [done|]. by rewrite IHk.
Qed.

Lemma sort_desc_sorted (l : list card) :
  StronglySorted (descending rank) (sort_desc l).
Proof. rewrite sort_desc_by_rank. apply sorted_desc_sorted. Qed.

Lemma insert_asc_sorted x (l : list nat) :
  StronglySorted le l → StronglySorted le (insert_asc x l).
Proof.
  induction 1 as [|y l Hl IH Hy]; cbn.
  { repeat constructor. }
  case_decide as Hxy.
  - constructor; [by constructor|]. constructor; [exact Hxy|].
    eapply Forall_impl; [exact Hy|]. cbn. lia.
  - constructor; [done|].
    rewrite insert_asc_perm. constructor; [lia|done].
Qed.

Lemma sort_asc_sorted (l : list nat) : StronglySorted le (sort_asc l).
Proof.
  induction l as [|x l IH]; cbn; [constructor|].
  by apply insert_asc_sorted.
Qed.

(** **** Property X1: [get_rank_of_highest_card]
    The rank it returns is the maximum of the ranks of the hand; on an empty
    hand it raises [IndexError]. *)
Theorem get_rank_of_highest_card_max cards :
  get_rank_of_highest_card cards
  = match cards with
    | [] => Raise IndexError
    | _ => Ok (max_list (rank <$> cards))
    end.
Proof.
  unfold get_rank_of_highest_card.
  destruct cards as [|c0 cards0]; [done|].
  set (cards := c0 :: cards0).
  pose proof (sort_asc_sorted (rank <$> cards)) as Hsorted.
  pose proof (sort_asc_perm (rank <$> cards)) as Hperm.
  destruct (last (sort_asc (rank <$> cards))) as [top|] eqn:Hlast.
  2:{ apply last_None in Hlast. rewrite Hlast in Hperm.
      by apply Permutation_nil in Hperm. }
  change (Ok top = Ok (max_list (rank <$> cards))). f_equal.
  apply last_Some in Hlast as [front Hfront]. rewrite Hfront in *.
  apply Nat.le_antisymm.
  - apply max_list_elem_of_le. rewrite <- Hperm, elem_of_app.
    right. by left.
  - assert (Forall (λ r, r ≤ top) (rank <$> cards)) as Hall.
    { rewrite <- Hperm. apply Forall_app. split; [|by repeat constructor].
      apply Forall_forall. intros r Hr.
      eapply (StronglySorted_app_1_elem_of le); [done..|by left]. }
    clear -Hall. induction Hall; cbn; lia.
Qed.

Lemma sort_desc_ranks_sorted (l : list card) :
  StronglySorted ge (rank <$> sort_desc l).
Proof.
  eapply StronglySorted_fmap; [|apply sort_desc_sorted].
  unfold descending. intros x y. lia.
Qed.

Lemma run_descending r :
  StronglySorted ge [r + 4; r + 3; r + 2; r + 1; r].
Proof. repeat constructor; lia. Qed.

Lemma run_reverse_perm r :
  [r + 4; r + 3; r + 2; r + 1; r] ≡ₚ [r; r + 1; r + 2; r + 3; r + 4].
Proof.
  change [r + 4; r + 3; r + 2; r + 1; r]
    with (reverse [r; r + 1; r + 2; r + 3; r + 4]).
  apply reverse_Permutation.
Qed.

Lemma straight_window_ranks w cards hand :
  straight_window w cards = Some hand →
  (∀ r, r ∈ w → r ∈ rank <$> cards) →
  ∃ r, w = [r; r + 1; r + 2; r + 3; r + 4]
    ∧ rank <$> hand = [r + 4; r + 3; r + 2; r + 1; r].
Proof.
  intros Hs Hw. destruct (straight_window_run _ _ _ Hs) as [r0 Hrun].
  exists r0. split; [done|].
  unfold straight_window in Hs.
  destruct (all_diff_one w && bool_decide (length w = 5)); [|done].
  injection Hs as <-. unfold unique_ranks.
  set (F := filter (λ c, rank c ∈ w) cards).
  destruct (first_of_each_rank_spec [] F) as (Hnd & Hin & Hsub).
  assert (rank <$> first_of_each_rank [] F ≡ₚ w) as Hperm.
  { apply NoDup_Permutation; [done|rewrite Hrun; apply run_NoDup|].
    intros r. rewrite Hin, list_elem_of_fmap. split.
    - intros [(c & -> & Hc) _]. unfold F in Hc.
      by apply list_elem_of_filter in Hc as [? _].
    - intros Hr. split; [|apply not_elem_of_nil].
      destruct (proj1 (list_elem_of_fmap _ _ _) (Hw _ Hr)) as (c & -> & Hc).
      exists c. split; [done|]. by apply list_elem_of_filter. }
  rewrite take_ge.
  2:{ rewrite length_sort_desc, <- (length_fmap rank), Hperm, Hrun. done. }
  apply (StronglySorted_unique_strong ge).
  - intros x y _ _. lia.
  - apply sort_desc_ranks_sorted.
  - apply run_descending.
  - rewrite sort_desc_perm, Hperm, Hrun. symmetry. apply run_reverse_perm.
Qed.

(** **** Property X2: [is_straight]
    A straight that [is_straight] finds is five of the given cards whose
    ranks are five consecutive values, highest first. *)
Theorem is_straight_consecutive cards hand :
  is_straight cards = Some hand →
  hand ⊆ cards
  ∧ ∃ r, rank <$> hand = [r + 4; r + 3; r + 2; r + 1; r].
Proof.
  intros Hs. split; [by apply is_straight_five in Hs as [_ ?]|].
  revert Hs. unfold is_straight. case_decide; [done|].
  set (ranks := unique (sort_asc (rank <$> cards))).
  assert (filter (λ c, rank c ∈ ranks) cards = cards) as ->.
  { apply filter_all. intros c Hc.
    apply elem_of_unique_2. rewrite sort_asc_perm.
    by apply list_elem_of_fmap_2. }
  assert (∀ i j r, r ∈ slice i j ranks → r ∈ rank <$> cards) as Hsl.
  { intros i j r Hr. apply elem_of_slice, elem_of_unique in Hr.
    by rewrite sort_asc_perm in Hr. }
  destruct (straight_window (slice 2 7 ranks) cards) eqn:H2.
  { intros [= <-]. edestruct straight_window_ranks as (r & _ & ?); eauto. }
  destruct (straight_window (slice 1 6 ranks) cards) eqn:H1.
  { intros [= <-]. edestruct straight_window_ranks as (r & _ & ?); eauto. }
  intros H0. edestruct straight_window_ranks as (r & _ & ?); eauto.
Qed.

Lemma is_straight_consecutive_witness :
  [(0, 6); (2, 5); (1, 4); (0, 3); (2, 2)]
    ⊆ [(0, 0); (1, 1); (2, 2); (0, 3); (1, 4); (2, 5); (0, 6)]
  ∧ ∃ r, rank <$> [(0, 6); (2, 5); (1, 4); (0, 3); (2, 2)]
         = [r + 4; r + 3; r + 2; r + 1; r].
Proof.
  apply (is_straight_consecutive
           [(0, 0); (1, 1); (2, 2); (0, 3); (1, 4); (2, 5); (0, 6)]).
  vm_compute. reflexivity.
Defined.

(** **** Property X3: [is_high_card]
    The hand is the head of the cards sorted by rank, highest first: at most
    five cards, and no card left out ranks above a card of the hand. *)
Theorem is_high_card_highest cards :
  ∃ hand rest,
    is_high_card cards = Some hand
    ∧ hand ++ rest ≡ₚ cards
    ∧ length hand = 5 `min` length cards
    ∧ StronglySorted (descending rank) hand
    ∧ ∀ c d, c ∈ hand → d ∈ rest → rank d ≤ rank c.
Proof.
  exists (take 5 (sort_desc cards)), (drop 5 (sort_desc cards)).
  pose proof (sort_desc_sorted cards) as Hsorted.
  rewrite <- (take_drop 5 (sort_desc cards)) in Hsorted.
  split_and!.
  - done.
  - by rewrite take_drop, sort_desc_perm.
  - by rewrite length_take, length_sort_desc.
  - by eapply StronglySorted_app_1_l.
  - intros c d Hc Hd.
    by eapply (StronglySorted_app_1_elem_of (descending rank)).
Qed.

(** **** Property X4: [is_flush]
    A flush that [is_flush] finds is five cards of one suit, highest first,
    and no card of that suit left out ranks above a card of the hand. *)
Theorem is_flush_highest_of_suit cards hand :
  is_flush cards = Some hand →
  ∃ s rest,
    hand ++ rest ≡ₚ filter (λ c, suit c = s) cards
    ∧ length hand = 5
    ∧ StronglySorted (descending rank) hand
    ∧ ∀ c d, c ∈ hand → d ∈ rest → rank d ≤ rank c.
Proof.
  intros Hf. pose proof (is_flush_five _ _ Hf) as [Hlen _].
  revert Hf. unfold is_flush. case_decide; [done|]. case_decide; [|done].
  intros [= <-].
  set (F := filter (λ c, suit c = argmax (bincount (suit <$> cards))) cards)
    in *.
  exists (argmax (bincount (suit <$> cards))), (drop 5 (sort_desc F)).
  pose proof (sort_desc_sorted F) as Hsorted.
  rewrite <- (take_drop 5 (sort_desc F)) in Hsorted.
  split_and!.
  - by rewrite take_drop, sort_desc_perm.
  - done.
  - by eapply StronglySorted_app_1_l.
  - intros c d Hc Hd.
    by eapply (StronglySorted_app_1_elem_of (descending rank)).
Qed.

Lemma is_flush_highest_of_suit_witness :
  ∃ s rest,
    [(0, 9); (0, 7); (0, 6); (0, 5); (0, 2)] ++ rest
      ≡ₚ filter (λ c, suit c = s)
           [(0, 0); (0, 5); (0, 2); (0, 9); (1, 4); (0, 7); (0, 6)]
    ∧ length [(0, 9); (0, 7); (0, 6); (0, 5); (0, 2)] = 5
    ∧ StronglySorted (descending rank)
        [(0, 9); (0, 7); (0, 6); (0, 5); (0, 2)]
    ∧ ∀ c d, c ∈ [(0, 9); (0, 7); (0, 6); (0, 5); (0, 2)] → d ∈ rest →
             rank d ≤ rank c.
Proof.
  apply (is_flush_highest_of_suit
           [(0, 0); (0, 5); (0, 2); (0, 9); (1, 4); (0, 7); (0, 6)]).
  vm_compute. reflexivity.
Defined.

(** *** The scalar rank *)

Lemma card_string_valid c s : Mapper.card_string c = Ok s → valid_card c.
Proof.
  unfold Mapper.card_string.
  destruct (Mapper.ranks !! rank c) as [r|] eqn:Hr; [|done].
  destruct (Mapper.suits !! suit c) as [g|] eqn:Hs; [|done].
  intros _. apply lookup_lt_Some in Hr, Hs. by split.
Qed.

Lemma card_strings_valid cards strs :
  result_mapM Mapper.card_string cards = Ok strs → Forall valid_card cards.
Proof.
  revert strs. induction cards as [|c cards IH]; intros strs; [constructor|].
  cbn. destruct (Mapper.card_string c) as [s|] eqn:Hc; [|done]. cbn.
  destruct (result_mapM Mapper.card_string cards) as [ss|] eqn:Hcs; [|done].
  intros _. constructor; [by eapply card_string_valid|by eapply IH].
Qed.

Lemma where_count_head_rank k base hand s :
  (r ← from_option IndexError (head (where_count k (rank <$> hand)));
   Ok (base + r)) = Ok s →
  rank_above base hand s.
Proof.
  destruct (head (where_count k (rank <$> hand))) as [r|] eqn:Hr; [|done].
  intros [= <-]. exists r. split; [|done].
  apply head_Some_elem_of in Hr. by apply elem_of_where_count in Hr as [? _].
Qed.

Lemma last_sort_asc_elem (l : list nat) r :
  last (sort_asc l) = Some r → r ∈ l.
Proof.
  intros Hr. apply last_Some_elem_of in Hr. by rewrite sort_asc_perm in Hr.
Qed.

Lemma highest_of_main_suit_rank hand r :
  highest_of_main_suit hand = Ok r → r ∈ rank <$> hand.
Proof.
  unfold highest_of_main_suit.
  destruct (last _) as [r'|] eqn:Hr; [|done]. intros [= <-].
  apply last_sort_asc_elem, list_elem_of_fmap in Hr as (c & -> & Hc).
  apply list_elem_of_fmap_2. by apply list_elem_of_filter in Hc as [_ ?].
Qed.

(** What [first_hand] returns comes from a classifier of the list that
    matched, whose hand the mapper printed and whose scalar function gave the
    scalar; or no classifier matched at all. *)
Lemma first_hand_scored hs cards r :
  first_hand hs cards = Ok r →
  (∃ fn_check fn_rank,
      (fn_check, fn_rank, category r) ∈ hs
      ∧ fn_check cards = Ok (Some (best_hand r))
      ∧ Forall valid_card (best_hand r)
      ∧ fn_rank (best_hand r) = Ok (score r))
  ∨ Forall (λ h, h.1.1 cards = Ok None) hs.
Proof.
  induction hs as [|[[fn_check fn_rank] name] hs IH]; cbn.
  { intros _. right. constructor. }
  destruct (fn_check cards) as [[hand|]|] eqn:Hchk; cbn; [| |done].
  - destruct (result_mapM _ hand) as [strs|] eqn:Hstr; cbn; [|done].
    destruct (fn_rank hand) as [s|] eqn:Hs; cbn; [|done].
    intros [= <-]. left. exists fn_check, fn_rank. cbn.
    split_and!; [by left|done|by eapply card_strings_valid|done].
  - intros Hr. destruct (IH Hr) as [(f & g & Hin & Hrest)|Hnone].
    + left. exists f, g. split; [by right|done].
    + right. by constructor.
Qed.

Lemma rank_above_band base hand s :
  Forall valid_card hand → rank_above base hand s →
  base ≤ s ≤ base + 12.
Proof.
  intros Hv (r & Hr & ->). apply list_elem_of_fmap in Hr as (c & -> & Hc).
  rewrite Forall_forall in Hv. destruct (Hv c Hc) as [_ ?]. lia.
Qed.

(** The scalar of a ranked hand lies in the band of thirteen values of its
    category. *)
Lemma score_in_band cards r :
  rank_hand_of_player cards = Ok r →
  13 * category_index (category r) ≤ score r
  ∧ score r ≤ 13 * category_index (category r) + 12.
Proof.
  intros Hr. apply first_hand_scored in Hr as [(f & g & Hin & Hf & Hv & Hg)|Hn].
  2:{ unfold hands in Hn. rewrite !Forall_cons in Hn.
      destruct Hn as (_ & _ & _ & _ & _ & _ & _ & _ & _ & Hhigh & _).
      cbn in Hhigh. unfold pure_check, is_high_card in Hhigh. done. }
  unfold hands in Hin.
  repeat (apply elem_of_cons in Hin as [Hin|Hin];
          [injection Hin as -> -> Hcat; rewrite Hcat; cbn [category_index];
           clear Hcat|]);
    [..|by apply elem_of_nil in Hin].
  - injection Hg as <-. lia.
  - unfold get_rank_straight_flush in Hg.
    destruct (highest_of_main_suit _) as [s|] eqn:Hs; [|done].
    injection Hg as <-. apply highest_of_main_suit_rank in Hs.
    apply (rank_above_band 104 (best_hand r)); [done|by exists s].
  - apply where_count_head_rank in Hg.
    by apply (rank_above_band 91 (best_hand r)).
  - apply where_count_head_rank in Hg.
    by apply (rank_above_band 78 (best_hand r)).
  - unfold get_rank_flush in Hg.
    destruct (highest_of_main_suit _) as [s|] eqn:Hs; [|done].
    injection Hg as <-. apply highest_of_main_suit_rank in Hs.
    apply (rank_above_band 65 (best_hand r)); [done|by exists s].
  - unfold get_rank_straight in Hg.
    destruct (last _) as [s|] eqn:Hs; [|done].
    injection Hg as <-. apply last_sort_asc_elem in Hs.
    apply (rank_above_band 52 (best_hand r)); [done|by exists s].
  - apply where_count_head_rank in Hg.
    by apply (rank_above_band 39 (best_hand r)).
  - unfold get_rank_of_2_pairs in Hg.
    destruct (where_count 2 (rank <$> best_hand r)) as [|p ps] eqn:Hps;
      [done|].
    injection Hg as <-.
    apply (rank_above_band 26 (best_hand r)); [done|].
    exists (max_list (p :: ps)). split; [|done].
    assert (max_list (p :: ps) ∈ p :: ps) as Hmax
      by by apply max_list_elem_of.
    rewrite <- Hps in Hmax |- *.
    by apply elem_of_where_count in Hmax as [? _].
  - apply where_count_head_rank in Hg.
    by apply (rank_above_band 13 (best_hand r)).
  - unfold get_rank_of_highest_card in Hg.
    destruct (last _) as [s|] eqn:Hs; [|done].
    injection Hg as <-. apply last_sort_asc_elem in Hs.
    apply (rank_above_band 0 (best_hand r)); [done|by exists s].
Qed.

(** **** Property X5: the scalar orders the categories
    Of two ranked hands, the one of the stronger category has the higher
    scalar rank, whatever the cards: the scalar of a hand of category [k]
    lies between [13 k] and [13 k + 12]. *)
Theorem stronger_category_higher_score cards1 cards2 r1 r2 :
  rank_hand_of_player cards1 = Ok r1 →
  rank_hand_of_player cards2 = Ok r2 →
  category_index (category r1) < category_index (category r2) →
  score r1 < score r2
  ∧ 13 * category_index (category r1) ≤ score r1
      ≤ 13 * category_index (category r1) + 12.
Proof.
  intros [H1 H1']%score_in_band [H2 _]%score_in_band Hlt. lia.
Qed.

Lemma stronger_category_higher_score_witness :
  39 < 81 ∧ 13 * 3 ≤ 39 ≤ 13 * 3 + 12.
Proof.
  apply (stronger_category_higher_score two_triples triple_two_pairs
           (Ranked ThreeOfAKind [(0, 0); (1, 0); (2, 0); (0, 12); (0, 11)] 39)
           (Ranked FullHouse [(0, 3); (1, 3); (2, 3); (0, 0); (1, 0)] 81));
    [vm_compute; reflexivity | vm_compute; reflexivity | cbn; lia].
Defined.

(** *** Fewer than five cards *)

Lemma length_unique (l : list nat) : length (unique l) ≤ length l.
Proof.
  apply submseteq_length, NoDup_submseteq.
  - apply NoDup_filter, NoDup_seq.
  - intros v. apply elem_of_unique.
Qed.

(** **** Property X6: hands of fewer than five cards
    On fewer than five cards, as when the bots are ranked before the flop,
    [is_flush], [is_straight], [is_straight_flush] and [is_royal_flush] all
    answer no, without an exception. *)
Theorem no_flush_or_straight_below_five cards :
  length cards < 5 →
  is_flush cards = None
  ∧ is_straight cards = None
  ∧ is_straight_flush cards = None
  ∧ is_royal_flush cards = Ok None.
Proof.
  intros Hlen.
  assert (is_flush cards = None) as Hflush.
  { unfold is_flush. by rewrite decide_True. }
  split_and!; [done| |unfold is_straight_flush|unfold is_royal_flush];
    [|by rewrite Hflush..].
  unfold is_straight. rewrite decide_True; [done|].
  pose proof (length_unique (sort_asc (rank <$> cards))) as Hle.
  assert (length (sort_asc (rank <$> cards)) = length cards) as Hsame
    by by rewrite sort_asc_perm, length_fmap.
  lia.
Qed.

Lemma no_flush_or_straight_below_five_witness :
  is_flush [(0, 8); (0, 9); (0, 10); (0, 11)] = None
  ∧ is_straight [(0, 8); (0, 9); (0, 10); (0, 11)] = None
  ∧ is_straight_flush [(0, 8); (0, 9); (0, 10); (0, 11)] = None
  ∧ is_royal_flush [(0, 8); (0, 9); (0, 10); (0, 11)] = Ok None.
Proof.
  apply (no_flush_or_straight_below_five [(0, 8); (0, 9); (0, 10); (0, 11)]).
  cbn. lia.
Defined.

(** *** The deck and the mapper *)

Lemma get_card_of_suit_rank s r : r < 13 → get_card (13 * s + r) = (s, r).
Proof.
  intros Hr. unfold get_card, get_suit, get_rank. f_equal.
  - symmetry. apply (Nat.div_unique _ 13 s r); lia.
  - symmetry. apply (Nat.mod_unique _ 13 s r); lia.
Qed.

Lemma get_card_number n : 13 * suit (get_card n) + rank (get_card n) = n.
Proof.
  change (13 * (n / 13) + n mod 13 = n).
  pose proof (Nat.div_mod_eq n 13). lia.
Qed.

Lemma get_card_eq n m : get_card n = get_card m → n = m.
Proof.
  intros Heq. rewrite <- (get_card_number n), <- (get_card_number m).
  by rewrite Heq.
Qed.

Lemma get_card_valid n : n < 52 → valid_card (get_card n).
Proof.
  intros Hn. change (n / 13 < 4 ∧ n mod 13 < 13). split.
  - apply Nat.Div0.div_lt_upper_bound. lia.
  - apply Nat.mod_upper_bound. lia.
Qed.

Lemma valid_card_number c : valid_card c → ∃ n, n < 52 ∧ get_card n = c.
Proof.
  destruct c as [s r]. intros [Hs Hr].
  change (s < 4) in Hs. change (r < 13) in Hr.
  exists (13 * s + r). split; [lia|]. by apply get_card_of_suit_rank.
Qed.

(** **** Property X7: [get_card]
    The number of a card is recovered from its suit and rank, so that
    different numbers are different cards; a number below 52 gives a suit
    below 4 and a rank below 13, and every such card is the card of a number
    below 52. *)
Theorem get_card_round_trip :
  (∀ n, 13 * suit (get_card n) + rank (get_card n) = n)
  ∧ (∀ n m, get_card n = get_card m → n = m)
  ∧ (∀ n, n < 52 → valid_card (get_card n))
  ∧ (∀ c, valid_card c → ∃ n, n < 52 ∧ get_card n = c).
Proof.
  split_and!;
    [apply get_card_number|apply get_card_eq|apply get_card_valid
    |apply valid_card_number].
Qed.

Lemma valid_card_in_deck c : valid_card c ↔ c ∈ deck.
Proof.
  unfold deck. rewrite list_elem_of_fmap. split.
  - intros (n & Hn & <-)%valid_card_number. exists n. split; [done|].
    apply elem_of_seq. lia.
  - intros (n & -> & Hn). apply get_card_valid. apply elem_of_seq in Hn. lia.
Qed.

(** A property of two cards that holds on the whole deck holds of any two
    cards the mapper prints. *)
Lemma deck_pairs (P : card → card → Prop) `{∀ c1 c2, Decision (P c1 c2)} :
  bool_decide (Forall (λ c1, Forall (λ c2, P c1 c2) deck) deck) = true →
  ∀ c1 c2, valid_card c1 → valid_card c2 → P c1 c2.
Proof.
  intros Hall%bool_decide_eq_true c1 c2 H1%valid_card_in_deck
    H2%valid_card_in_deck.
  rewrite Forall_forall in Hall. specialize (Hall c1 H1).
  rewrite Forall_forall in Hall. by apply Hall.
Qed.

(** **** Property X8: [Mapper.card_string], where it is defined
    A card is printed exactly when its suit is below 4 and its rank below
    13; any other card is an [IndexError]. *)
Theorem card_string_defined c :
  (valid_card c → ∃ s, Mapper.card_string c = Ok s)
  ∧ (¬ valid_card c → Mapper.card_string c = Raise IndexError).
Proof.
  split; [apply card_string_ok|].
  intros Hinv. unfold Mapper.card_string.
  destruct (Mapper.ranks !! rank c) as [r|] eqn:Hr; [|done].
  destruct (Mapper.suits !! suit c) as [g|] eqn:Hs; [|done].
  destruct Hinv. apply lookup_lt_Some in Hr, Hs. by split.
Qed.

Lemma card_string_defined_witness :
  (∃ s, Mapper.card_string (3, 12) = Ok s)
  ∧ Mapper.card_string (4, 0) = Raise IndexError.
Proof.
  split.
  - apply (proj1 (card_string_defined (3, 12))). split; cbn; lia.
  - apply (proj2 (card_string_defined (4, 0))). intros [Hs _]. cbn in Hs. lia.
Defined.

(** **** Property X9: [Mapper.card_string] tells the cards apart
    Two cards with the same string are the same card. *)
Theorem card_string_injective c1 c2 s :
  Mapper.card_string c1 = Ok s → Mapper.card_string c2 = Ok s → c1 = c2.
Proof.
  intros H1 H2.
  pose proof (card_string_valid _ _ H1) as Hv1.
  pose proof (card_string_valid _ _ H2) as Hv2.
  assert (Mapper.card_string c1 = Mapper.card_string c2) as Heq
    by congruence.
  clear H1 H2. revert c1 c2 Hv1 Hv2 Heq.
  apply (deck_pairs
           (λ c1 c2, Mapper.card_string c1 = Mapper.card_string c2 → c1 = c2)).
  vm_compute. reflexivity.
Qed.

Lemma card_string_injective_witness : (2, 8) = (2, 8).
Proof.
  apply (card_string_injective (2, 8) (2, 8) "10♥"); reflexivity.
Defined.

(** **** Property X10: the two hole cards
    Ranked on their own, as the bots are before the flop, two cards are one
    pair with the scalar 13 plus their rank when the ranks agree, and
    otherwise a high card with the higher of the two ranks as scalar. *)
Theorem hole_cards_ranked c1 c2 :
  valid_card c1 → valid_card c2 →
  rank_hand_of_player [c1; c2] = Ok (hole_cards_rank c1 c2).
Proof.
  revert c1 c2.
  apply (deck_pairs
           (λ c1 c2, rank_hand_of_player [c1; c2] = Ok (hole_cards_rank c1 c2))
           (H := λ c1 c2, decide (rank_hand_of_player [c1; c2]
                                  = Ok (hole_cards_rank c1 c2)))).
  vm_compute. reflexivity.
Qed.

Lemma hole_cards_ranked_witness :
  rank_hand_of_player [(0, 12); (1, 10)]
  = Ok (Ranked HighCard [(0, 12); (1, 10)] 12).
Proof.
  apply (hole_cards_ranked (0, 12) (1, 10)); split; cbn; lia.
Defined.

End classifiers.

(** * Further properties of the betting operations *)

Section chips.

Import PokerSimulator.

Implicit Types (st : state) (player q : nat) (action : string).

(** The chips that [verify_bet] moves: the request, or the stack when the
    request exceeds it. *)
Definition moved (amount m : Z) : Z :=
  if decide (amount > m)%Z then m else amount.

(** What a state looks like after chips went from the stack of [player] to
    the bet of [player]. *)
Definition chips_moved (player : nat) (x : Z) (st st' : state) : Prop :=
  ∃ m b,
    player_money st !! player = Some m
    ∧ player_bets st !! player = Some b
    ∧ player_money st' = <[player := (m - x)%Z]> (player_money st)
    ∧ player_bets st' = <[player := (b + x)%Z]> (player_bets st)
    ∧ last_bet st' = (last_bet st `max` (b + x))%Z
    ∧ decision_holder st' = decision_holder st
    ∧ order_of_play st' = order_of_play st.

(** No chips moved at all. *)
Definition chips_kept (st st' : state) : Prop :=
  player_money st' = player_money st
  ∧ player_bets st' = player_bets st
  ∧ last_bet st' = last_bet st
  ∧ decision_holder st' = decision_holder st
  ∧ order_of_play st' = order_of_play st.

(** What a folding player still owes: the small blind at seat
    [n_players - 2], the big blind at seat [n_players - 1], less what the
    player has bet. *)
Definition owed_blind (seat : nat) (b : Z) (st : state) : Z :=
  if decide (Z.of_nat seat = n_players st - 2 ∧ b < small_blind st)%Z
  then (small_blind st - b)%Z
  else if decide (Z.of_nat seat = n_players st - 1 ∧ b < big_blind st)%Z
  then (big_blind st - b)%Z
  else 0%Z.

Lemma getitem_Ok {V} (d : gmap nat V) k v :
  getitem d k = Ok v → d !! k = Some v.
Proof. unfold getitem. destruct (d !! k); by intros [= ->]. Qed.

Lemma verify_bet_inv player amount st valid st' :
  verify_bet player amount st = Ok (valid, st') →
  ∃ m, player_money st !! player = Some m
    ∧ chips_moved player (moved amount m) st st'
    ∧ valid = bool_decide (amount ≤ m)%Z.
Proof.
  intros Hvb.
  destruct (player_money st !! player) as [m|] eqn:Hm.
  2:{ unfold verify_bet, getitem in Hvb. by rewrite Hm in Hvb. }
  destruct (player_bets st !! player) as [b|] eqn:Hb.
  2:{ unfold verify_bet, getitem in Hvb. rewrite Hm in Hvb. cbn in Hvb.
      case_decide; cbn in Hvb; by rewrite Hb in Hvb. }
  rewrite (verify_bet_eq player amount st m b Hm Hb) in Hvb.
  injection Hvb as <- <-. exists m. split; [done|]. split; [|done].
  exists m, b. unfold moved. cbn. split_and!; try done.
  case_decide; lia.
Qed.

Lemma snd_verify_bet_inv player amount st st' :
  snd <$> verify_bet player amount st = Ok st' →
  ∃ m, player_money st !! player = Some m
    ∧ chips_moved player (moved amount m) st st'.
Proof.
  destruct (verify_bet player amount st) as [[valid st1]|] eqn:Hvb; [|done].
  intros [= <-]. apply verify_bet_inv in Hvb as (m & ? & ? & _). eauto.
Qed.

(** **** Property X11: [all_in]
    An all-in moves the whole stack and nothing but the stack to the
    player's bet, also when the stack is below the big blind. *)
Theorem all_in_moves_the_stack player st m b :
  player_money st !! player = Some m →
  player_bets st !! player = Some b →
  ∃ st', all_in player st = Ok st'
    ∧ player_money st' !! player = Some 0%Z
    ∧ player_bets st' !! player = Some (b + m)%Z
    ∧ last_bet st' = (last_bet st `max` (b + m))%Z
    ∧ (∀ q, q ≠ player →
         player_money st' !! q = player_money st !! q
         ∧ player_bets st' !! q = player_bets st !! q).
Proof.
  intros Hm Hb. unfold all_in. rewrite (getitem_Some _ _ _ Hm). cbn.
  erewrite verify_bet_eq by done. cbn. eexists. split; [done|]. cbn.
  rewrite !lookup_insert_eq.
  assert ((if decide ((if decide (m < big_blind st)%Z
                       then big_blind st else m) > m)%Z
           then m
           else if decide (m < big_blind st)%Z then big_blind st else m) = m)
    as -> by (repeat case_decide; lia).
  split_and!.
  - f_equal. lia.
  - done.
  - case_decide; lia.
  - intros q Hq. by rewrite !lookup_insert_ne.
Qed.

Lemma all_in_moves_the_stack_witness :
  ∃ st', all_in 0 two_seats = Ok st'
    ∧ player_money st' !! 0 = Some 0%Z
    ∧ player_bets st' !! 0 = Some (0 + 50)%Z
    ∧ last_bet st' = (last_bet two_seats `max` (0 + 50))%Z
    ∧ (∀ q, q ≠ 0 →
         player_money st' !! q = player_money two_seats !! q
         ∧ player_bets st' !! q = player_bets two_seats !! q).
Proof. apply (all_in_moves_the_stack 0 two_seats 50 0); reflexivity. Defined.

(** **** Property X12: an affordable call
    A check by a player who is not ahead of the amount to call and whose
    stack covers the difference [last_bet - bet] is not cut down to the
    stack: the difference itself goes from the stack to the bet, the amount
    to call is the larger of what it was and the new bet, and ['check'] is
    recorded. *)
Theorem check_calls_the_difference sample player st m b :
  player_money st !! player = Some m →
  player_bets st !! player = Some b →
  (b ≤ last_bet st)%Z →
  (last_bet st - b ≤ m)%Z →
  ∃ st', player_action sample player "check" st = Ok st'
    ∧ player_money st' !! player = Some (m - (last_bet st - b))%Z
    ∧ player_bets st' !! player = Some (b + (last_bet st - b))%Z
    ∧ last_bet st' = (last_bet st `max` (b + (last_bet st - b)))%Z
    ∧ decision_holder st' !! player = Some (Some "check").
Proof.
  intros Hm Hb Hle Hpay. unfold player_action, check. cbn.
  rewrite (getitem_Some _ _ _ Hb). cbn.
  destruct (decide (b ≤ last_bet st)%Z) as [_|?]; [cbn|lia].
  erewrite verify_bet_eq by done. cbn.
  eexists. split; [done|]. cbn. rewrite !lookup_insert_eq.
  destruct (decide (last_bet st - b > m)%Z) as [?|_]; [lia|].
  split_and!; [done..| |done].
  repeat case_decide; lia.
Qed.

Lemma check_calls_the_difference_witness :
  ∃ st', player_action 0 2 "check" four_seats = Ok st'
    ∧ player_money st' !! 2 = Some (1000 - (20 - 0))%Z
    ∧ player_bets st' !! 2 = Some (0 + (20 - 0))%Z
    ∧ last_bet st' = (20 `max` (0 + (20 - 0)))%Z
    ∧ decision_holder st' !! 2 = Some (Some "check").
Proof.
  apply (check_calls_the_difference 0 2 four_seats 1000 0);
    [reflexivity | reflexivity | vm_compute; discriminate
    | vm_compute; discriminate].
Defined.

(** *** Every action *)

Lemma pay_blind_inv blind player st st' :
  pay_blind blind player st = Ok st' →
  ∃ x, chips_moved player x st st'.
Proof.
  unfold pay_blind. destruct (getitem _ _) as [b|]; [|done]. cbn.
  intros (m & _ & Hmoved)%snd_verify_bet_inv. eauto.
Qed.

(** The last two statements of [fold]. *)
Lemma fold_end player st1 st' :
  (_ ← getitem (player_money (set_n_players (n_players st1 - 1) st1)) player;
   Ok (set_n_players (n_players st1 - 1) st1)) = Ok st' →
  st' = set_n_players (n_players st1 - 1) st1.
Proof. destruct (getitem _ _); [|done]. cbn. by intros [= <-]. Qed.

Lemma fold_inv player st st' :
  fold player st = Ok st' →
  chips_kept st st' ∨ ∃ x, chips_moved player x st st'.
Proof.
  unfold fold.
  destruct (from_option IndexError _) as [seat|]; [|done]. cbn.
  destruct (owes_blind seat 2 _ _ _) as [small|]; [|done]. cbn.
  assert (∀ blind st1,
    pay_blind blind player st = Ok st1 →
    st' = set_n_players (n_players st1 - 1) st1 →
    ∃ x, chips_moved player x st st') as Hpay.
  { intros blind st1 [x (m & b & ?)]%pay_blind_inv ->.
    exists x, m, b. done. }
  destruct small.
  { destruct (pay_blind _ _ _) as [st1|] eqn:Hp; [|done]. cbn.
    intros ?%fold_end. right. by eapply Hpay. }
  destruct (owes_blind seat 1 _ _ _) as [big|]; [|done]. cbn.
  destruct big.
  { destruct (pay_blind _ _ _) as [st1|] eqn:Hp; [|done]. cbn.
    intros ?%fold_end. right. by eapply Hpay. }
  cbn. intros ->%fold_end. by left.
Qed.

Lemma check_inv player st st' :
  check player st = Ok st' →
  chips_kept st st' ∨ ∃ x, chips_moved player x st st'.
Proof.
  unfold check. destruct (getitem _ _) as [b|]; [|done]. cbn.
  case_decide as Hle; [|intros [= <-]; by left].
  rewrite decide_False by lia.
  intros (m & _ & m0 & b0 & ?)%snd_verify_bet_inv. right.
  exists (moved (last_bet st - b) m), m0, b0. by destruct st.
Qed.

Lemma all_in_inv player st st' :
  all_in player st = Ok st' → ∃ x, chips_moved player x st st'.
Proof.
  unfold all_in. destruct (getitem _ _) as [m|]; [|done]. cbn.
  intros (m0 & _ & Hmoved)%snd_verify_bet_inv. eauto.
Qed.

Lemma raise_money_inv sample player st st' :
  raise_money sample player st = Ok st' → ∃ x, chips_moved player x st st'.
Proof.
  unfold raise_money. destruct (getitem _ _) as [m|]; [|done]. cbn.
  case_decide; [apply all_in_inv|]. case_decide; [done|].
  intros (m0 & _ & Hmoved)%snd_verify_bet_inv. eauto.
Qed.

(** Every action either keeps all chips or moves chips of the acting player
    from stack to bet; it stores the action as the decision. *)
Lemma player_action_inv sample player action st st' :
  player_action sample player action st = Ok st' →
  ∃ st1,
    (chips_kept st st1 ∨ ∃ x, chips_moved player x st st1)
    ∧ player_money st' = player_money st1
    ∧ player_bets st' = player_bets st1
    ∧ last_bet st' = last_bet st1
    ∧ order_of_play st' = order_of_play st1
    ∧ decision_holder st' = <[player := Some action]> (decision_holder st).
Proof.
  unfold player_action.
  assert (∀ r : result state,
    (∀ st1, r = Ok st1 →
            chips_kept st st1 ∨ ∃ x, chips_moved player x st st1) →
    (r ≫= λ st1, Ok (set_decision_holder
                       (<[player := Some action]> (decision_holder st1)) st1))
      = Ok st' →
    ∃ st1,
      (chips_kept st st1 ∨ ∃ x, chips_moved player x st st1)
      ∧ player_money st' = player_money st1
      ∧ player_bets st' = player_bets st1
      ∧ last_bet st' = last_bet st1
      ∧ order_of_play st' = order_of_play st1
      ∧ decision_holder st' = <[player := Some action]> (decision_holder st))
    as Hstep.
  { intros [st1|] Hr; [|done]. cbn. intros [= <-]. exists st1.
    pose proof (Hr st1 eq_refl) as Hc. split_and!; try done. cbn.
    f_equal. destruct Hc as [(_ & _ & _ & ? & _)|(x & m & b & Hx)]; [done|].
    by destruct Hx as (_ & _ & _ & _ & _ & ? & _). }
  repeat case_decide; try done; apply Hstep; intros st1 Hr.
  - by apply fold_inv.
  - by apply check_inv.
  - right. by eapply raise_money_inv.
  - right. by eapply all_in_inv.
Qed.

(** **** Property X14: an action moves only the actor's chips
    After any action that does not raise an exception, every other player's
    stack and bet are what they were, no seat has changed and no decision
    but the actor's, which is the action; either the stacks, the bets and
    the amount to call are what they were, or one amount has been taken
    from the actor's stack and added to the actor's bet, and the amount to
    call is the larger of what it was and the actor's new bet. *)
Theorem player_action_conserves_chips sample player action st st' :
  player_action sample player action st = Ok st' →
  (∀ q, q ≠ player →
     player_money st' !! q = player_money st !! q
     ∧ player_bets st' !! q = player_bets st !! q)
  ∧ order_of_play st' = order_of_play st
  ∧ decision_holder st' = <[player := Some action]> (decision_holder st)
  ∧ ((player_money st' = player_money st
      ∧ player_bets st' = player_bets st
      ∧ last_bet st' = last_bet st)
     ∨ ∃ m b x,
         player_money st !! player = Some m
         ∧ player_bets st !! player = Some b
         ∧ player_money st' !! player = Some (m - x)%Z
         ∧ player_bets st' !! player = Some (b + x)%Z
         ∧ last_bet st' = (last_bet st `max` (b + x))%Z).
Proof.
  intros (st1 & Hc & -> & -> & -> & -> & ->)%player_action_inv.
  destruct Hc as [(-> & -> & -> & _ & ->)
                 |(x & m & b & Hm & Hb & -> & -> & -> & _ & ->)].
  - split_and!; [done..|]. by left.
  - split_and!; [|done..|].
    + intros q Hq. by rewrite !lookup_insert_ne.
    + right. exists m, b, x. by rewrite !lookup_insert_eq.
Qed.

Lemma player_action_conserves_chips_witness :
  ∃ st', player_action 0 0 "check" two_seats = Ok st'
    ∧ (∀ q, q ≠ 0 →
         player_money st' !! q = player_money two_seats !! q
         ∧ player_bets st' !! q = player_bets two_seats !! q)
    ∧ order_of_play st' = order_of_play two_seats
    ∧ decision_holder st' = <[0 := Some "check"]> (decision_holder two_seats)
    ∧ ((player_money st' = player_money two_seats
        ∧ player_bets st' = player_bets two_seats
        ∧ last_bet st' = last_bet two_seats)
       ∨ ∃ m b x,
           player_money two_seats !! 0 = Some m
           ∧ player_bets two_seats !! 0 = Some b
           ∧ player_money st' !! 0 = Some (m - x)%Z
           ∧ player_bets st' !! 0 = Some (b + x)%Z
           ∧ last_bet st' = (last_bet two_seats `max` (b + x))%Z).
Proof.
  eexists. split; [vm_compute; reflexivity|].
  apply (player_action_conserves_chips 0 0 "check" two_seats).
  vm_compute. reflexivity.
Defined.

(** **** Property X15: no bet above the amount to call
    If no player's bet exceeds [last_bet] before an action, none does
    after it. *)
Theorem player_action_keeps_bets_below_last_bet sample player action st st' :
  (∀ q b, player_bets st !! q = Some b → (b ≤ last_bet st)%Z) →
  player_action sample player action st = Ok st' →
  ∀ q b, player_bets st' !! q = Some b → (b ≤ last_bet st')%Z.
Proof.
  intros Hinv (st1 & Hc & _ & -> & -> & _ & _)%player_action_inv q b.
  destruct Hc as [(_ & -> & -> & _)|(x & m & b0 & _ & Hb & _ & -> & -> & _)].
  - apply Hinv.
  - destruct (decide (q = player)) as [->|Hne].
    + rewrite lookup_insert_eq. intros [= <-]. lia.
    + rewrite lookup_insert_ne by done. intros Hq%Hinv. lia.
Qed.

Lemma player_action_keeps_bets_below_last_bet_witness :
  ∃ st', player_action 200 2 "raise" four_seats = Ok st'
    ∧ ∀ q b, player_bets st' !! q = Some b → (b ≤ last_bet st')%Z.
Proof.
  eexists. split; [vm_compute; reflexivity|].
  apply (player_action_keeps_bets_below_last_bet 200 2 "raise" four_seats).
  - change (map_Forall (λ _ b, (b ≤ last_bet four_seats)%Z)
              (player_bets four_seats)).
    apply (bool_decide_unpack
             (map_Forall (λ _ b, (b ≤ last_bet four_seats)%Z)
                (player_bets four_seats))).
    vm_compute. exact I.
  - vm_compute. reflexivity.
Defined.

(** **** Property X16: checks and folds reopen nothing
    A turn in which the player checks or folds changes no decision but the
    player's own. *)
Theorem check_or_fold_reopens_nothing sample player action st st' :
  action ∈ ["check"; "fold"] →
  take_turn sample player action st = Ok st' →
  decision_holder st' = <[player := Some action]> (decision_holder st).
Proof.
  intros Hact. unfold take_turn.
  destruct (player_action sample player action st) as [st1|] eqn:Hpa; [|done].
  cbn. unfold get_players_in_round.
  rewrite decide_False.
  2:{ rewrite !elem_of_cons, elem_of_nil in Hact |- *.
      intros [->|[->|[]]]; destruct Hact as [?|[?|[]]]; done. }
  intros [= <-].
  by apply player_action_inv in Hpa as (? & _ & _ & _ & _ & _ & ?).
Qed.

Lemma check_or_fold_reopens_nothing_witness :
  ∃ st', take_turn 0 2 "check" four_seats = Ok st'
    ∧ decision_holder st'
      = <[2 := Some "check"]> (decision_holder four_seats).
Proof.
  eexists. split; [vm_compute; reflexivity|].
  apply (check_or_fold_reopens_nothing 0 2 "check" four_seats).
  - rewrite !elem_of_cons. by left.
  - vm_compute. reflexivity.
Defined.

(** *** Folding *)

Lemma owes_blind_eq seat k blind player st b :
  player_bets st !! player = Some b →
  owes_blind seat k blind player st
  = Ok (bool_decide (Z.of_nat seat = n_players st - k ∧ b < blind)%Z).
Proof.
  intros Hb. unfold owes_blind. case_decide as Hseat.
  - rewrite (getitem_Some _ _ _ Hb). cbn. f_equal.
    apply bool_decide_ext. tauto.
  - by rewrite bool_decide_eq_false_2 by tauto.
Qed.

Lemma pay_blind_ok blind player st m b :
  player_money st !! player = Some m →
  player_bets st !! player = Some b →
  ∃ st1, pay_blind blind player st = Ok st1
    ∧ n_players st1 = n_players st
    ∧ player_money st1 !! player = Some (m - moved (blind - b) m)%Z
    ∧ player_bets st1 !! player = Some (b + moved (blind - b) m)%Z
    ∧ decision_holder st1 = decision_holder st.
Proof.
  intros Hm Hb. unfold pay_blind. rewrite (getitem_Some _ _ _ Hb). cbn.
  erewrite verify_bet_eq by done. cbn.
  eexists. split; [done|]. cbn. by rewrite !lookup_insert_eq.
Qed.

(** **** Property X17: [fold]
    A fold takes the blind that the player still owes, as far as the stack
    goes, from the stack to the bet; any other fold moves no chips.  The
    seat is [order_of_play[player]], and [n_players] goes down by one. *)
Theorem fold_pays_owed_blind player st seat m b :
  order_of_play st !! player = Some seat →
  player_money st !! player = Some m →
  player_bets st !! player = Some b →
  (0 ≤ m)%Z →
  ∃ st', fold player st = Ok st'
    ∧ n_players st' = (n_players st - 1)%Z
    ∧ player_money st' !! player
      = Some (m - moved (owed_blind seat b st) m)%Z
    ∧ player_bets st' !! player
      = Some (b + moved (owed_blind seat b st) m)%Z
    ∧ decision_holder st' = decision_holder st.
Proof.
  intros Hseat Hm Hb Hpos. unfold fold, owed_blind.
  rewrite Hseat. cbn [from_option]. cbn [mbind result_bind].
  rewrite (owes_blind_eq seat 2 _ player st b Hb). cbn [mbind result_bind].
  destruct (decide (Z.of_nat seat = n_players st - 2 ∧ b < small_blind st)%Z)
    as [H2|H2].
  { rewrite bool_decide_eq_true_2 by done.
    destruct (pay_blind_ok (small_blind st) player st m b Hm Hb)
      as (st1 & -> & Hn & Hm1 & Hb1 & Hd).
    cbn [mbind result_bind].
    assert (getitem (player_money (set_n_players (n_players st1 - 1) st1))
              player = Ok (m - moved (small_blind st - b) m)%Z) as ->
      by by apply getitem_Some.
    cbn. eexists. split; [done|]. cbn. by rewrite Hn. }
  rewrite bool_decide_eq_false_2 by done.
  rewrite (owes_blind_eq seat 1 _ player st b Hb). cbn [mbind result_bind].
  destruct (decide (Z.of_nat seat = n_players st - 1 ∧ b < big_blind st)%Z)
    as [H1|H1].
  { rewrite bool_decide_eq_true_2 by done.
    destruct (pay_blind_ok (big_blind st) player st m b Hm Hb)
      as (st1 & -> & Hn & Hm1 & Hb1 & Hd).
    cbn [mbind result_bind].
    assert (getitem (player_money (set_n_players (n_players st1 - 1) st1))
              player = Ok (m - moved (big_blind st - b) m)%Z) as ->
      by by apply getitem_Some.
    cbn. eexists. split; [done|]. cbn. by rewrite Hn. }
  rewrite bool_decide_eq_false_2 by done. cbn [mbind result_bind].
  assert (getitem (player_money (set_n_players (n_players st - 1) st))
            player = Ok m) as -> by by apply getitem_Some.
  cbn. eexists. split; [done|]. cbn.
  unfold moved. rewrite decide_False by lia.
  by rewrite Z.sub_0_r, Z.add_0_r.
Qed.

(** Four seats in the order [0, 1, 2, 3]: the player 3 sits at seat 3, the
    big blind, and has bet nothing yet. *)
Lemma fold_pays_owed_blind_witness :
  ∃ st', fold 3 four_seats = Ok st'
    ∧ n_players st' = 3%Z
    ∧ player_money st' !! 3 = Some 980%Z
    ∧ player_bets st' !! 3 = Some 20%Z
    ∧ decision_holder st' = decision_holder four_seats.
Proof.
  apply (fold_pays_owed_blind 3 four_seats 3 1000 0);
    [reflexivity | reflexivity | reflexivity | lia].
Defined.

(** *** Seats *)

(** **** Property X18: [rotate]
    On an empty turn order [rotate] raises [IndexError]; otherwise the last
    player becomes the first, every other player moves one place back, and
    nothing else changes. *)
Theorem rotate_last_to_front st :
  match order_of_play st with
  | [] => rotate st = Raise IndexError
  | _ =>
      ∃ front final,
        order_of_play st = front ++ [final]
        ∧ rotate st
          = Ok (State (n_players st) (small_blind st) (big_blind st)
                  (last_bet st) (player_money st) (decision_holder st)
                  (player_bets st) (final :: front))
        ∧ final :: front ≡ₚ order_of_play st
  end.
Proof.
  unfold rotate. destruct (order_of_play st) as [|p order] eqn:Horder; [done|].
  destruct (last (p :: order)) as [final|] eqn:Hlast.
  2:{ by apply last_None in Hlast. }
  apply last_Some in Hlast as [front Hfront].
  exists front, final. rewrite Hfront. split; [done|]. cbn. split.
  - do 3 f_equal. rewrite length_app. cbn.
    replace (length front + 1 - 1) with (length front) by lia.
    by rewrite take_app_length.
  - by rewrite Permutation_app_comm.
Qed.

Lemma list_remove_first x (l : list nat) :
  x ∈ l →
  ∃ front back,
    l = front ++ x :: back ∧ (x ∉ front)
    ∧ PokerRank.list_remove x l = Ok (front ++ back).
Proof.
  intros Hx. unfold PokerRank.list_remove.
  destruct (list_find_elem_of (λ y, y = x) l x Hx eq_refl) as [[i y] Hfind].
  rewrite Hfind. apply list_find_Some in Hfind as (Hi & -> & Hbefore).
  exists (take i l), (drop (S i) l). split_and!.
  - by rewrite take_drop_middle.
  - intros (j & Hj & Hlt)%elem_of_take. by eapply Hbefore.
  - by rewrite delete_take_drop.
Qed.

Lemma list_remove_absent x (l : list nat) :
  x ∉ l → PokerRank.list_remove x l = Raise ValueError.
Proof.
  intros Hx. unfold PokerRank.list_remove.
  destruct (list_find _ l) as [[i y]|] eqn:Hfind; [|done].
  apply list_find_Some in Hfind as (Hi & -> & _).
  destruct Hx. by eapply list_elem_of_lookup_2.
Qed.

(** **** Property X19: [remove_player]
    For a player who has a hand, a decision, a bet, a stack and a seat,
    [remove_player] deletes the four entries, takes the player's first seat
    out of the turn order and lowers [n_players] by one; all other entries
    and seats stay. *)
Theorem remove_player_forgets player
    (hands : gmap nat (list card)) st h d b m :
  hands !! player = Some h →
  decision_holder st !! player = Some d →
  player_bets st !! player = Some b →
  player_money st !! player = Some m →
  player ∈ order_of_play st →
  ∃ front back,
    order_of_play st = front ++ player :: back ∧ (player ∉ front)
    ∧ remove_player player hands st
      = Ok (delete player hands,
            State (n_players st - 1) (small_blind st) (big_blind st)
              (last_bet st) (delete player (player_money st))
              (delete player (decision_holder st))
              (delete player (player_bets st)) (front ++ back)).
Proof.
  intros Hh Hd Hb Hm Hseat.
  destruct (list_remove_first player (order_of_play st) Hseat)
    as (front & back & Horder & Hfront & Hremove).
  exists front, back. split_and!; [done..|].
  unfold remove_player, delitem. cbn.
  rewrite Hh, Hd, Hb, Hm. cbn. rewrite Hremove. done.
Qed.

Lemma remove_player_forgets_witness :
  ∃ front back,
    order_of_play four_seats = front ++ 1 :: back ∧ (1 ∉ front)
    ∧ remove_player 1 {[ 0 := [(0, 12); (1, 12)]; 1 := [(2, 3); (3, 4)] ]}
        four_seats
      = Ok (delete 1 {[ 0 := [(0, 12); (1, 12)]; 1 := [(2, 3); (3, 4)] ]},
            State (n_players four_seats - 1) (small_blind four_seats)
              (big_blind four_seats) (last_bet four_seats)
              (delete 1 (player_money four_seats))
              (delete 1 (decision_holder four_seats))
              (delete 1 (player_bets four_seats)) (front ++ back)).
Proof.
  apply (remove_player_forgets 1 _ four_seats [(2, 3); (3, 4)]
           (Some "check") 20 980); try reflexivity.
  unfold four_seats. cbn. rewrite !elem_of_cons. tauto.
Defined.

(** *** A visit of [player_moves] *)

Lemma visit_player_broke players player st money q :
  result_mapM (getitem (player_money st)) players = Ok money →
  ¬ Forall (λ m, m = 0%Z) money →
  decision_holder st !! q = Some None →
  player_money st !! player = Some 0%Z →
  visit_player players player st
  = Ok (Continue (set_decision_holder
                    (<[player := Some "all-in"]> (decision_holder st)) st)).
Proof.
  intros Hmoney Hsome Hopen Hbroke.
  unfold visit_player. rewrite Hmoney. cbn.
  rewrite decide_False by done.
  rewrite decide_False.
  2:{ intros Hall. specialize (Hall q None Hopen). cbn in Hall.
      rewrite !elem_of_cons, elem_of_nil in Hall.
      destruct Hall as [?|[?|[]]]; done. }
  rewrite decide_False.
  2:{ intros Hall. by specialize (Hall q None Hopen). }
  rewrite (getitem_Some _ _ _ Hbroke). cbn. by rewrite decide_True.
Qed.

(** **** Property X20: a player without chips is marked all-in
    While some player still has chips and some decision is open, the visit
    of a player whose stack is 0 stores ['all-in'] for the player whatever
    was stored before, a fold included, and goes on to the next player; the
    player then counts among the players of the showdown. *)
Theorem broke_player_marked_all_in players player st money q :
  result_mapM (getitem (player_money st)) players = Ok money →
  ¬ Forall (λ m, m = 0%Z) money →
  decision_holder st !! q = Some None →
  player_money st !! player = Some 0%Z →
  visit_player players player st
  = Ok (Continue (set_decision_holder
                    (<[player := Some "all-in"]> (decision_holder st)) st))
  ∧ player ∈ players_in (<[player := Some "all-in"]> (decision_holder st)).
Proof.
  intros Hmoney Hsome Hopen Hbroke. split.
  - by eapply visit_player_broke.
  - apply elem_of_players_in. exists (Some "all-in").
    by rewrite lookup_insert_eq.
Qed.

Lemma broke_player_marked_all_in_witness :
  visit_player [0; 1; 2] 2 folded_broke
  = Ok (Continue (set_decision_holder
                    (<[2 := Some "all-in"]> (decision_holder folded_broke))
                    folded_broke))
  ∧ 2 ∈ players_in (<[2 := Some "all-in"]> (decision_holder folded_broke)).
Proof.
  apply (broke_player_marked_all_in [0; 1; 2] 2 folded_broke
           [900%Z; 900%Z; 0%Z] 1).
  - reflexivity.
  - intros Hall. apply Forall_cons in Hall as [? _]. done.
  - reflexivity.
  - reflexivity.
Defined.

(** **** Property X21: when a street ends
    Once every player has a decision, the next visit ends the betting of the
    street: the hand is over if every decision is ['fold'] or ['all-in'] or
    nobody has chips left, and otherwise the next street follows. *)
Theorem visit_ends_street players player st money :
  result_mapM (getitem (player_money st)) players = Ok money →
  map_Forall (λ _ d, d ≠ None) (decision_holder st) →
  ∃ round_over,
    visit_player players player st = Ok (Return round_over)
    ∧ (round_over = true ↔
       Forall (λ m, m = 0%Z) money
       ∨ map_Forall (λ _ d, d ∈ [Some "fold"; Some "all-in"])
           (decision_holder st)).
Proof.
  intros Hmoney Hall. unfold visit_player. rewrite Hmoney. cbn.
  destruct (decide (Forall (λ m, m = 0%Z) money)) as [Hzero|Hzero].
  { exists true. split; [done|]. tauto. }
  destruct (decide (map_Forall (λ _ d, d ∈ [Some "fold"; Some "all-in"])
                      (decision_holder st))) as [Hdone|Hdone].
  { exists true. split; [done|]. tauto. }
  rewrite decide_True by done. exists false. split; [done|].
  split; [done|]. tauto.
Qed.

Lemma visit_ends_street_witness :
  ∃ round_over,
    visit_player [0; 1] 0 heads_up = Ok (Return round_over)
    ∧ (round_over = true ↔
       Forall (λ m, m = 0%Z) [900%Z; 900%Z]
       ∨ map_Forall (λ _ d, d ∈ [Some "fold"; Some "all-in"])
           (decision_holder heads_up)).
Proof.
  apply (visit_ends_street [0; 1] 0 heads_up [900%Z; 900%Z]).
  - reflexivity.
  - apply (bool_decide_unpack
             (map_Forall (λ _ d, d ≠ None) (decision_holder heads_up))).
    vm_compute. exact I.
Defined.

End chips.

(** * Dealing and showdown *)

Section dealing.

Import Numpy PokerRank PokerSimulator.

Implicit Types (cards hand : list card) (c : card).

(** *** Dealing *)

Lemma pairs_of_concat n (l : list nat) :
  length l = n * 2 →
  concat (pairs_of l) = l
  ∧ length (pairs_of l) = n
  ∧ Forall (λ p, length p = 2) (pairs_of l).
Proof.
  revert l. induction n as [|n IH]; intros l Hlen.
  { destruct l; [|done]. cbn. by split_and!. }
  destruct l as [|x [|y l]]; [done..|].
  destruct (IH l) as (Hc & Hl & Hf); [cbn in Hlen; lia|].
  cbn. rewrite Hc, Hl. split_and!; [done..|]. by constructor.
Qed.

Lemma concat_fmap_fmap {A B} (f : A → B) (ls : list (list A)) :
  concat ((λ l : list A, f <$> l) <$> ls) = f <$> concat ls.
Proof.
  induction ls as [|l ls IH]; [done|]. cbn. by rewrite IH, fmap_app.
Qed.

#[local] Instance get_card_inj : Inj (=) (=) get_card.
Proof. intros n m. apply get_card_eq. Qed.

(** **** Property X22: the dealing of [instantiate]
    The cards on the table followed by the hands of the players, in order,
    are the cards of the numbers drawn, two to every player; as the draw is
    without replacement, no card is dealt twice, and deck numbers give cards
    the mapper prints. *)
Theorem deal_cards_distinct draw players table hands :
  deal draw players = Ok (table, hands) →
  hands.*1 = players
  ∧ Forall (λ hand, length hand = 2) hands.*2
  ∧ table ++ concat hands.*2 = get_card <$> draw
  ∧ (NoDup draw → NoDup (table ++ concat hands.*2))
  ∧ (Forall (λ n, n < 52) draw → Forall valid_card (table ++ concat hands.*2)).
Proof.
  unfold deal. case_decide as Hlen; [|done]. intros [= <- <-].
  destruct (pairs_of_concat (length players) (drop 5 draw) Hlen)
    as (Hconcat & Hpairs & Htwo).
  assert ((zip players ((λ cards : list nat, get_card <$> cards)
                          <$> pairs_of (drop 5 draw))).*2
          = (λ cards : list nat, get_card <$> cards) <$> pairs_of (drop 5 draw))
    as Hsnd by (apply snd_zip; rewrite length_fmap; lia).
  assert ((get_card <$> take 5 draw)
            ++ concat (zip players
                         ((λ cards : list nat, get_card <$> cards)
                            <$> pairs_of (drop 5 draw))).*2
          = get_card <$> draw) as Hall.
  { rewrite Hsnd, concat_fmap_fmap, Hconcat, <- fmap_app.
    by rewrite take_drop. }
  split_and!.
  - apply fst_zip. rewrite length_fmap. lia.
  - rewrite Hsnd. apply Forall_fmap.
    eapply Forall_impl; [exact Htwo|]. intros p Hp. cbn.
    by rewrite length_fmap.
  - done.
  - intros Hnd. rewrite Hall. by apply (NoDup_fmap_2 get_card).
  - intros Hdeck. rewrite Hall. apply Forall_fmap.
    eapply Forall_impl; [exact Hdeck|]. intros n Hn.
    by apply get_card_valid.
Qed.

Lemma deal_cards_distinct_witness :
  [7; 9] = [7; 9]
  ∧ Forall (λ hand : list card, length hand = 2)
      [[(1, 0); (2, 0)]; [(3, 0); (3, 12)]]
  ∧ [(0, 0); (0, 1); (0, 2); (0, 3); (0, 4)]
      ++ concat [[(1, 0); (2, 0)]; [(3, 0); (3, 12)]]
    = get_card <$> [0; 1; 2; 3; 4; 13; 26; 39; 51]
  ∧ (NoDup [0; 1; 2; 3; 4; 13; 26; 39; 51] →
     NoDup ([(0, 0); (0, 1); (0, 2); (0, 3); (0, 4)]
              ++ concat [[(1, 0); (2, 0)]; [(3, 0); (3, 12)]]))
  ∧ (Forall (λ n, n < 52) [0; 1; 2; 3; 4; 13; 26; 39; 51] →
     Forall valid_card
       ([(0, 0); (0, 1); (0, 2); (0, 3); (0, 4)]
          ++ concat [[(1, 0); (2, 0)]; [(3, 0); (3, 12)]])).
Proof.
  apply (deal_cards_distinct [0; 1; 2; 3; 4; 13; 26; 39; 51] [7; 9]
           [(0, 0); (0, 1); (0, 2); (0, 3); (0, 4)]
           [(7, [(1, 0); (2, 0)]); (9, [(3, 0); (3, 12)])]).
  vm_compute. reflexivity.
Defined.

(** *** The winners *)

Lemma tied_have_highest_rank highest (l : list (nat * nat)) p :
  p ∈ players_with_highest_rank highest l → (p, highest) ∈ l.
Proof.
  induction l as [|[q r] l IH]; cbn; [by intros ?%elem_of_nil|].
  case_decide as Hr; [|by intros ?%elem_of_nil].
  intros [->|Hp]%elem_of_cons; [subst; by left|]. right. by apply IH.
Qed.

Lemma list_remove_subseteq x (l l' : list nat) :
  list_remove x l = Ok l' → l' ⊆ l.
Proof.
  unfold list_remove. destruct (list_find _ l) as [[i y]|]; [|done].
  intros [= <-]. rewrite delete_take_drop. intros z.
  rewrite elem_of_app. intros [Hz|Hz].
  - by apply subseteq_take in Hz.
  - by apply subseteq_drop in Hz.
Qed.

Lemma remove_all_subseteq removed (l l' : list nat) :
  remove_all removed l = Ok l' → l' ⊆ l.
Proof.
  revert l. induction removed as [|x removed IH]; intros l; cbn.
  { by intros [= <-]. }
  destruct (list_remove x l) as [l1|] eqn:H1; [|done]. cbn.
  intros Hrest%IH. etrans; [done|]. by eapply list_remove_subseteq.
Qed.

(** The players that [get_winner] chooses among: those whose scalar rank is
    the highest. *)
Lemma get_winner_among_tied self winners :
  get_winner self = Ok winners →
  ∃ first rest,
    sorted_desc snd (rank_player_hands self) = first :: rest
    ∧ winners ⊆ players_with_highest_rank first.2 (first :: rest).
Proof.
  unfold get_winner.
  destruct (sorted_desc snd (rank_player_hands self)) as [|first rest] eqn:Hs;
    [done|].
  cbn [head from_option mbind result_bind]. intros Hw.
  exists first, rest. split; [done|].
  case_decide; [by injection Hw as <-|].
  destruct (result_mapM _ _) as [hands|]; [|done]. cbn in Hw.
  destruct (all_against hands hands []) as [removed|]; [|done]. cbn in Hw.
  by eapply remove_all_subseteq.
Qed.

(** **** Property X23: the winners hold the highest scalar
    Every player that [get_winner] returns has a scalar rank that no
    player's scalar exceeds. *)
Theorem get_winner_highest_rank self winners p :
  get_winner self = Ok winners →
  p ∈ winners →
  ∃ r, (p, r) ∈ rank_player_hands self
    ∧ ∀ q r', (q, r') ∈ rank_player_hands self → r' ≤ r.
Proof.
  intros (first & rest & Hsorted & Hsub)%get_winner_among_tied Hp.
  apply Hsub, tied_have_highest_rank in Hp.
  pose proof (sorted_desc_perm snd (rank_player_hands self)) as Hperm.
  pose proof (sorted_desc_sorted snd (rank_player_hands self)) as Hdesc.
  rewrite Hsorted in Hperm, Hdesc.
  exists first.2. split; [by rewrite <- Hperm|].
  intros q r' Hq. rewrite <- Hperm in Hq.
  apply StronglySorted_cons in Hdesc as [Hfirst _].
  apply elem_of_cons in Hq as [<-|Hq]; [done|].
  rewrite Forall_forall in Hfirst. apply (Hfirst _ Hq).
Qed.

Lemma get_winner_highest_rank_witness :
  ∃ r, (1, r) ∈ [(1, 24); (2, 24); (3, 12)]
    ∧ ∀ q r', (q, r') ∈ [(1, 24); (2, 24); (3, 12)] → r' ≤ r.
Proof.
  apply (get_winner_highest_rank
           (PokerRankOf
              [(1, [(0, 11); (1, 11); (0, 12); (0, 5); (0, 3)]);
               (2, [(2, 11); (3, 11); (0, 10); (0, 9); (0, 7)]);
               (3, [(1, 12); (2, 9); (3, 6); (1, 4); (2, 2)])]
              [(1, 24); (2, 24); (3, 12)])
           [1] 1).
  - vm_compute. reflexivity.
  - rewrite list_elem_of_singleton. reflexivity.
Defined.

(** **** Property X24: a single highest scalar wins alone
    When one player's scalar rank is above every other player's,
    [get_winner] returns that player and nobody else, without looking at
    the hands. *)
Theorem get_winner_single_highest self p r :
  NoDup (rank_player_hands self).*1 →
  (p, r) ∈ rank_player_hands self →
  (∀ q r', (q, r') ∈ rank_player_hands self → q ≠ p → r' < r) →
  get_winner self = Ok [p].
Proof.
  intros Hkeys Hp Hothers. unfold get_winner.
  pose proof (sorted_desc_perm snd (rank_player_hands self)) as Hperm.
  pose proof (sorted_desc_sorted snd (rank_player_hands self)) as Hdesc.
  assert (∀ q r', (q, r') ∈ rank_player_hands self → q = p → r' = r)
    as Hsame.
  { intros q r' Hq ->.
    apply list_elem_of_lookup in Hp as [i Hi], Hq as [j Hj].
    assert (i = j) as ->; [|congruence].
    eapply NoDup_lookup; [exact Hkeys| |];
      rewrite list_lookup_fmap; [by rewrite Hi|by rewrite Hj]. }
  destruct (sorted_desc snd (rank_player_hands self)) as [|[q0 r0] rest];
    [rewrite <- Hperm in Hp; by apply elem_of_nil in Hp|].
  apply StronglySorted_cons in Hdesc as [Hfirst Hrest].
  assert (q0 = p) as ->.
  { destruct (decide (q0 = p)) as [|Hne]; [done|].
    assert ((q0, r0) ∈ rank_player_hands self) as H0
      by (rewrite <- Hperm; by left).
    pose proof (Hothers _ _ H0 Hne) as Hlt.
    rewrite <- Hperm in Hp. apply elem_of_cons in Hp as [[= -> ->]|Hp];
      [done|].
    rewrite Forall_forall in Hfirst. specialize (Hfirst _ Hp).
    unfold descending in Hfirst. cbn in Hfirst. lia. }
  assert (r0 = r) as ->.
  { apply (Hsame p r0); [|done]. rewrite <- Hperm. by left. }
  cbn [head from_option mbind result_bind snd].
  assert (players_with_highest_rank r ((p, r) :: rest) = [p]) as ->.
  { cbn. rewrite decide_True by done. f_equal.
    destruct rest as [|[q1 r1] rest]; [done|]. cbn.
    rewrite decide_False; [done|]. intros ->.
    assert ((q1, r) ∈ rank_player_hands self) as H1
      by (rewrite <- Hperm; right; by left).
    destruct (decide (q1 = p)) as [->|Hne].
    - assert (NoDup ((p, r) :: (p, r) :: rest).*1) as Hnd
        by by rewrite Hperm.
      cbn in Hnd. apply NoDup_cons in Hnd as [Hnd _]. apply Hnd. by left.
    - pose proof (Hothers _ _ H1 Hne). lia. }
  by rewrite decide_True.
Qed.

Lemma get_winner_single_highest_witness :
  get_winner (PokerRankOf [(1, [(0, 12)]); (2, [(0, 3)])] [(1, 12); (2, 25)])
  = Ok [2].
Proof.
  apply (get_winner_single_highest _ 2 25).
  - apply (bool_decide_unpack (NoDup [(1, 12); (2, 25)].*1)).
    vm_compute. exact I.
  - cbn. rewrite !elem_of_cons. tauto.
  - intros q r' Hq Hne. cbn in Hq.
    rewrite !elem_of_cons, elem_of_nil in Hq.
    destruct Hq as [[= -> ->]|[[= -> ->]|[]]]; [lia|done].
Defined.

End dealing.

(** * The winners of a tie *)

Section tie_break.

Import Numpy PokerRank PokerSimulator.

Implicit Types (cards hand : list card) (c : card).

(** The comparison that the loop [for i in range(5)] makes, on the ranks:
    the first difference decides. *)
Fixpoint lex (l1 l2 : list nat) : comparison :=
  match l1, l2 with
  | x :: l1', y :: l2' =>
      if decide (y < x) then Gt
      else if decide (x < y) then Lt
      else lex l1' l2'
  | _, _ => Eq
  end.

(** The ranks of the first five cards of a hand. *)
Definition ranks5 hand : list nat := take 5 (rank <$> hand).

(** What one comparison of [player1] with [player2] adds to
    [players_removed]. *)
Definition removes (item1 item2 : nat * list card) (p : nat) : Prop :=
  item1.1 ≠ item2.1
  ∧ ((lex (ranks5 item1.2) (ranks5 item2.2) = Gt ∧ p = item2.1)
     ∨ (lex (ranks5 item1.2) (ranks5 item2.2) = Lt ∧ p = item1.1)).

Definition five_or_more (item : nat * list card) : Prop :=
  5 ≤ length item.2.

(** [p] holds the highest scalar rank. *)
Definition top_rank (self : poker_rank) (p : nat) : Prop :=
  ∃ r, (p, r) ∈ rank_player_hands self
    ∧ ∀ q r', (q, r') ∈ rank_player_hands self → r' ≤ r.

(** The sorted hand of [q] is above the sorted hand of [p] at the first of
    the first five places where their ranks differ. *)
Definition outranks (self : poker_rank) (q p : nat) : Prop :=
  ∃ hq hp,
    item_of (player_hands self) q = Ok hq
    ∧ item_of (player_hands self) p = Ok hp
    ∧ lex (ranks5 (sort_desc hq)) (ranks5 (sort_desc hp)) = Gt.

(** *** The comparison of two hands *)

Lemma compare_from_lex n i hand1 hand2 :
  i + n ≤ length hand1 → i + n ≤ length hand2 →
  compare_from n i hand1 hand2
  = Ok (lex (take n (drop i (rank <$> hand1)))
          (take n (drop i (rank <$> hand2)))).
Proof.
  revert i. induction n as [|n IH]; intros i H1 H2; [done|].
  destruct (lookup_lt_is_Some_2 hand1 i) as [c1 Hc1]; [lia|].
  destruct (lookup_lt_is_Some_2 hand2 i) as [c2 Hc2]; [lia|].
  cbn [compare_from]. rewrite Hc1, Hc2. cbn [from_option mbind result_bind].
  rewrite (drop_S (rank <$> hand1) (rank c1) i)
    by by rewrite list_lookup_fmap, Hc1.
  rewrite (drop_S (rank <$> hand2) (rank c2) i)
    by by rewrite list_lookup_fmap, Hc2.
  cbn [take lex]. repeat case_decide; try done.
  apply IH; lia.
Qed.

Lemma compare_hands_lex hand1 hand2 :
  5 ≤ length hand1 → 5 ≤ length hand2 →
  compare_from 5 0 hand1 hand2 = Ok (lex (ranks5 hand1) (ranks5 hand2)).
Proof. intros H1 H2. by rewrite compare_from_lex by lia. Qed.

Lemma lex_refl l : lex l l = Eq.
Proof.
  induction l as [|x l IH]; [done|]. cbn.
  by rewrite !decide_False by lia.
Qed.

Lemma lex_flip l1 l2 :
  lex l2 l1 = match lex l1 l2 with Gt => Lt | Lt => Gt | Eq => Eq end.
Proof.
  revert l2. induction l1 as [|x l1 IH]; intros [|y l2]; try done.
  cbn. repeat case_decide; try lia; done.
Qed.

Lemma lex_trans l1 l2 l3 :
  length l1 = length l2 → length l2 = length l3 →
  lex l1 l2 ≠ Lt → lex l2 l3 ≠ Lt → lex l1 l3 ≠ Lt.
Proof.
  revert l2 l3. induction l1 as [|x l1 IH]; intros [|y l2] [|z l3]; try done.
  cbn. intros [= H12] [= H23].
  repeat case_decide; try done; try lia.
  apply IH; done.
Qed.

(** Among hands of equal length one is not below any other. *)
Lemma lex_maximum (ks : list (list nat)) n :
  ks ≠ [] → Forall (λ k, length k = n) ks →
  ∃ k, k ∈ ks ∧ ∀ k', k' ∈ ks → lex k k' ≠ Lt.
Proof.
  intros Hne Hlen. induction Hlen as [|k ks Hk Hks IH]; [done|].
  destruct ks as [|k0 ks0].
  { exists k. split; [by left|]. intros k' ->%list_elem_of_singleton.
    by rewrite lex_refl. }
  destruct IH as (m & Hm & Hmax); [done|].
  assert (length m = n) as Hmn.
  { rewrite Forall_forall in Hks. by apply Hks. }
  destruct (lex k m) eqn:Hkm.
  - exists k. split; [by left|]. intros k' [->|Hk']%elem_of_cons.
    { by rewrite lex_refl. }
    apply (lex_trans k m k'); [congruence| |congruence|by apply Hmax].
    rewrite Forall_forall in Hks. rewrite Hmn. symmetry. by apply Hks.
  - exists m. split; [by right|]. intros k' [->|Hk']%elem_of_cons.
    { rewrite (lex_flip k m), Hkm. done. }
    by apply Hmax.
  - exists k. split; [by left|]. intros k' [->|Hk']%elem_of_cons.
    { by rewrite lex_refl. }
    apply (lex_trans k m k'); [congruence| |congruence|by apply Hmax].
    rewrite Forall_forall in Hks. rewrite Hmn. symmetry. by apply Hks.
Qed.

(** *** The loops of [get_winner] *)

Lemma elem_of_mark_removed p x (l : list nat) :
  p ∈ mark_removed x l ↔ p = x ∨ p ∈ l.
Proof.
  unfold mark_removed. case_decide as Hx.
  - split; [by right|]. by intros [->|].
  - rewrite elem_of_app, list_elem_of_singleton. tauto.
Qed.

Lemma NoDup_mark_removed x (l : list nat) :
  NoDup l → NoDup (mark_removed x l).
Proof.
  unfold mark_removed. case_decide as Hx; [done|]. intros Hl.
  apply NoDup_app. split_and!; [done| |apply NoDup_singleton].
  by intros y Hy ->%list_elem_of_singleton.
Qed.

Lemma against_spec item1 items removed :
  five_or_more item1 → Forall five_or_more items →
  ∃ removed',
    against item1 items removed = Ok removed'
    ∧ (NoDup removed → NoDup removed')
    ∧ ∀ p, p ∈ removed'
           ↔ p ∈ removed ∨ ∃ item2, item2 ∈ items ∧ removes item1 item2 p.
Proof.
  intros H1 Hitems. revert removed.
  induction Hitems as [|item2 items H2 Hitems IH]; intros removed.
  { exists removed. split_and!; [done..|]. intros p. split; [by left|].
    by intros [|(? & ?%elem_of_nil & _)]. }
  cbn [against]. case_decide as Heq.
  - destruct (IH removed) as (removed' & -> & Hnd & Hin).
    exists removed'. split_and!; [done..|].
    intros p. rewrite Hin. split.
    + intros [|(it & Hit & Hr)]; [by left|]. right. exists it.
      split; [by right|done].
    + intros [|(it & [->|Hit]%elem_of_cons & Hr)]; [by left| |].
      * by destruct Hr as [Hne _].
      * right. eauto.
  - rewrite compare_hands_lex by done. cbn [mbind result_bind].
    set (removed1 :=
           match lex (ranks5 item1.2) (ranks5 item2.2) with
           | Gt => mark_removed item2.1 removed
           | Lt => mark_removed item1.1 removed
           | Eq => removed
           end).
    assert (NoDup removed → NoDup removed1) as Hnd1.
    { unfold removed1. destruct (lex _ _); auto using NoDup_mark_removed. }
    assert (∀ p, p ∈ removed1 ↔ p ∈ removed ∨ removes item1 item2 p)
      as Hin1.
    { intros p. unfold removed1, removes.
      destruct (lex _ _); rewrite ?elem_of_mark_removed;
        intuition congruence. }
    destruct (IH removed1) as (removed' & -> & Hnd & Hin).
    exists removed'. split_and!; [done|by auto|].
    intros p. rewrite Hin, Hin1. split.
    + intros [[|Hr]|(it & Hit & Hr)]; [by left| |].
      * right. exists item2. split; [by left|done].
      * right. exists it. split; [by right|done].
    + intros [|(it & [->|Hit]%elem_of_cons & Hr)]; [by left; left| |].
      * left. by right.
      * right. eauto.
Qed.

Lemma all_against_spec outer items removed :
  Forall five_or_more outer → Forall five_or_more items →
  ∃ removed',
    all_against outer items removed = Ok removed'
    ∧ (NoDup removed → NoDup removed')
    ∧ ∀ p, p ∈ removed'
           ↔ p ∈ removed
             ∨ ∃ item1 item2,
                 item1 ∈ outer ∧ item2 ∈ items ∧ removes item1 item2 p.
Proof.
  intros Houter Hitems. revert removed.
  induction Houter as [|item1 outer H1 Houter IH]; intros removed.
  { exists removed. split_and!; [done..|]. intros p. split; [by left|].
    by intros [|(? & ? & ?%elem_of_nil & _)]. }
  cbn [all_against].
  destruct (against_spec item1 items removed H1 Hitems)
    as (removed1 & -> & Hnd1 & Hin1).
  cbn [mbind result_bind].
  destruct (IH removed1) as (removed' & -> & Hnd & Hin).
  exists removed'. split_and!; [done|by auto|].
  intros p. rewrite Hin, Hin1. split.
  - intros [[|(it2 & Hit2 & Hr)]|(it1 & it2 & Hit1 & Hit2 & Hr)];
      [by left| |].
    + right. exists item1, it2. split_and!; [by left|done..].
    + right. exists it1, it2. split_and!; [by right|done..].
  - intros [|(it1 & it2 & [->|Hit1]%elem_of_cons & Hit2 & Hr)];
      [by left; left| |].
    + left. right. eauto.
    + right. eauto.
Qed.

Lemma list_remove_spec x (l : list nat) :
  NoDup l → x ∈ l →
  ∃ l', list_remove x l = Ok l' ∧ NoDup l' ∧ ∀ y, y ∈ l' ↔ y ∈ l ∧ y ≠ x.
Proof.
  intros Hnd Hx.
  destruct (list_remove_first x l Hx) as (front & back & -> & Hfront & ->).
  apply NoDup_app in Hnd as (Hf & Hfb & [Hxb Hb]%NoDup_cons).
  exists (front ++ back). split_and!; [done| |].
  - apply NoDup_app. split_and!; [done| |done].
    intros y Hy Hyb. apply (Hfb y Hy). by right.
  - intros y. rewrite !elem_of_app, elem_of_cons. split.
    + intros [Hy|Hy]; (split; [tauto|]); by intros ->.
    + tauto.
Qed.

Lemma remove_all_spec removed (l : list nat) :
  NoDup l → NoDup removed → removed ⊆ l →
  ∃ l', remove_all removed l = Ok l' ∧ NoDup l'
    ∧ ∀ y, y ∈ l' ↔ y ∈ l ∧ (y ∉ removed).
Proof.
  revert l. induction removed as [|x removed IH]; intros l Hl Hr Hsub.
  { exists l. split_and!; [done..|]. intros y. split; [|tauto].
    intros Hy. split; [done|]. by intros ?%elem_of_nil. }
  apply NoDup_cons in Hr as [Hx Hr]. cbn [remove_all].
  destruct (list_remove_spec x l Hl) as (l1 & -> & Hl1 & Hin1).
  { apply Hsub. by left. }
  cbn [mbind result_bind].
  destruct (IH l1 Hl1 Hr) as (l' & -> & Hl' & Hin).
  { intros y Hy. apply Hin1. split; [apply Hsub; by right|].
    by intros ->. }
  exists l'. split_and!; [done..|].
  intros y. rewrite Hin, Hin1, elem_of_cons. tauto.
Qed.

(** The hands of the tied players, sorted. *)
Lemma item_of_elem_of {V} (d : list (nat * V)) k v :
  item_of d k = Ok v → (k, v) ∈ d.
Proof.
  induction d as [|[k' v'] d IH]; cbn; [done|].
  case_decide as Hk; [intros [= ->]; subst; by left|].
  intros ?%IH. by right.
Qed.

Lemma item_of_key {V} (d : list (nat * V)) k :
  k ∈ d.*1 → ∃ v, item_of d k = Ok v.
Proof.
  induction d as [|[k' v'] d IH]; cbn; [by intros ?%elem_of_nil|].
  case_decide as Hk; [eauto|].
  intros [->|Hin]%elem_of_cons; [done|]. by apply IH.
Qed.

Lemma tied_hands_ok (d : list (nat * list card)) (tied : list nat) :
  (∀ p, p ∈ tied → ∃ h, item_of d p = Ok h ∧ 5 ≤ length h) →
  ∃ hands,
    result_mapM (λ player, hand ← item_of d player;
                           Ok (player, sort_desc hand)) tied = Ok hands
    ∧ hands.*1 = tied
    ∧ Forall five_or_more hands
    ∧ ∀ p h, (p, h) ∈ hands
             ↔ p ∈ tied ∧ ∃ h0, item_of d p = Ok h0 ∧ h = sort_desc h0.
Proof.
  induction tied as [|q tied IH]; intros Hd.
  { exists []. split_and!; [done..|]. intros p h. split.
    - by intros ?%elem_of_nil.
    - by intros [?%elem_of_nil _]. }
  destruct (Hd q) as (hq & Hq & Hlen); [by left|].
  destruct IH as (hands & Hm & Hkeys & Hfive & Hin).
  { intros p Hp. apply Hd. by right. }
  cbn [result_mapM]. rewrite Hq. cbn [mbind result_bind]. rewrite Hm.
  cbn [mbind result_bind].
  exists ((q, sort_desc hq) :: hands). split_and!; [done|by cbn; f_equal| |].
  - constructor; [|done]. unfold five_or_more. cbn.
    by rewrite length_sort_desc.
  - intros p h. rewrite !elem_of_cons, Hin. split.
    + intros [[= -> ->]|[Hp Hh]]; [|by auto]. split; [by left|eauto].
    + intros [[->|Hp] (h0 & H0 & ->)]; [|right; eauto].
      left. congruence.
Qed.

Lemma tied_complete highest (l : list (nat * nat)) p :
  StronglySorted (descending snd) l →
  (∀ q r, (q, r) ∈ l → r ≤ highest) →
  (p, highest) ∈ l → p ∈ players_with_highest_rank highest l.
Proof.
  induction 1 as [|[q r] l Hl IH Hq]; intros Hmax Hp;
    [by apply elem_of_nil in Hp|].
  cbn. apply elem_of_cons in Hp as [[= <- <-]|Hp].
  { rewrite decide_True by done. by left. }
  case_decide as Hr.
  - right. apply IH; [|done]. intros q' r' Hq'. apply (Hmax q'). by right.
  - rewrite Forall_forall in Hq. specialize (Hq _ Hp).
    unfold descending in Hq. cbn in Hq.
    assert (r ≤ highest) by (apply (Hmax q); by left). lia.
Qed.

Lemma tied_NoDup highest (l : list (nat * nat)) :
  NoDup l.*1 → NoDup (players_with_highest_rank highest l).
Proof.
  induction l as [|[q r] l IH]; cbn; [constructor|].
  intros [Hq Hl]%NoDup_cons. case_decide; [|constructor].
  constructor; [|by apply IH].
  intros Hin%tied_have_highest_rank. apply Hq.
  by apply (list_elem_of_fmap_2 fst) in Hin.
Qed.

(** *** The winners of a tie *)

Lemma length_ranks5 hand : 5 ≤ length hand → length (ranks5 hand) = 5.
Proof.
  intros Hlen. unfold ranks5. rewrite length_take, length_fmap. lia.
Qed.

Lemma outranks_irrefl self p : ¬ outranks self p p.
Proof.
  intros (hq & hp & Hq & Hp & Hlex).
  assert (hq = hp) as -> by congruence. by rewrite lex_refl in Hlex.
Qed.

Lemma get_winner_spec self :
  NoDup (rank_player_hands self).*1 →
  rank_player_hands self ≠ [] →
  (∀ p r, (p, r) ∈ rank_player_hands self →
          ∃ h, item_of (player_hands self) p = Ok h ∧ 5 ≤ length h) →
  ∃ winners,
    get_winner self = Ok winners
    ∧ winners ≠ []
    ∧ NoDup winners
    ∧ ∀ p, p ∈ winners
           ↔ top_rank self p
             ∧ ∀ q, top_rank self q → ¬ outranks self q p.
Proof.
  intros Hkeys Hne Hhands. unfold get_winner.
  pose proof (sorted_desc_perm snd (rank_player_hands self)) as Hperm.
  pose proof (sorted_desc_sorted snd (rank_player_hands self)) as Hdesc.
  destruct (sorted_desc snd (rank_player_hands self)) as [|[p0 r0] rest]
    eqn:Hsorted.
  { apply Permutation_nil_l in Hperm. by destruct Hne. }
  cbn [head from_option mbind result_bind snd].
  set (tied := players_with_highest_rank r0 ((p0, r0) :: rest)).
  assert (∀ q r, (q, r) ∈ rank_player_hands self → r ≤ r0) as Hmax.
  { intros q r Hq. rewrite <- Hperm in Hq.
    apply StronglySorted_cons in Hdesc as [Hfirst _].
    apply elem_of_cons in Hq as [[= -> ->]|Hq]; [done|].
    rewrite Forall_forall in Hfirst. apply (Hfirst _ Hq). }
  assert (∀ p r r', (p, r) ∈ rank_player_hands self →
                    (p, r') ∈ rank_player_hands self → r = r') as Hfun.
  { intros p r r' [i Hi]%list_elem_of_lookup [j Hj]%list_elem_of_lookup.
    assert (i = j) as ->; [|congruence].
    eapply NoDup_lookup; [exact Hkeys| |];
      rewrite list_lookup_fmap; [by rewrite Hi|by rewrite Hj]. }
  assert (∀ p, p ∈ tied ↔ top_rank self p) as Htied.
  { intros p. split.
    - intros Hp%tied_have_highest_rank. rewrite Hperm in Hp.
      exists r0. split; [done|]. intros q r'. apply Hmax.
    - intros (r & Hp & Hr). apply tied_complete; [done| |].
      + intros q r' Hq. apply (Hmax q). by rewrite <- Hperm.
      + rewrite Hperm.
        assert ((p0, r0) ∈ rank_player_hands self) as H0
          by (rewrite <- Hperm; by left).
        assert (r = r0) as <-; [|done].
        apply Nat.le_antisymm; [by eapply Hmax|by eapply Hr]. }
  assert (NoDup tied) as Hnd.
  { apply tied_NoDup. by rewrite Hperm. }
  assert (p0 ∈ tied) as Hp0.
  { unfold tied. cbn. rewrite decide_True by done. by left. }
  assert (tied ≠ []) as Htne.
  { intros Hnil. rewrite Hnil in Hp0. by apply elem_of_nil in Hp0. }
  clearbody tied. case_decide as Hone.
  { exists tied. split_and!; [done..|].
    intros p. rewrite <- Htied. split; [|tauto].
    intros Hp. split; [done|]. intros q Hq%Htied.
    destruct tied as [|x [|y l]]; [done| |done].
    apply list_elem_of_singleton in Hp as ->.
    apply list_elem_of_singleton in Hq as ->. apply outranks_irrefl. }
  destruct (tied_hands_ok (player_hands self) tied)
    as (hands & -> & Hfst & Hfive & Hin).
  { intros p (r & Hp & _)%Htied. by eapply Hhands. }
  cbn [mbind result_bind].
  destruct (all_against_spec hands hands [] Hfive Hfive)
    as (removed & -> & Hrnd & Hrem).
  cbn [mbind result_bind].
  assert (∀ p, p ∈ removed ↔ p ∈ tied ∧ ∃ q, q ∈ tied ∧ outranks self q p)
    as Hout.
  { intros p. rewrite Hrem. split.
    - intros [?%elem_of_nil|(it1 & it2 & H1 & H2 & Hne12 & Hr)]; [done|].
      destruct it1 as [p1 h1], it2 as [p2 h2]. cbn [fst snd] in Hne12, Hr.
      apply Hin in H1 as (Hp1 & g1 & Hg1 & ->).
      apply Hin in H2 as (Hp2 & g2 & Hg2 & ->).
      destruct Hr as [[Hlex ->]|[Hlex ->]].
      + split; [done|]. exists p1. split; [done|]. by exists g1, g2.
      + split; [done|]. exists p2. split; [done|]. exists g2, g1.
        split_and!; [done..|]. by rewrite lex_flip, Hlex.
    - intros (Hp & q & Hq & hq & hp & Hhq & Hhp & Hlex). right.
      exists (q, sort_desc hq), (p, sort_desc hp). split; [|split].
      + apply Hin. eauto.
      + apply Hin. eauto.
      + split; [|by left]. cbn [fst]. intros ->.
        assert (hq = hp) as -> by congruence.
        by rewrite lex_refl in Hlex. }
  destruct (remove_all_spec removed tied Hnd) as (winners & -> & Hwnd & Hw).
  { apply Hrnd. constructor. }
  { intros p Hp. by apply Hout in Hp as [? _]. }
  exists winners. split_and!; [done| |done|].
  - (* some hand is outranked by none *)
    destruct (lex_maximum ((λ item, ranks5 item.2) <$> hands) 5)
      as (k & Hk & Hkmax).
    { intros Hnil%fmap_nil_inv. subst hands. by destruct Htne. }
    { apply Forall_fmap. eapply Forall_impl; [exact Hfive|].
      intros item Hitem. cbn. by apply length_ranks5. }
    apply list_elem_of_fmap in Hk as ([p h] & -> & Hph). cbn [snd] in Hkmax.
    assert (p ∈ winners) as Hpw; [|by intros ->; apply elem_of_nil in Hpw].
    apply Hw. pose proof Hph as (Hp & h0 & Hh0 & ->)%Hin.
    split; [done|].
    intros (_ & q & Hq & hq & hp & Hhq & Hhp & Hlex)%Hout.
    assert (hp = h0) as -> by congruence.
    apply (Hkmax (ranks5 (sort_desc hq))).
    + apply list_elem_of_fmap. exists (q, sort_desc hq). split; [done|].
      apply Hin. eauto.
    + by rewrite lex_flip, Hlex.
  - intros p. rewrite Hw, Hout, <- Htied. split.
    + intros [Hp Hnot]. split; [done|]. intros q Hq%Htied Hqp.
      apply Hnot. eauto.
    + intros [Hp Hnot]. split; [done|].
      intros (_ & q & Hq & Hqp). by apply (Hnot q); [apply Htied|].
Qed.

(** **** Property X25: the winners of [get_winner]
    When every ranked player has a stored hand of five cards or more,
    [get_winner] returns; the winners are exactly the players that hold the
    highest scalar rank and whose sorted hand no other such player's sorted
    hand outranks; there is at least one, and none is listed twice. *)
Theorem get_winner_best_hands self :
  NoDup (rank_player_hands self).*1 →
  rank_player_hands self ≠ [] →
  (∀ p r, (p, r) ∈ rank_player_hands self →
          ∃ h, item_of (player_hands self) p = Ok h ∧ 5 ≤ length h) →
  ∃ winners,
    get_winner self = Ok winners
    ∧ winners ≠ []
    ∧ NoDup winners
    ∧ ∀ p, p ∈ winners
           ↔ top_rank self p
             ∧ ∀ q, top_rank self q → ¬ outranks self q p.
Proof. apply get_winner_spec. Qed.

Lemma get_winner_best_hands_witness :
  ∃ winners,
    get_winner kings_tie = Ok winners
    ∧ winners ≠ []
    ∧ NoDup winners
    ∧ ∀ p, p ∈ winners
           ↔ top_rank kings_tie p
             ∧ ∀ q, top_rank kings_tie q → ¬ outranks kings_tie q p.
Proof.
  apply (get_winner_best_hands kings_tie).
  - apply (bool_decide_unpack (NoDup (rank_player_hands kings_tie).*1)).
    vm_compute. exact I.
  - discriminate.
  - intros p r Hp. cbn in Hp. rewrite !elem_of_cons, elem_of_nil in Hp.
    destruct Hp as [[= -> ->]|[[= -> ->]|[]]]; eexists;
      (split; [vm_compute; reflexivity|cbn; lia]).
Defined.

End tie_break.

(** * Ranking every player, and the showdown *)

Section showdown_of_players.

Import Numpy PokerRank PokerSimulator.

Implicit Types (cards hand table : list card) (c : card).

(** Cards that [rank_hand_of_player] accepts: five to seven that the mapper
    prints. *)
Definition rankable cards : Prop :=
  5 ≤ length cards ≤ 7 ∧ Forall valid_card cards.

(** What [__init__] stores for a player with the cards [ph.2]. *)
Definition stored_for (ph best : nat * list card) (ranked_as : nat * nat)
  : Prop :=
  ∃ r, rank_hand_of_player ph.2 = Ok r
    ∧ best = (ph.1, best_hand r)
    ∧ ranked_as = (ph.1, score r)
    ∧ length (best_hand r) = 5
    ∧ best_hand r ⊆ ph.2.

(** *** The ranking of every player *)

Lemma rank_players_ok (hands : list (nat * list card)) :
  Forall (λ ph, rankable ph.2) hands →
  ∃ best ranks,
    rank_players hands = Ok (best, ranks)
    ∧ best.*1 = hands.*1
    ∧ ranks.*1 = hands.*1
    ∧ ∀ i ph, hands !! i = Some ph →
        ∃ b r, best !! i = Some b ∧ ranks !! i = Some r ∧ stored_for ph b r.
Proof.
  induction 1 as [|[player cards] hands [Hlen Hv] _ IH].
  { exists [], []. split_and!; [done..|]. intros i ph. by destruct i. }
  destruct IH as (best & ranks & Hrest & Hb & Hr & Hall).
  destruct (five_cards_returned cards Hlen Hv) as (r & Hrank & Hfive & Hsub).
  cbn [rank_players]. cbn [snd] in Hrank. rewrite Hrank.
  cbn [mbind result_bind]. rewrite Hrest. cbn [mbind result_bind fst snd].
  exists ((player, best_hand r) :: best), ((player, score r) :: ranks).
  split_and!; [done|by cbn; f_equal..|].
  intros [|i] ph Hi.
  - injection Hi as <-. eexists _, _. split_and!; [done..|].
    exists r. by split_and!.
  - by apply Hall.
Qed.

(** **** Property X26: [__init__] ranks every player
    With table cards, when every player's cards and the table make five to
    seven cards that the mapper prints, the constructor returns; it keeps
    the players in their order, and stores for each the scalar that
    [rank_hand_of_player] gives to the player's cards followed by the
    table, and in place of the cards a hand of five of them. *)
Theorem init_ranks_every_player (hands : list (nat * list card)) table :
  Forall (λ ph, rankable (ph.2 ++ table)) hands →
  ∃ self,
    init hands (Some table) = Ok self
    ∧ (player_hands self).*1 = hands.*1
    ∧ (rank_player_hands self).*1 = hands.*1
    ∧ ∀ i ph, hands !! i = Some ph →
        ∃ b r, player_hands self !! i = Some b
             ∧ rank_player_hands self !! i = Some r
             ∧ stored_for (ph.1, ph.2 ++ table) b r.
Proof.
  intros Hhands. unfold init.
  destruct (rank_players_ok ((λ ph, (ph.1, ph.2 ++ table)) <$> hands))
    as (best & ranks & -> & Hb & Hr & Hall).
  { apply Forall_fmap. eapply Forall_impl; [exact Hhands|]. by intros ph. }
  cbn [mbind result_bind fst snd].
  rewrite <- list_fmap_compose in Hb, Hr.
  exists (PokerRankOf best ranks). split_and!; [done..|].
  intros i ph Hi. apply Hall. by rewrite list_lookup_fmap, Hi.
Qed.

Lemma init_ranks_every_player_witness :
  ∃ self,
    init [(0, [(0, 12); (1, 12)]); (1, [(2, 3); (3, 7)])]
      (Some [(0, 0); (1, 5); (2, 9); (3, 10); (0, 11)]) = Ok self
    ∧ (player_hands self).*1 = [0; 1]
    ∧ (rank_player_hands self).*1 = [0; 1]
    ∧ ∀ i ph,
        [(0, [(0, 12); (1, 12)]); (1, [(2, 3); (3, 7)])] !! i = Some ph →
        ∃ b r, player_hands self !! i = Some b
             ∧ rank_player_hands self !! i = Some r
             ∧ stored_for
                 (ph.1, ph.2 ++ [(0, 0); (1, 5); (2, 9); (3, 10); (0, 11)])
                 b r.
Proof.
  apply (init_ranks_every_player
           [(0, [(0, 12); (1, 12)]); (1, [(2, 3); (3, 7)])]
           [(0, 0); (1, 5); (2, 9); (3, 10); (0, 11)]).
  repeat constructor; cbn; lia.
Defined.

(** *** Showdown *)

Lemma showdown_hands_ok (player_hands : gmap nat (list card))
    (players : list nat) :
  (∀ p, p ∈ players →
        ∃ cards, player_hands !! p = Some cards ∧ length cards = 2
                 ∧ Forall valid_card cards) →
  ∃ hands,
    result_mapM (λ player, cards ← getitem player_hands player;
                           Ok (player, cards)) players = Ok hands
    ∧ hands.*1 = players
    ∧ Forall (λ ph, length ph.2 = 2 ∧ Forall valid_card ph.2) hands.
Proof.
  induction players as [|p players IH]; intros Hp.
  { by exists []. }
  destruct (Hp p) as (cards & Hcards & Hlen & Hv); [by left|].
  destruct IH as (hands & Hm & Hkeys & Hall).
  { intros q Hq. apply Hp. by right. }
  cbn [result_mapM]. rewrite (getitem_Some _ _ _ Hcards).
  cbn [mbind result_bind]. rewrite Hm. cbn [mbind result_bind].
  exists ((p, cards) :: hands). split_and!; [done|by cbn; f_equal|].
  by constructor.
Qed.

Lemma print_hole_cards_ok cards :
  length cards = 2 → Forall valid_card cards → print_hole_cards cards = Ok ().
Proof.
  destruct cards as [|c0 [|c1 [|]]]; try done. intros _ Hv.
  apply Forall_cons in Hv as [H0 [H1 _]%Forall_cons].
  unfold print_hole_cards. cbn [lookup list_lookup from_option].
  cbn [mbind result_bind].
  destruct (card_string_ok c0 H0) as [s0 ->]. cbn [mbind result_bind].
  destruct (card_string_ok c1 H1) as [s1 ->]. done.
Qed.

Lemma print_all_ok (hands : list (nat * list card)) :
  Forall (λ ph, length ph.2 = 2 ∧ Forall valid_card ph.2) hands →
  ∃ us, result_mapM (λ ph, print_hole_cards ph.2) hands = Ok us.
Proof.
  induction 1 as [|ph hands [Hlen Hv] _ [us IH]]; cbn; [eauto|].
  rewrite print_hole_cards_ok by done. cbn. rewrite IH. cbn. eauto.
Qed.

(** **** Property X27: [showdown] on dealt cards
    When the players at the showdown are distinct and each holds two cards
    that the mapper prints, and the table holds five, [showdown] raises
    nothing: it finds at least one winner, every winner is one of the
    players, none is listed twice, and no chip moves. *)
Theorem showdown_finds_winners (player_hands : gmap nat (list card))
    table (players : list nat) st :
  NoDup players →
  players ≠ [] →
  length table = 5 →
  Forall valid_card table →
  (∀ p, p ∈ players →
        ∃ cards, player_hands !! p = Some cards ∧ length cards = 2
                 ∧ Forall valid_card cards) →
  ∃ winners,
    showdown player_hands table players st = Ok (winners, st)
    ∧ winners ≠ []
    ∧ NoDup winners
    ∧ winners ⊆ players.
Proof.
  intros Hnd Hne Htable Hvt Hp. unfold showdown.
  destruct (showdown_hands_ok player_hands players Hp)
    as (hands & -> & Hkeys & Hall).
  cbn [mbind result_bind].
  destruct (print_all_ok hands Hall) as [us ->]. cbn [mbind result_bind].
  unfold init.
  destruct (rank_players_ok ((λ ph, (ph.1, ph.2 ++ table)) <$> hands))
    as (best & ranks & -> & Hb & Hr & Hstored).
  { apply Forall_fmap. eapply Forall_impl; [exact Hall|].
    intros ph [Hlen Hv]. split; cbn.
    - rewrite length_app. lia.
    - by apply Forall_app. }
  cbn [mbind result_bind fst snd].
  rewrite <- list_fmap_compose in Hb, Hr.
  change ((fst ∘ λ ph : nat * list card, (ph.1, ph.2 ++ table)) <$> hands)
    with (hands.*1) in Hb, Hr.
  rewrite Hkeys in Hb, Hr.
  destruct (get_winner_spec (PokerRankOf best ranks))
    as (winners & -> & Hwne & Hwnd & Hw).
  - cbn. by rewrite Hr.
  - cbn. intros ->. by destruct Hne.
  - cbn. intros p r Hpr.
    destruct (item_of_key best p) as [h Hh].
    { rewrite Hb, <- Hr. apply list_elem_of_fmap. by exists (p, r). }
    exists h. split; [done|].
    apply item_of_elem_of, list_elem_of_lookup in Hh as [j Hj].
    destruct (lookup_lt_is_Some_2 ((λ ph, (ph.1, ph.2 ++ table)) <$> hands) j)
      as [ph Hph].
    { apply lookup_lt_Some in Hj.
      rewrite length_fmap, <- (length_fmap fst hands), Hkeys,
        <- Hb, length_fmap. done. }
    destruct (Hstored j ph Hph)
      as (b & r' & Hbj & _ & rk & _ & Hbest & _ & H5 & _).
    assert (b = (p, h)) as Heq by congruence.
    rewrite Hbest in Heq. injection Heq as _ <-. lia.
  - cbn [mbind result_bind]. exists winners. split_and!; [done..|].
    intros p [(r & Hpr & _) _]%Hw. cbn in Hpr.
    rewrite <- Hr. apply list_elem_of_fmap. by exists (p, r).
Qed.

Lemma showdown_finds_winners_witness :
  ∃ winners,
    showdown {[ 0 := [(0, 12); (1, 12)]; 1 := [(2, 3); (3, 7)] ]}
      [(0, 0); (1, 5); (2, 9); (3, 10); (0, 11)] [0; 1] two_seats
    = Ok (winners, two_seats)
    ∧ winners ≠ []
    ∧ NoDup winners
    ∧ winners ⊆ [0; 1].
Proof.
  apply (showdown_finds_winners
           {[ 0 := [(0, 12); (1, 12)]; 1 := [(2, 3); (3, 7)] ]}
           [(0, 0); (1, 5); (2, 9); (3, 10); (0, 11)] [0; 1] two_seats).
  - apply (bool_decide_unpack (NoDup [0; 1])). vm_compute. exact I.
  - discriminate.
  - reflexivity.
  - repeat constructor; cbn; lia.
  - intros p Hp. rewrite !elem_of_cons, elem_of_nil in Hp.
    destruct Hp as [->|[->|[]]]; eexists;
      (split; [vm_compute; reflexivity|]);
      (split; [reflexivity|repeat constructor; cbn; lia]).
Defined.

Lemma showdown_hands_missing (player_hands : gmap nat (list card))
    (players : list nat) p :
  p ∈ players →
  player_hands !! p = None →
  result_mapM (λ player, cards ← getitem player_hands player;
                         Ok (player, cards)) players
  = Raise KeyError.
Proof.
  intros Hp Hnone. unfold getitem.
  induction players as [|q players IH]; [by apply elem_of_nil in Hp|].
  cbn [result_mapM].
  destruct (player_hands !! q) as [cards|] eqn:Hq; [|reflexivity].
  cbn [from_option mbind result_bind].
  apply elem_of_cons in Hp as [->|Hp]; [congruence|].
  by rewrite IH.
Qed.

(** **** Property X28: a player without a hand
    When one of the players at the showdown has no entry in [player_hands],
    [showdown] raises [KeyError]: before anything is printed or ranked. *)
Theorem showdown_unknown_player (player_hands : gmap nat (list card))
    table (players : list nat) st p :
  p ∈ players →
  player_hands !! p = None →
  showdown player_hands table players st = Raise KeyError.
Proof.
  intros Hp Hnone. unfold showdown.
  by rewrite (showdown_hands_missing _ _ _ Hp Hnone).
Qed.

Lemma showdown_unknown_player_witness :
  showdown {[ 0 := [(0, 12); (1, 12)] ]}
    [(0, 0); (1, 5); (2, 9); (3, 10); (0, 11)] [0; 1] two_seats
  = Raise KeyError.
Proof.
  apply (showdown_unknown_player _ _ _ _ 1).
  - rewrite !elem_of_cons. tauto.
  - vm_compute. reflexivity.
Defined.

End showdown_of_players.

(** * A new round *)

Section new_round.

Import Numpy PokerRank PokerSimulator.

Implicit Types (st : state) (player p q : nat).

Lemma lookup_constant_map {V} (v : V) (players : list nat) p :
  (list_to_map ((λ player, (player, v)) <$> players) : gmap nat V) !! p
  = if decide (p ∈ players) then Some v else None.
Proof.
  induction players as [|q players IH]; cbn.
  { rewrite lookup_empty. by rewrite decide_False by apply not_elem_of_nil. }
  destruct (decide (q = p)) as [->|Hne].
  - rewrite lookup_insert_eq. rewrite decide_True; [done|by left].
  - rewrite lookup_insert_ne by done. rewrite IH.
    destruct (decide (p ∈ players)) as [Hin|Hout].
    + rewrite decide_True; [done|by right].
    + rewrite decide_False; [done|].
      intros [->|?]%elem_of_cons; done.
Qed.

Lemma rotate_perm st st1 :
  rotate st = Ok st1 →
  player_money st1 = player_money st
  ∧ big_blind st1 = big_blind st
  ∧ small_blind st1 = small_blind st
  ∧ order_of_play st1 ≡ₚ order_of_play st.
Proof.
  unfold rotate. destruct (last (order_of_play st)) as [final|] eqn:Hlast;
    [|done].
  intros [= <-]. split_and!; [done..|]. cbn.
  apply last_Some in Hlast as [front Hfront]. rewrite Hfront.
  rewrite length_app. cbn. rewrite Nat.add_sub, take_app_length.
  by rewrite Permutation_app_comm.
Qed.

Lemma deal_cards_keys draw (players : list nat) table
    (hands : list (nat * list card)) :
  deal draw players = Ok (table, hands) → hands.*1 = players.
Proof.
  unfold deal. case_decide as Hlen; [|done]. intros [= <- <-].
  apply fst_zip. rewrite length_fmap.
  destruct (pairs_of_concat (length players) (drop 5 draw) Hlen)
    as (_ & Hpairs & _).
  lia.
Qed.

Lemma instantiate_inv
    n_rounds keys draw st table hands st' :
  NoDup keys →
  instantiate n_rounds keys draw st = Ok (table, hands, st') →
  (∀ p, is_Some (hands !! p) ↔ p ∈ keys ∧ has_chips (player_money st) p)
  ∧ (∀ p, decision_holder st' !! p
          = if decide (is_Some (hands !! p)) then Some None else None)
  ∧ (∀ p, player_bets st' !! p
          = if decide (is_Some (hands !! p)) then Some 0%Z else None)
  ∧ n_players st' = Z.of_nat (size hands)
  ∧ last_bet st' = big_blind st
  ∧ player_money st' = player_money st
  ∧ order_of_play st' ≡ₚ order_of_play st.
Proof.
  intros Hnd. unfold instantiate.
  destruct (if decide (0 < n_rounds) then rotate st else Ok st)
    as [st1|] eqn:Hrot; [|done].
  assert (player_money st1 = player_money st
          ∧ big_blind st1 = big_blind st
          ∧ order_of_play st1 ≡ₚ order_of_play st) as (Hm & Hbb & Hord).
  { case_decide.
    - by apply rotate_perm in Hrot as (? & ? & _ & ?).
    - by injection Hrot as <-. }
  cbn [mbind result_bind]. rewrite Hm.
  set (players := filter (has_chips (player_money st)) keys).
  destruct (decide (52 < 5 + length players * 2)) as [?|_]; [done|].
  destruct (deal draw players) as [[table0 dealt]|] eqn:Hdeal; [|done].
  cbn [mbind result_bind fst snd].
  destruct (match _ with Some _ => _ | None => _ end) as [strs|]; [|done].
  cbn [mbind result_bind]. intros [= <- <- <-]. cbn.
  apply deal_cards_keys in Hdeal.
  assert (NoDup players) as Hndp by by apply NoDup_filter.
  assert (∀ p, is_Some ((list_to_map dealt : gmap nat (list card)) !! p)
               ↔ p ∈ players) as Hdom.
  { intros p. rewrite <- Hdeal at 1. split.
    - intros [h Hh]. apply elem_of_list_to_map_2 in Hh.
      by apply (list_elem_of_fmap_2 fst) in Hh.
    - intros ((p' & h) & -> & Hin)%list_elem_of_fmap. exists h.
      apply elem_of_list_to_map_1; [by rewrite Hdeal|exact Hin]. }
  split_and!.
  - intros p. rewrite Hdom. unfold players. rewrite list_elem_of_filter. tauto.
  - intros p. rewrite lookup_constant_map.
    destruct (decide (p ∈ players)) as [Hin|Hout].
    + rewrite decide_True; [done|by apply Hdom].
    + rewrite decide_False; [done|by rewrite Hdom].
  - intros p. rewrite lookup_constant_map.
    destruct (decide (p ∈ players)) as [Hin|Hout].
    + rewrite decide_True; [done|by apply Hdom].
    + rewrite decide_False; [done|by rewrite Hdom].
  - f_equal. rewrite map_size_list_to_map by by rewrite Hdeal.
    by rewrite <- Hdeal, length_fmap.
  - done.
  - done.
  - done.
Qed.

Lemma pairs_of_Forall (P : nat → Prop) (l : list nat) :
  Forall P l → Forall (Forall P) (pairs_of l).
Proof.
  revert l. fix IH 2. intros l Hl.
  destruct Hl as [|x l Hx Hl]; [constructor|].
  destruct Hl as [|y l Hy Hl]; [constructor|].
  cbn. constructor; [by repeat constructor|]. by apply IH.
Qed.

Lemma deal_ok draw (players : list nat) :
  length draw = 5 + length players * 2 →
  Forall (λ n, n < 52) draw →
  ∃ table hands,
    deal draw players = Ok (table, hands)
    ∧ length table = 5
    ∧ Forall (λ ph, Forall valid_card ph.2) hands.
Proof.
  intros Hlen Hdeck. unfold deal.
  rewrite decide_True by (rewrite length_drop; lia).
  eexists _, _. split_and!; [done| |].
  - rewrite length_fmap, length_take. lia.
  - apply Forall_forall. intros [p h] Hin. cbn.
    apply elem_of_zip_r, list_elem_of_fmap in Hin as (ns & -> & Hns).
    apply Forall_fmap.
    assert (Forall (Forall (λ n, n < 52)) (pairs_of (drop 5 draw)))
      as Hpairs by (apply pairs_of_Forall; by apply Forall_drop).
    rewrite Forall_forall in Hpairs.
    eapply Forall_impl; [by apply Hpairs|].
    intros n Hn. by apply get_card_valid.
Qed.

Lemma deck_draw_length (draw : list nat) :
  NoDup draw → Forall (λ n, n < 52) draw → length draw ≤ 52.
Proof.
  intros Hnd Hdeck.
  assert (draw ⊆+ seq 0 52) as Hsub.
  { apply NoDup_submseteq; [done|]. intros n Hn.
    rewrite Forall_forall in Hdeck. apply elem_of_seq.
    specialize (Hdeck n Hn). lia. }
  apply submseteq_length in Hsub. by rewrite length_seq in Hsub.
Qed.

(** **** Property X29: the new round of [instantiate]
    With a seat in the turn order: when more than 23 players have chips,
    the draw of 5 + 2 n numbers out of 52 fails and [instantiate] raises
    [ValueError]; on a draw of 5 + 2 n different numbers of the deck for the
    n players with chips, [instantiate] returns.  It then puts five cards
    on the table and deals a hand to exactly the players with chips, gives
    each of them the decision [None] and the bet 0, counts them in
    [n_players] and sets the amount to call to the big blind.  The stacks do
    not change and the turn order is permuted at most: a player without
    chips keeps a stack entry and a seat, but has no hand, no decision and
    no bet. *)
Theorem instantiate_deals_to_players_with_chips n_rounds keys draw st :
  NoDup keys →
  order_of_play st ≠ [] →
  (52 < 5 + length (filter (has_chips (player_money st)) keys) * 2 →
   instantiate n_rounds keys draw st = Raise ValueError)
  ∧ (length draw
     = 5 + length (filter (has_chips (player_money st)) keys) * 2 →
     NoDup draw →
     Forall (λ n, n < 52) draw →
     ∃ table hands st',
       instantiate n_rounds keys draw st = Ok (table, hands, st')
       ∧ length table = 5
       ∧ (∀ p, is_Some (hands !! p)
               ↔ p ∈ keys ∧ has_chips (player_money st) p)
       ∧ (∀ p, decision_holder st' !! p
               = if decide (is_Some (hands !! p)) then Some None else None)
       ∧ (∀ p, player_bets st' !! p
               = if decide (is_Some (hands !! p)) then Some 0%Z else None)
       ∧ n_players st' = Z.of_nat (size hands)
       ∧ last_bet st' = big_blind st
       ∧ player_money st' = player_money st
       ∧ order_of_play st' ≡ₚ order_of_play st).
Proof.
  intros Hnd Hseat.
  assert (∃ st1, (if decide (0 < n_rounds) then rotate st else Ok st)
                 = Ok st1 ∧ player_money st1 = player_money st)
    as (st1 & Hrot & Hm).
  { case_decide; [|eauto]. unfold rotate.
    destruct (last (order_of_play st)) as [final|] eqn:Hlast.
    - cbn. eauto.
    - by apply last_None in Hlast. }
  split.
  { intros Hmany. unfold instantiate. rewrite Hrot.
    cbn [mbind result_bind]. rewrite Hm. by rewrite decide_True. }
  intros Hlen Hdraw Hdeck.
  assert (∃ r, instantiate n_rounds keys draw st = Ok r)
    as [[[table hands] st'] Hinst].
  { unfold instantiate. rewrite Hrot.
    cbn [mbind result_bind]. rewrite Hm.
    rewrite decide_False
      by (pose proof (deck_draw_length draw Hdraw Hdeck); lia).
    destruct (deal_ok draw _ Hlen Hdeck) as (table & hands & -> & _ & Hv).
    cbn [mbind result_bind fst snd].
    destruct ((list_to_map hands : gmap nat (list card)) !! 0)
      as [cards|] eqn:H0; [|cbn; eauto].
    apply elem_of_list_to_map_2 in H0.
    rewrite Forall_forall in Hv. specialize (Hv _ H0).
    destruct (card_strings_ok cards Hv) as [strs ->]. cbn. eauto. }
  exists table, hands, st'. split; [done|].
  split; [|by eapply instantiate_inv].
  revert Hinst. unfold instantiate. rewrite Hrot.
  cbn [mbind result_bind].
  destruct (decide (52 < _)) as [?|_]; [done|].
  destruct (deal draw _) as [[table0 dealt]|] eqn:Hdeal; [|done].
  cbn [mbind result_bind fst snd].
  destruct (match _ with Some _ => _ | None => _ end) as [strs|]; [|done].
  cbn [mbind result_bind]. intros [= <- _ _].
  revert Hdeal. unfold deal.
  destruct (decide (length (drop 5 draw) = _)) as [Hl|?]; [|done].
  intros [= <- _]. rewrite length_fmap, length_take. lia.
Qed.

Lemma instantiate_deals_to_players_with_chips_witness :
  instantiate 0 (seq 0 24) [] full_table = Raise ValueError
  ∧ ∃ table hands st',
      instantiate 1 [0; 1; 2] [0; 1; 2; 3; 4; 13; 26; 39; 51] folded_broke
      = Ok (table, hands, st')
      ∧ length table = 5
      ∧ (∀ p, is_Some (hands !! p)
              ↔ p ∈ [0; 1; 2] ∧ has_chips (player_money folded_broke) p)
      ∧ (∀ p, decision_holder st' !! p
              = if decide (is_Some (hands !! p)) then Some None else None)
      ∧ (∀ p, player_bets st' !! p
              = if decide (is_Some (hands !! p)) then Some 0%Z else None)
      ∧ n_players st' = Z.of_nat (size hands)
      ∧ last_bet st' = big_blind folded_broke
      ∧ player_money st' = player_money folded_broke
      ∧ order_of_play st' ≡ₚ order_of_play folded_broke.
Proof.
  split.
  - apply (instantiate_deals_to_players_with_chips 0 (seq 0 24) []
             full_table).
    + apply (bool_decide_unpack (NoDup (seq 0 24))). vm_compute. exact I.
    + discriminate.
    + vm_compute. lia.
  - apply (instantiate_deals_to_players_with_chips 1 [0; 1; 2]
             [0; 1; 2; 3; 4; 13; 26; 39; 51] folded_broke).
    + apply (bool_decide_unpack (NoDup [0; 1; 2])). vm_compute. exact I.
    + discriminate.
    + vm_compute. reflexivity.
    + apply (bool_decide_unpack
               (NoDup [0; 1; 2; 3; 4; 13; 26; 39; 51])).
      vm_compute. exact I.
    + repeat constructor; lia.
Defined.




End new_round.
